(** * PDF417 scanning decoder (core/src/pdf417/PDFScanningDecoder.cpp)

    A shallow embedding of the static functions of the scanning decoder and
    of [ScanningDecoder::Decode], followed by the properties of the
    specification that were checked against it.  The functions of the Java
    bridge of the Android wrapper that compute on values follow the decoder.

    Conventions of the embedding.
    - A C++ [int] is a [Z].  The model covers the executions in which no
      signed arithmetic overflows (overflow of [int] is undefined in C++).
      [/] is [Z.quot] and [%] is [Z.rem] (truncation towards zero).
    - A [std::vector<T>] is a [list T]; [operator[]] out of range is undefined
      behaviour and is modelled by [None] in the [option] monad.
    - [Nullable<T>] is [option T].
    - An out-parameter is returned next to the function's result.
    - The classes that the file only uses (bit matrix, bounding box, detection
      result, detection result column, barcode value, decoder result, the
      Reed-Solomon decoder, the bit stream parser, the codeword tables) are
      parameters of the sections that need them. *)

From Stdlib Require Import ZArith Lia Bool List.
From stdpp Require Import base option list strings.
Import ListNotations.
Import Ascii.AsciiSyntax.
Delimit Scope char_scope with char.
Open Scope Z_scope.

(** ** Status codes and vectors *)

Inductive ErrorStatus : Type :=
  | NoError
  | NotFound
  | FormatError
  | ChecksumError.

#[global] Instance ErrorStatus_eq_dec : EqDecision ErrorStatus.
Proof. solve_decision. Defined.

Definition StatusIsOK (s : ErrorStatus) : bool :=
  bool_decide (s = NoError).

(** [v.size()] converted to [int]. *)
Definition size {A} (v : list A) : Z := Z.of_nat (length v).

(** [v[i]] read; [None] when [i] is out of range. *)
Definition at_ {A} (v : list A) (i : Z) : option A :=
  if (0 <=? i) && (i <? size v) then v !! Z.to_nat i else None.

(** [v[i] = x]; [None] when [i] is out of range. *)
Definition assign {A} (v : list A) (i : Z) (x : A) : option (list A) :=
  if (0 <=? i) && (i <? size v) then Some (<[Z.to_nat i := x]> v) else None.

(** ** Row traversal *)

Definition CODEWORD_SKEW_SIZE : Z := 2.

(** Modelled from the spec: [Common::BARS_IN_MODULE] is declared in
    PDFCommon.h, which is not among the sources; section 6 of the
    specification gives its value. *)
Definition BARS_IN_MODULE : Z := 8.

(** Modelled from the spec: [BitMatrix] (BitMatrix.h, not among the sources)
    is a read-only bitmap with [width()], [height()] and [get(x, y)], true
    for a black pixel. *)
Record BitMatrix : Type := {
  width : Z;
  height : Z;
  get : Z -> Z -> bool;
}.

(** Modelled from the spec: [Codeword] (PDFCodeword.h, not among the sources)
    holds [startX], [endX], [bucket] and [value]; [width()] is
    [endX - startX]; the row number is not known when the codeword is built. *)
Record Codeword : Type := {
  startX : Z;
  endX : Z;
  bucket : Z;
  value : Z;
  rowNumber : Z;
}.

Definition Codeword_new (startX endX bucket value : Z) : Codeword :=
  {| startX := startX; endX := endX; bucket := bucket; value := value;
     rowNumber := -1 |}.

Definition Codeword_width (c : Codeword) : Z := endX c - startX c.

(** The codeword tables, [CodewordDecoder::GetDecodedValue] and
    [Common::GetCodeword] (both return -1 for "none"), and
    [Common::MAX_CODEWORDS_IN_BARCODE]. *)
Class Symbols : Type := {
  GetDecodedValue : list Z -> Z;
  GetCodeword : Z -> Z;
  MAX_CODEWORDS_IN_BARCODE : Z;
}.

(** How the [while] loop of [AdjustCodewordStartColumn] is left. *)
Inductive Adjusted : Type :=
  | GiveUp                             (* [return codewordStartColumn] *)
  | Stopped (correctedStartColumn : Z). (* the loop condition is false *)

Fixpoint AdjustCodewordStartColumn_while (fuel : nat) (image : BitMatrix)
    (minColumn maxColumn : Z) (leftToRight : bool) (codewordStartColumn imageRow : Z)
    (increment correctedStartColumn : Z) : option Adjusted :=
  match fuel with
  | O => None
  | S fuel' =>
      if (if leftToRight then correctedStartColumn >=? minColumn
          else correctedStartColumn <? maxColumn)
         && eqb leftToRight (get image correctedStartColumn imageRow)
      then
        if Z.abs (codewordStartColumn - correctedStartColumn) >? CODEWORD_SKEW_SIZE
        then Some GiveUp
        else AdjustCodewordStartColumn_while fuel' image minColumn maxColumn leftToRight
               codewordStartColumn imageRow increment (correctedStartColumn + increment)
      else Some (Stopped correctedStartColumn)
  end.

(** The [for (i = 0; i < 2; i++)] loop, [passes] iterations to go. *)
Fixpoint AdjustCodewordStartColumn_for (passes fuel : nat) (image : BitMatrix)
    (minColumn maxColumn : Z) (leftToRight : bool) (codewordStartColumn imageRow : Z)
    (increment correctedStartColumn : Z) : option Z :=
  match passes with
  | O => Some correctedStartColumn
  | S passes' =>
      r ← AdjustCodewordStartColumn_while fuel image minColumn maxColumn leftToRight
            codewordStartColumn imageRow increment correctedStartColumn;
      match r with
      | GiveUp => Some codewordStartColumn
      | Stopped correctedStartColumn =>
          AdjustCodewordStartColumn_for passes' fuel image minColumn maxColumn
            (negb leftToRight) codewordStartColumn imageRow (- increment)
            correctedStartColumn
      end
  end.

(** Each [while] loop moves in one direction and gives up once it is more
    than [CODEWORD_SKEW_SIZE] away, so eight steps are enough for it
    ([AdjustCodewordStartColumn_total]). *)
Definition AdjustCodewordStartColumn (image : BitMatrix) (minColumn maxColumn : Z)
    (leftToRight : bool) (codewordStartColumn imageRow : Z) : option Z :=
  let correctedStartColumn := codewordStartColumn in
  let increment := if leftToRight then -1 else 1 in
  AdjustCodewordStartColumn_for 2 8 image minColumn maxColumn leftToRight
    codewordStartColumn imageRow increment correctedStartColumn.

(** *** The start column as the specification words it

    Each of the two loops looks at one column after the other, against the
    direction of its scan, and moves on from a column that is inside its
    bound and shows the colour of its scan.  It may move on only from a
    column within [CODEWORD_SKEW_SIZE] of the start column: it stops at the
    first column it does not move on from, and it is out of tolerance when
    it would move on from a column further away. *)

Section StartColumn.

Variables (image : BitMatrix) (minColumn maxColumn codewordStartColumn imageRow : Z).

Definition moves_on (leftToRight : bool) (column : Z) : bool :=
  (if leftToRight then column >=? minColumn else column <? maxColumn)
  && eqb leftToRight (get image column imageRow).

(** The column [k] steps after [from]. *)
Definition step_from (leftToRight : bool) (from : Z) (k : nat) : Z :=
  from + Z.of_nat k * (if leftToRight then -1 else 1).

(** The loop that starts at [from] takes [k] steps. *)
Definition walks (leftToRight : bool) (from : Z) (k : nat) : Prop :=
  forall j : nat, (j < k)%nat ->
    moves_on leftToRight (step_from leftToRight from j) = true
    /\ Z.abs (codewordStartColumn - step_from leftToRight from j) <= CODEWORD_SKEW_SIZE.

Definition stops_at (leftToRight : bool) (from column : Z) : Prop :=
  exists k : nat,
    walks leftToRight from k
    /\ column = step_from leftToRight from k
    /\ moves_on leftToRight column = false.

Definition out_of_tolerance (leftToRight : bool) (from : Z) : Prop :=
  exists k : nat,
    walks leftToRight from k
    /\ moves_on leftToRight (step_from leftToRight from k) = true
    /\ Z.abs (codewordStartColumn - step_from leftToRight from k) > CODEWORD_SKEW_SIZE.

End StartColumn.

(** The [while] loop of [GetModuleBitCount]; the state when it is left. *)
Fixpoint GetModuleBitCount_while (fuel : nat) (image : BitMatrix)
    (minColumn maxColumn : Z) (leftToRight : bool) (imageRow increment : Z)
    (imageColumn moduleNumber : Z) (previousPixelValue : bool)
    (moduleBitCount : list Z) : option (Z * Z * list Z) :=
  match fuel with
  | O => None
  | S fuel' =>
      if (if leftToRight then imageColumn <? maxColumn else imageColumn >=? minColumn)
         && (moduleNumber <? size moduleBitCount)
      then
        if eqb (get image imageColumn imageRow) previousPixelValue then
          count ← at_ moduleBitCount moduleNumber;
          moduleBitCount ← assign moduleBitCount moduleNumber (count + 1);
          GetModuleBitCount_while fuel' image minColumn maxColumn leftToRight imageRow
            increment (imageColumn + increment) moduleNumber previousPixelValue
            moduleBitCount
        else
          GetModuleBitCount_while fuel' image minColumn maxColumn leftToRight imageRow
            increment imageColumn (moduleNumber + 1) (negb previousPixelValue)
            moduleBitCount
      else Some (imageColumn, moduleNumber, moduleBitCount)
  end.

(** A step either moves [imageColumn] towards the bound or starts the next
    module: the columns left, the modules and the last test bound the number
    of steps ([GetModuleBitCount_total]). *)
Definition GetModuleBitCount_fuel (minColumn maxColumn : Z) (leftToRight : bool)
    (startColumn : Z) : nat :=
  Z.to_nat (if leftToRight then maxColumn - startColumn
            else startColumn - minColumn + 1)
  + Z.to_nat BARS_IN_MODULE + 1.

(** Returns the result and [moduleBitCount]. *)
Definition GetModuleBitCount (image : BitMatrix) (minColumn maxColumn : Z)
    (leftToRight : bool) (startColumn imageRow : Z) : option (bool * list Z) :=
  let imageColumn := startColumn in
  let moduleNumber := 0 in
  let increment := if leftToRight then 1 else -1 in
  let previousPixelValue := leftToRight in
  let moduleBitCount := replicate (Z.to_nat BARS_IN_MODULE) 0 in
  '(imageColumn, moduleNumber, moduleBitCount) ←
    GetModuleBitCount_while (GetModuleBitCount_fuel minColumn maxColumn leftToRight startColumn)
      image minColumn maxColumn leftToRight imageRow increment imageColumn moduleNumber
      previousPixelValue moduleBitCount;
  Some ((moduleNumber =? size moduleBitCount)
        || ((imageColumn =? (if leftToRight then maxColumn else minColumn))
            && (moduleNumber =? size moduleBitCount - 1)),
        moduleBitCount).

Definition CheckCodewordSkew (codewordSize minCodewordWidth maxCodewordWidth : Z) : bool :=
  (minCodewordWidth - CODEWORD_SKEW_SIZE <=? codewordSize)
  && (codewordSize <=? maxCodewordWidth + CODEWORD_SKEW_SIZE).

(** The [while (true)] loop of [GetBitCountForCodeword]; [None] when the
    fuel is used up. *)
Fixpoint GetBitCountForCodeword_while (fuel : nat) (codeword previousValue i : Z)
    (result : list Z) : option (list Z) :=
  match fuel with
  | O => None
  | S fuel' =>
      let changed := negb (Z.land codeword 1 =? previousValue) in
      let previousValue := if changed then Z.land codeword 1 else previousValue in
      let i := if changed then i - 1 else i in
      if changed && (i <? 0) then Some result
      else
        count ← at_ result i;
        result ← assign result i (count + 1);
        GetBitCountForCodeword_while fuel' (Z.shiftr codeword 1) previousValue i result
  end.

(** A run that ends reads each bit of [codeword] once and one bit more; a run
    that has not ended by then never ends ([GetBitCountForCodeword_diverges]). *)
Definition GetBitCountForCodeword_fuel (codeword : Z) : nat :=
  Z.to_nat (Z.log2 (Z.abs codeword)) + 3.

Definition GetBitCountForCodeword (codeword : Z) : option (list Z) :=
  let result := replicate (Z.to_nat BARS_IN_MODULE) 0 in
  let previousValue := 0 in
  let i := size result - 1 in
  GetBitCountForCodeword_while (GetBitCountForCodeword_fuel codeword)
    codeword previousValue i result.

(** [GetCodewordBucketNumber(const ModuleBitCountType&)]. *)
Definition GetCodewordBucketNumber_of (moduleBitCount : list Z) : option Z :=
  b0 ← at_ moduleBitCount 0;
  b2 ← at_ moduleBitCount 2;
  b4 ← at_ moduleBitCount 4;
  b6 ← at_ moduleBitCount 6;
  Some (Z.rem (b0 - b2 + b4 - b6 + 9) 9).

(** [GetCodewordBucketNumber(int)]. *)
Definition GetCodewordBucketNumber (codeword : Z) : option Z :=
  bitcount ← GetBitCountForCodeword codeword;
  GetCodewordBucketNumber_of bitcount.

(** [std::accumulate(begin, end, 0)]. *)
Definition accumulate (v : list Z) : Z := foldl Z.add 0 v.

(** Modelled from the spec: the symbol table behind [Common::GetCodeword]
    (PDFCommon.cpp, not among the sources).  A symbol is a pattern of 17
    modules, four bars and four spaces in turn, bar first, each at least one
    module wide; a bar module is a 1 bit and the first module is the most
    significant bit.  [modules_value] builds the pattern from its widths,
    last module first. *)
Fixpoint modules_value (bar : bool) (widths : list Z) : Z :=
  match widths with
  | [] => 0
  | w :: widths' =>
      (if bar then Z.ones w else 0) + Z.shiftl (modules_value (negb bar) widths') w
  end.

Definition is_symbol (pattern : Z) (moduleBitCount : list Z) : Prop :=
  length moduleBitCount = 8%nat
  /\ Forall (fun w => 1 <= w) moduleBitCount
  /\ accumulate moduleBitCount = 17
  /\ pattern = modules_value false (reverse moduleBitCount).

(** Modelled from the spec: [Common::GetCodeword] looks a pattern up in the
    symbol table and returns -1 when it is not there; the codewords of the
    table are 0..928. *)
Definition Symbols_contract {symbols : Symbols} : Prop :=
  forall pattern : Z,
    GetCodeword pattern <> -1 ->
    0 <= GetCodeword pattern < 929
    /\ exists moduleBitCount, is_symbol pattern moduleBitCount.

Section Scanning.

Context {symbols : Symbols}.

(** [Some None] is the [nullptr] result. *)
Definition DetectCodeword (image : BitMatrix) (minColumn maxColumn : Z)
    (leftToRight : bool) (startColumn imageRow minCodewordWidth maxCodewordWidth : Z)
  : option (option Codeword) :=
  startColumn ← AdjustCodewordStartColumn image minColumn maxColumn leftToRight
                  startColumn imageRow;
  '(found, moduleBitCount) ← GetModuleBitCount image minColumn maxColumn leftToRight
                               startColumn imageRow;
  if negb found then Some None
  else
    let codewordBitCount := accumulate moduleBitCount in
    let '(moduleBitCount, startColumn, endColumn) :=
      if leftToRight then (moduleBitCount, startColumn, startColumn + codewordBitCount)
      else (reverse moduleBitCount, startColumn - codewordBitCount, startColumn) in
    if negb (CheckCodewordSkew codewordBitCount minCodewordWidth maxCodewordWidth)
    then Some None
    else
      let decodedValue := GetDecodedValue moduleBitCount in
      if negb (decodedValue =? -1) then
        let codeword := GetCodeword decodedValue in
        if negb (codeword =? -1) then
          bucket ← GetCodewordBucketNumber decodedValue;
          Some (Some (Codeword_new startColumn endColumn bucket codeword))
        else Some None
      else Some None.

End Scanning.

(** ** Row indicators, metadata and bounding box *)

Record BarcodeMetadata : Type := {
  columnCount : Z;
  errorCorrectionLevel : Z;
  rowCount : Z;
}.

Inductive RowIndicator : Type :=
  | RowIndicator_None
  | RowIndicator_Left
  | RowIndicator_Right.

(** The classes of the detection result.  A method that is not [const] also
    returns its object; a [bool] method with an out-parameter returns an
    [option]. *)
Class Detection : Type := {
  ResultPoint : Type;
  ResultPoint_x : ResultPoint -> Z;                (* [(int)p.x()] *)
  ResultPoint_y : ResultPoint -> Z;                (* [(int)p.y()] *)

  BoundingBox : Type;
  minX : BoundingBox -> Z;
  maxX : BoundingBox -> Z;
  minY : BoundingBox -> Z;
  maxY : BoundingBox -> Z;
  BoundingBox_Create :
    Z -> Z -> option ResultPoint -> option ResultPoint ->
    option ResultPoint -> option ResultPoint -> option BoundingBox;
  BoundingBox_AddMissingRows : BoundingBox -> Z -> Z -> bool -> option BoundingBox;
  BoundingBox_Merge :
    option BoundingBox -> option BoundingBox -> option (option BoundingBox);

  DetectionResultColumn : Type;
  DetectionResultColumn_new : BoundingBox -> RowIndicator -> DetectionResultColumn;
  setCodeword : DetectionResultColumn -> Z -> Codeword -> DetectionResultColumn;
  DetectionResultColumn_codeword : DetectionResultColumn -> Z -> option Codeword;
  codewordNearby : DetectionResultColumn -> Z -> option Codeword;
  allCodewords : DetectionResultColumn -> list (option Codeword);
  getBarcodeMetadata :
    DetectionResultColumn -> DetectionResultColumn * option BarcodeMetadata;
  getRowHeights : DetectionResultColumn -> DetectionResultColumn * option (list Z);
  DetectionResultColumn_boundingBox : DetectionResultColumn -> BoundingBox;
  isLeftRowIndicator : DetectionResultColumn -> bool;

  DetectionResult : Type;
  DetectionResult_new : DetectionResult;
  init : DetectionResult -> BarcodeMetadata -> option BoundingBox -> DetectionResult;
  getBoundingBox : DetectionResult -> option BoundingBox;
  setBoundingBox : DetectionResult -> BoundingBox -> DetectionResult;
  barcodeColumnCount : DetectionResult -> Z;
  barcodeRowCount : DetectionResult -> Z;
  barcodeECLevel : DetectionResult -> Z;
  setColumn : DetectionResult -> Z -> option DetectionResultColumn -> DetectionResult;
  DetectionResult_column : DetectionResult -> Z -> option DetectionResultColumn;
  allColumns : DetectionResult -> DetectionResult * list (option DetectionResultColumn);

  BarcodeValue : Type;
  BarcodeValue_new : BarcodeValue;
  setValue : BarcodeValue -> Z -> BarcodeValue;
  BarcodeValue_value : BarcodeValue -> list Z;
}.

(** [for (i = from; i < from + count; i++) body], each step defined or not. *)
Fixpoint for_range {S} (count : nat) (from : Z) (body : Z -> S -> option S) (s : S)
  : option S :=
  match count with
  | O => Some s
  | Datatypes.S count' => s' ← body from s; for_range count' (from + 1) body s'
  end.

(** A size given as an [int]: a negative one converts to a huge [size_t] and
    the allocation throws. *)
Definition as_size (n : Z) : option nat :=
  if n <? 0 then None else Some (Z.to_nat n).

Section Detecting.

Context {symbols : Symbols} {detection : Detection}.

(** One pass of [GetRowIndicatorColumn] over the image rows. *)
Fixpoint GetRowIndicatorColumn_rows (fuel : nat) (image : BitMatrix)
    (boundingBox : BoundingBox) (leftToRight : bool)
    (minCodewordWidth maxCodewordWidth increment imageRow startColumn : Z)
    (rowIndicatorColumn : DetectionResultColumn) : option DetectionResultColumn :=
  match fuel with
  | O => None
  | S fuel' =>
      if (imageRow <=? maxY boundingBox) && (imageRow >=? minY boundingBox) then
        codeword ← DetectCodeword image 0 (width image) leftToRight startColumn imageRow
                     minCodewordWidth maxCodewordWidth;
        let '(rowIndicatorColumn, startColumn) :=
          match codeword with
          | Some codeword =>
              (setCodeword rowIndicatorColumn imageRow codeword,
               if leftToRight then startX codeword else endX codeword)
          | None => (rowIndicatorColumn, startColumn)
          end in
        GetRowIndicatorColumn_rows fuel' image boundingBox leftToRight minCodewordWidth
          maxCodewordWidth increment (imageRow + increment) startColumn rowIndicatorColumn
      else Some rowIndicatorColumn
  end.

(** The two passes of the outer loop, downwards ([i == 0]) then upwards; a
    pass visits at most the rows of the bounding box and tests once more. *)
Definition GetRowIndicatorColumn (image : BitMatrix) (boundingBox : BoundingBox)
    (startPoint : ResultPoint) (leftToRight : bool)
    (minCodewordWidth maxCodewordWidth : Z) : option DetectionResultColumn :=
  let rowIndicatorColumn :=
    DetectionResultColumn_new boundingBox
      (if leftToRight then RowIndicator_Left else RowIndicator_Right) in
  let fuel := (Z.to_nat (maxY boundingBox - minY boundingBox + 1) + 1)%nat in
  rowIndicatorColumn ←
    GetRowIndicatorColumn_rows fuel image boundingBox leftToRight minCodewordWidth
      maxCodewordWidth 1 (ResultPoint_y startPoint) (ResultPoint_x startPoint)
      rowIndicatorColumn;
  GetRowIndicatorColumn_rows fuel image boundingBox leftToRight minCodewordWidth
    maxCodewordWidth (-1) (ResultPoint_y startPoint) (ResultPoint_x startPoint)
    rowIndicatorColumn.

(** [column != nullptr && column.value().getBarcodeMetadata(metadata)]. *)
Definition metadata_of (rowIndicatorColumn : option DetectionResultColumn)
  : option DetectionResultColumn * option BarcodeMetadata :=
  match rowIndicatorColumn with
  | None => (None, None)
  | Some column =>
      let '(column, metadata) := getBarcodeMetadata column in (Some column, metadata)
  end.

(** Returns the two columns and the metadata, [None] for [false]. *)
Definition GetBarcodeMetadata
    (leftRowIndicatorColumn rightRowIndicatorColumn : option DetectionResultColumn)
  : option DetectionResultColumn * option DetectionResultColumn * option BarcodeMetadata :=
  let '(leftRowIndicatorColumn, leftBarcodeMetadata) :=
    metadata_of leftRowIndicatorColumn in
  match leftBarcodeMetadata with
  | None =>
      let '(rightRowIndicatorColumn, result) := metadata_of rightRowIndicatorColumn in
      (leftRowIndicatorColumn, rightRowIndicatorColumn, result)
  | Some leftBarcodeMetadata =>
      let '(rightRowIndicatorColumn, rightBarcodeMetadata) :=
        metadata_of rightRowIndicatorColumn in
      match rightBarcodeMetadata with
      | None => (leftRowIndicatorColumn, rightRowIndicatorColumn, Some leftBarcodeMetadata)
      | Some rightBarcodeMetadata =>
          if negb (columnCount leftBarcodeMetadata =? columnCount rightBarcodeMetadata)
             && negb (errorCorrectionLevel leftBarcodeMetadata
                      =? errorCorrectionLevel rightBarcodeMetadata)
             && negb (rowCount leftBarcodeMetadata =? rowCount rightBarcodeMetadata)
          then (leftRowIndicatorColumn, rightRowIndicatorColumn, None)
          else (leftRowIndicatorColumn, rightRowIndicatorColumn, Some leftBarcodeMetadata)
      end
  end.

Definition GetMax (v : list Z) : Z :=
  match v with
  | [] => -1
  | x :: v' => foldl Z.max x v'
  end.

(** [for (int rowHeight : rowHeights)] with its [break]. *)
Fixpoint missing_rows (maxRowHeight : Z) (rowHeights : list Z) (missing : Z) : Z :=
  match rowHeights with
  | [] => missing
  | rowHeight :: rowHeights' =>
      let missing := missing + (maxRowHeight - rowHeight) in
      if rowHeight >? 0 then missing
      else missing_rows maxRowHeight rowHeights' missing
  end.

(** [for (row = ..; missing > 0 && codewords[row] == nullptr; row += step)
    missing--]. *)
Fixpoint skip_empty (fuel : nat) (codewords : list (option Codeword))
    (row step missing : Z) : option Z :=
  match fuel with
  | O => None
  | S fuel' =>
      if missing >? 0 then
        codeword ← at_ codewords row;
        match codeword with
        | None => skip_empty fuel' codewords (row + step) step (missing - 1)
        | Some _ => Some missing
        end
      else Some missing
  end.

(** Returns the column and the box, [None] for [false].  The loop over
    [rowHeights] from its end is the loop from the start on the reversed
    vector. *)
Definition AdjustBoundingBox (rowIndicatorColumn : option DetectionResultColumn)
  : option (option DetectionResultColumn * option (option BoundingBox)) :=
  match rowIndicatorColumn with
  | None => Some (None, Some None)
  | Some column =>
      let '(column, rowHeights) := getRowHeights column in
      match rowHeights with
      | None => Some (Some column, Some None)
      | Some rowHeights =>
          let maxRowHeight := GetMax rowHeights in
          let missingStartRows := missing_rows maxRowHeight rowHeights 0 in
          let codewords := allCodewords column in
          missingStartRows ←
            skip_empty (Z.to_nat missingStartRows + 1) codewords 0 1 missingStartRows;
          let missingEndRows := missing_rows maxRowHeight (reverse rowHeights) 0 in
          missingEndRows ←
            skip_empty (Z.to_nat missingEndRows + 1) codewords (size codewords - 1) (-1)
              missingEndRows;
          Some (Some column,
                match BoundingBox_AddMissingRows (DetectionResultColumn_boundingBox column)
                        missingStartRows missingEndRows (isLeftRowIndicator column) with
                | Some box => Some (Some box)
                | None => None
                end)
      end
  end.

(** Returns the two columns, the detection result and the [bool]. *)
Definition Merge
    (leftRowIndicatorColumn rightRowIndicatorColumn : option DetectionResultColumn)
    (result : DetectionResult)
  : option (option DetectionResultColumn * option DetectionResultColumn
            * DetectionResult * bool) :=
  if bool_decide (leftRowIndicatorColumn <> None)
     || bool_decide (rightRowIndicatorColumn <> None)
  then
    let '(leftRowIndicatorColumn, rightRowIndicatorColumn, barcodeMetadata) :=
      GetBarcodeMetadata leftRowIndicatorColumn rightRowIndicatorColumn in
    match barcodeMetadata with
    | Some barcodeMetadata =>
        '(leftRowIndicatorColumn, leftBox) ← AdjustBoundingBox leftRowIndicatorColumn;
        match leftBox with
        | Some leftBox =>
            '(rightRowIndicatorColumn, rightBox) ←
              AdjustBoundingBox rightRowIndicatorColumn;
            match rightBox with
            | Some rightBox =>
                match BoundingBox_Merge leftBox rightBox with
                | Some mergedBox =>
                    Some (leftRowIndicatorColumn, rightRowIndicatorColumn,
                          init result barcodeMetadata mergedBox, true)
                | None => Some (leftRowIndicatorColumn, rightRowIndicatorColumn, result, false)
                end
            | None => Some (leftRowIndicatorColumn, rightRowIndicatorColumn, result, false)
            end
        | None => Some (leftRowIndicatorColumn, rightRowIndicatorColumn, result, false)
        end
    | None => Some (leftRowIndicatorColumn, rightRowIndicatorColumn, result, false)
    end
  else Some (leftRowIndicatorColumn, rightRowIndicatorColumn, result, false).

(** ** Data columns and the barcode matrix *)

Definition IsValidBarcodeColumn (detectionResult : DetectionResult) (barcodeColumn : Z)
  : bool :=
  (barcodeColumn >=? 0) && (barcodeColumn <=? barcodeColumnCount detectionResult + 1).

(** [Nullable<T>::value()]: no result on an empty one. *)
Definition Nullable_value {A} (n : option A) : option A := n.

(** The first codeword of the range-[for] that is not [nullptr]. *)
Fixpoint first_codeword (codewords : list (option Codeword)) : option Codeword :=
  match codewords with
  | [] => None
  | Some codeword :: _ => Some codeword
  | None :: codewords' => first_codeword codewords'
  end.

(** The [while] loop of [GetStartColumn] and the [return] after it. *)
Fixpoint GetStartColumn_while (fuel : nat) (detectionResult : DetectionResult)
    (leftToRight : bool) (offset barcodeColumn skippedColumns : Z) : option Z :=
  match fuel with
  | O => None
  | S fuel' =>
      if IsValidBarcodeColumn detectionResult (barcodeColumn - offset) then
        let barcodeColumn := barcodeColumn - offset in
        column ← Nullable_value (DetectionResult_column detectionResult barcodeColumn);
        match first_codeword (allCodewords column) with
        | Some previousRowCodeword =>
            Some ((if leftToRight then endX previousRowCodeword
                   else startX previousRowCodeword)
                  + offset * skippedColumns
                    * (endX previousRowCodeword - startX previousRowCodeword))
        | None =>
            GetStartColumn_while fuel' detectionResult leftToRight offset barcodeColumn
              (skippedColumns + 1)
        end
      else
        box ← Nullable_value (getBoundingBox detectionResult);
        Some (if leftToRight then minX box else maxX box)
  end.

(** [barcodeColumn - offset] moves one column per step of the loop and leaves
    the valid columns after at most [barcodeColumnCount + 2] steps, none when
    there is no valid column; the test that ends the loop takes one more. *)
Definition GetStartColumn (detectionResult : DetectionResult)
    (barcodeColumn imageRow : Z) (leftToRight : bool) : option Z :=
  let offset := if leftToRight then 1 else -1 in
  codeword ←
    (if IsValidBarcodeColumn detectionResult (barcodeColumn - offset) then
       column ← Nullable_value (DetectionResult_column detectionResult (barcodeColumn - offset));
       Some (DetectionResultColumn_codeword column imageRow)
     else Some None);
  match codeword with
  | Some codeword => Some (if leftToRight then endX codeword else startX codeword)
  | None =>
      column ← Nullable_value (DetectionResult_column detectionResult barcodeColumn);
      match codewordNearby column imageRow with
      | Some codeword => Some (if leftToRight then startX codeword else endX codeword)
      | None =>
          codeword ←
            (if IsValidBarcodeColumn detectionResult (barcodeColumn - offset) then
               column ← Nullable_value
                          (DetectionResult_column detectionResult (barcodeColumn - offset));
               Some (codewordNearby column imageRow)
             else Some None);
          match codeword with
          | Some codeword => Some (if leftToRight then endX codeword else startX codeword)
          | None =>
              GetStartColumn_while (S (Z.to_nat (barcodeColumnCount detectionResult + 2)))
                detectionResult leftToRight offset barcodeColumn 0
          end
      end
  end.

(** [barcodeMatrix[rowNumber][column].setValue(v)]. *)
Definition matrix_setValue (barcodeMatrix : list (list BarcodeValue))
    (rowNumber column v : Z) : option (list (list BarcodeValue)) :=
  row ← at_ barcodeMatrix rowNumber;
  cell ← at_ row column;
  row ← assign row column (setValue cell v);
  assign barcodeMatrix rowNumber row.

(** The codewords of one column of the detection result. *)
Fixpoint CreateBarcodeMatrix_codewords (codewords : list (option Codeword)) (column : Z)
    (barcodeMatrix : list (list BarcodeValue)) : option (list (list BarcodeValue)) :=
  match codewords with
  | [] => Some barcodeMatrix
  | codeword :: codewords' =>
      barcodeMatrix ←
        match codeword with
        | Some codeword =>
            let rowNumber := rowNumber codeword in
            if rowNumber >=? 0 then
              if rowNumber >=? size barcodeMatrix then Some barcodeMatrix
              else matrix_setValue barcodeMatrix rowNumber column (value codeword)
            else Some barcodeMatrix
        | None => Some barcodeMatrix
        end;
      CreateBarcodeMatrix_codewords codewords' column barcodeMatrix
  end.

(** The columns of the detection result, [column] counting them. *)
Fixpoint CreateBarcodeMatrix_columns (columns : list (option DetectionResultColumn))
    (column : Z) (barcodeMatrix : list (list BarcodeValue))
  : option (list (list BarcodeValue)) :=
  match columns with
  | [] => Some barcodeMatrix
  | resultColumn :: columns' =>
      barcodeMatrix ←
        match resultColumn with
        | Some resultColumn =>
            CreateBarcodeMatrix_codewords (allCodewords resultColumn) column barcodeMatrix
        | None => Some barcodeMatrix
        end;
      CreateBarcodeMatrix_columns columns' (column + 1) barcodeMatrix
  end.

(** The two [resize] of [CreateBarcodeMatrix].  [row.resize] runs once for
    each row: with no row the number of cells is never converted to a
    size. *)
Definition CreateBarcodeMatrix_resize (detectionResult : DetectionResult)
  : option (list (list BarcodeValue)) :=
  rows ← as_size (barcodeRowCount detectionResult);
  match rows with
  | O => Some []
  | Datatypes.S _ =>
      cells ← as_size (barcodeColumnCount detectionResult + 2);
      Some (replicate rows (replicate cells BarcodeValue_new))
  end.

(** Returns the detection result and the matrix. *)
Definition CreateBarcodeMatrix (detectionResult : DetectionResult)
  : option (DetectionResult * list (list BarcodeValue)) :=
  barcodeMatrix ← CreateBarcodeMatrix_resize detectionResult;
  let '(detectionResult, columns) := allColumns detectionResult in
  barcodeMatrix ← CreateBarcodeMatrix_columns columns 0 barcodeMatrix;
  Some (detectionResult, barcodeMatrix).

Definition GetNumberOfECCodeWords (barcodeECLevel : Z) : Z :=
  Z.shiftl 2 barcodeECLevel.

(** Returns the [bool] and the matrix. *)
Definition AdjustCodewordCount (detectionResult : DetectionResult)
    (barcodeMatrix : list (list BarcodeValue))
  : option (bool * list (list BarcodeValue)) :=
  row ← at_ barcodeMatrix 0;
  cell ← at_ row 1;
  let numberOfCodewords := BarcodeValue_value cell in
  let calculatedNumberOfCodewords :=
    barcodeColumnCount detectionResult * barcodeRowCount detectionResult
    - GetNumberOfECCodeWords (barcodeECLevel detectionResult) in
  match numberOfCodewords with
  | [] =>
      if (calculatedNumberOfCodewords <? 1)
         || (calculatedNumberOfCodewords >? MAX_CODEWORDS_IN_BARCODE)
      then Some (false, barcodeMatrix)
      else
        barcodeMatrix ← matrix_setValue barcodeMatrix 0 1 calculatedNumberOfCodewords;
        Some (true, barcodeMatrix)
  | first :: _ =>
      if negb (first =? calculatedNumberOfCodewords) then
        barcodeMatrix ← matrix_setValue barcodeMatrix 0 1 calculatedNumberOfCodewords;
        Some (true, barcodeMatrix)
      else Some (true, barcodeMatrix)
  end.

End Detecting.

(** The cell [barcodeMatrix[rowNumber][column]], when there is one. *)
Definition cell_at {A} (barcodeMatrix : list (list A)) (rowNumber column : Z)
  : option A :=
  row ← at_ barcodeMatrix rowNumber; at_ row column.

(** The values of the codewords of a column that carry the row number
    [barcodeRow], in the order of the column. *)
Definition row_values (codewords : list (option Codeword)) (barcodeRow : Z) : list Z :=
  omap (fun codeword : option Codeword =>
          match codeword with
          | Some codeword =>
              if rowNumber codeword =? barcodeRow then Some (value codeword) else None
          | None => None
          end)
    codewords.

(** ** Calls to the external decoders

    The Reed-Solomon decoder and the bit stream parser are the two external
    decoders the file drives.  Functions that may reach them run in a monad
    that logs every call (latest call last) and that fails on undefined
    behaviour. *)

Inductive Call : Type :=
  | ErrorCorrection_Decode (codewords : list Z) (numECCodewords : Z) (erasures : list Z)
  | DecodedBitStreamParser_Decode (codewords : list Z) (ecLevel : Z).

Definition Run (A : Type) : Type := list Call -> option (A * list Call).

#[global] Instance Run_ret : MRet Run := fun A a log => Some (a, log).
#[global] Instance Run_bind : MBind Run := fun A B k m log =>
  match m log with
  | Some (a, log') => k a log'
  | None => None
  end.

Definition called (c : Call) : Run unit := fun log => Some (tt, log ++ [c]).

(** An [option] computation (a vector access) inside [Run]. *)
Definition defined {A} (o : option A) : Run A := fun log =>
  match o with
  | Some a => Some (a, log)
  | None => None
  end.

(** ** Error correction and codeword count *)

Definition MAX_ERRORS : Z := 3.
Definition MAX_EC_CODEWORDS : Z := 512.

(** [DecoderResult] and [StringCodecs], and the two external decoders as
    functions of their arguments, in-out parameters included. *)
Class Decoders : Type := {
  DecoderResult : Type;
  StringCodecs : Type;
  ErrorCorrection_Decode_fn : list Z -> Z -> list Z -> Z -> bool * list Z * Z;
  DecodedBitStreamParser_Decode_fn :
    list Z -> Z -> StringCodecs -> DecoderResult -> ErrorStatus * DecoderResult;
  setErrorsCorrected : DecoderResult -> Z -> DecoderResult;
  setErasures : DecoderResult -> Z -> DecoderResult;
}.

(** The Reed-Solomon decoder corrects the codewords in place: it leaves the
    vector as long as it was. *)
Definition keeps_size {decoders : Decoders} : Prop :=
  forall (codewords : list Z) (numECCodewords : Z) (erasures : list Z) (errorCount : Z),
    size (ErrorCorrection_Decode_fn codewords numECCodewords erasures errorCount).1.2
    = size codewords.

Section Decoding.

Context {decoders : Decoders}.

(** Returns the status, the codewords and [errorCount]. *)
Definition CorrectErrors (codewords erasures : list Z) (numECCodewords errorCount : Z)
  : Run (ErrorStatus * list Z * Z) :=
  if (size erasures >? Z.quot numECCodewords 2 + MAX_ERRORS)
     || (numECCodewords <? 0)
     || (numECCodewords >? MAX_EC_CODEWORDS)
  then mret (ChecksumError, codewords, errorCount)
  else
    _ ← called (ErrorCorrection_Decode codewords numECCodewords erasures);
    let '(ok, codewords', errorCount') :=
      ErrorCorrection_Decode_fn codewords numECCodewords erasures errorCount in
    mret (if ok then NoError else ChecksumError, codewords', errorCount').

(** Returns the status and the codewords. *)
Definition VerifyCodewordCount (codewords : list Z) (numECCodewords : Z)
  : ErrorStatus * list Z :=
  if size codewords <? 4 then (FormatError, codewords)
  else
    match codewords with
    | numberOfCodewords :: rest =>
        if numberOfCodewords >? size codewords then (FormatError, codewords)
        else if numberOfCodewords =? 0 then
          if numECCodewords <? size codewords
          then (NoError, (size codewords - numECCodewords) :: rest)
          else (FormatError, codewords)
        else (NoError, codewords)
    | [] => (FormatError, codewords) (* not reached: the size is at least 4 *)
    end.

(** Returns the status, the codewords and the decoder result. *)
Definition DecodeCodewords (codewords : list Z) (ecLevel : Z) (erasures : list Z)
    (codec : StringCodecs) (result : DecoderResult)
  : Run (ErrorStatus * list Z * DecoderResult) :=
  if bool_decide (codewords = []) then mret (FormatError, codewords, result)
  else
    let numECCodewords := Z.shiftl 1 (ecLevel + 1) in
    let correctedErrorsCount := 0 in
    '(status, codewords, correctedErrorsCount) ←
      CorrectErrors codewords erasures numECCodewords correctedErrorsCount;
    if StatusIsOK status then
      let '(status, codewords) := VerifyCodewordCount codewords numECCodewords in
      if StatusIsOK status then
        _ ← called (DecodedBitStreamParser_Decode codewords ecLevel);
        let '(status, result) :=
          DecodedBitStreamParser_Decode_fn codewords ecLevel codec result in
        if StatusIsOK status then
          let result := setErrorsCorrected result correctedErrorsCount in
          let result := setErasures result (size erasures) in
          mret (NoError, codewords, result)
        else mret (status, codewords, result)
      else mret (status, codewords, result)
    else mret (status, codewords, result).

(** *** Ambiguous values *)

(** The first [for] loop of an attempt: every ambiguous position of
    [codewords] receives the value its counter selects. *)
Definition patch (ambiguousIndexes : list Z) (ambiguousIndexValues : list (list Z))
    (ambiguousIndexCount : list Z) (codewords : list Z) : option (list Z) :=
  for_range (length ambiguousIndexCount) 0
    (fun i codewords =>
       index ← at_ ambiguousIndexes i;
       values ← at_ ambiguousIndexValues i;
       count ← at_ ambiguousIndexCount i;
       value ← at_ values count;
       assign codewords index value)
    codewords.

(** Outcome of the second [for] loop of an attempt. *)
Inductive Advance : Type :=
  | Advanced (ambiguousIndexCount : list Z)  (* left the loop, next attempt *)
  | Exhausted.                               (* [return ChecksumError] *)

(** The second [for] loop, from position [i], [count] positions to go. *)
Fixpoint advance (count : nat) (i : Z) (ambiguousIndexValues : list (list Z))
    (ambiguousIndexCount : list Z) : option Advance :=
  match count with
  | O => Some (Advanced ambiguousIndexCount)
  | Datatypes.S count' =>
      c ← at_ ambiguousIndexCount i;
      values ← at_ ambiguousIndexValues i;
      if c <? size values - 1 then
        ambiguousIndexCount ← assign ambiguousIndexCount i (c + 1);
        Some (Advanced ambiguousIndexCount)
      else
        ambiguousIndexCount ← assign ambiguousIndexCount i 0;
        if i =? size ambiguousIndexCount - 1 then Some Exhausted
        else advance count' (i + 1) ambiguousIndexValues ambiguousIndexCount
  end.

(** The [while (tries-- > 0)] loop; [tries] is the number of attempts left. *)
Fixpoint attempts (tries : nat) (ecLevel : Z) (erasureArray ambiguousIndexes : list Z)
    (ambiguousIndexValues : list (list Z)) (codec : StringCodecs)
    (ambiguousIndexCount codewords : list Z) (result : DecoderResult)
  : Run (ErrorStatus * list Z * DecoderResult) :=
  match tries with
  | O => mret (ChecksumError, codewords, result)
  | Datatypes.S tries' =>
      codewords ← defined (patch ambiguousIndexes ambiguousIndexValues
                             ambiguousIndexCount codewords);
      '(status, codewords, result) ←
        DecodeCodewords codewords ecLevel erasureArray codec result;
      if bool_decide (status <> ChecksumError) then mret (status, codewords, result)
      else if bool_decide (ambiguousIndexCount = []) then
        mret (ChecksumError, codewords, result)
      else
        next ← defined (advance (length ambiguousIndexCount) 0 ambiguousIndexValues
                          ambiguousIndexCount);
        match next with
        | Exhausted => mret (ChecksumError, codewords, result)
        | Advanced ambiguousIndexCount =>
            attempts tries' ecLevel erasureArray ambiguousIndexes ambiguousIndexValues
              codec ambiguousIndexCount codewords result
        end
  end.

Definition CreateDecoderResultFromAmbiguousValues (ecLevel : Z) (codewords : list Z)
    (erasureArray ambiguousIndexes : list Z) (ambiguousIndexValues : list (list Z))
    (codec : StringCodecs) (result : DecoderResult)
  : Run (ErrorStatus * list Z * DecoderResult) :=
  let ambiguousIndexCount := replicate (length ambiguousIndexes) 0 in
  attempts 100 ecLevel erasureArray ambiguousIndexes ambiguousIndexValues codec
    ambiguousIndexCount codewords result.

(** *** The resolver as the specification words it

    The counters are the digits of a mixed-radix number, least significant
    position first; the radix of a position is the number of candidate
    values of its cell. *)

Fixpoint combination (radix : list Z) (j : Z) : list Z :=
  match radix with
  | [] => []
  | n :: radix' => j mod n :: combination radix' (j / n)
  end.

Definition product (radix : list Z) : Z := foldr Z.mul 1 radix.

(** All combinations, in counting order. *)
Definition combinations (radix : list Z) : list (list Z) :=
  map (combination radix) (seqZ 0 (product radix)).

(** The candidate values that a combination selects, one for each ambiguous
    cell: [choice] gives, cell by cell, the place of the candidate in the
    list of the cell. *)
Definition selected (ambiguousIndexValues : list (list Z)) (choice : list Z) : list Z :=
  zip_with (fun values place => nth (Z.to_nat place) values 0) ambiguousIndexValues
    choice.

(** The value that the writes [(index, value)] leave at position [p], the
    last of them when several write there, none when none does. *)
Fixpoint written (writes : list (Z * Z)) (p : Z) : option Z :=
  match writes with
  | [] => None
  | (index, value) :: writes' =>
      match written writes' p with
      | Some later => Some later
      | None => if index =? p then Some value else None
      end
  end.

(** The codewords with the written values at the positions written to and as
    they were everywhere else; no vector when a write is outside the
    vector. *)
Definition substitute (codewords : list Z) (writes : list (Z * Z)) : option (list Z) :=
  if forallb (fun write : Z * Z => (0 <=? write.1) && (write.1 <? size codewords)) writes
  then Some (imap (fun p old => default old (written writes (Z.of_nat p))) codewords)
  else None.

(** Try the combinations in turn, each on the codewords in which every
    ambiguous index holds the candidate value the combination selects for
    it: the first status that is not [ChecksumError] is returned at once,
    [ChecksumError] when none is left. *)
Fixpoint try_each (todo : list (list Z)) (ecLevel : Z)
    (erasureArray ambiguousIndexes : list Z) (ambiguousIndexValues : list (list Z))
    (codec : StringCodecs) (codewords : list Z) (result : DecoderResult)
  : Run (ErrorStatus * list Z * DecoderResult) :=
  match todo with
  | [] => mret (ChecksumError, codewords, result)
  | choice :: todo' =>
      codewords ← defined
        (substitute codewords
           (zip ambiguousIndexes (selected ambiguousIndexValues choice)));
      '(status, codewords, result) ←
        DecodeCodewords codewords ecLevel erasureArray codec result;
      if bool_decide (status <> ChecksumError) then mret (status, codewords, result)
      else try_each todo' ecLevel erasureArray ambiguousIndexes ambiguousIndexValues
             codec codewords result
  end.

End Decoding.

(** ** The decoder *)

Section Decoder.

Context {symbols : Symbols} {detection : Detection} {decoders : Decoders}.

(** What the two loops of [CreateDecoderResult] collect. *)
Record Cells : Type := {
  erasures : list Z;
  codewords : list Z;
  ambiguousIndexValues : list (list Z);
  ambiguousIndexesList : list Z;
}.

(** The body of the inner loop of [CreateDecoderResult]. *)
Definition CreateDecoderResult_cell (detectionResult : DetectionResult)
    (barcodeMatrix : list (list BarcodeValue)) (row column : Z) (cells : Cells)
  : option Cells :=
  matrixRow ← at_ barcodeMatrix row;
  cell ← at_ matrixRow (column + 1);
  let values := BarcodeValue_value cell in
  let codewordIndex := row * barcodeColumnCount detectionResult + column in
  match values with
  | [] =>
      Some {| erasures := erasures cells ++ [codewordIndex];
              codewords := codewords cells;
              ambiguousIndexValues := ambiguousIndexValues cells;
              ambiguousIndexesList := ambiguousIndexesList cells |}
  | [v] =>
      codewords' ← assign (codewords cells) codewordIndex v;
      Some {| erasures := erasures cells;
              codewords := codewords';
              ambiguousIndexValues := ambiguousIndexValues cells;
              ambiguousIndexesList := ambiguousIndexesList cells |}
  | _ =>
      Some {| erasures := erasures cells;
              codewords := codewords cells;
              ambiguousIndexValues := ambiguousIndexValues cells ++ [values];
              ambiguousIndexesList := ambiguousIndexesList cells ++ [codewordIndex] |}
  end.

(** Returns the status and the decoder result. *)
Definition CreateDecoderResult (detectionResult : DetectionResult)
    (codec : StringCodecs) (result : DecoderResult)
  : Run (ErrorStatus * DecoderResult) :=
  '(detectionResult, barcodeMatrix) ← defined (CreateBarcodeMatrix detectionResult);
  '(adjusted, barcodeMatrix) ← defined (AdjustCodewordCount detectionResult barcodeMatrix);
  if negb adjusted then mret (NotFound, result)
  else
    count ← defined (as_size (barcodeRowCount detectionResult
                              * barcodeColumnCount detectionResult));
    let cells := {| erasures := []; codewords := replicate count 0;
                    ambiguousIndexValues := []; ambiguousIndexesList := [] |} in
    cells ← defined
      (for_range (Z.to_nat (barcodeRowCount detectionResult)) 0
         (fun row =>
            for_range (Z.to_nat (barcodeColumnCount detectionResult)) 0
              (CreateDecoderResult_cell detectionResult barcodeMatrix row))
         cells);
    '(status, _, result) ←
      CreateDecoderResultFromAmbiguousValues (barcodeECLevel detectionResult)
        (codewords cells) (erasures cells) (ambiguousIndexesList cells)
        (ambiguousIndexValues cells) codec result;
    mret (status, result).

(** What the first loop of [Decode] leaves behind. *)
Record Indicators : Type := {
  leftRowIndicatorColumn : option DetectionResultColumn;
  rightRowIndicatorColumn : option DetectionResultColumn;
  detectionResult : DetectionResult;
  boundingBox : BoundingBox;
}.

(** The [for (i = 0; i < 2; i++)] loop of [Decode], [passes] iterations to
    go; the inner [None] is [return ErrorStatus::NotFound]. *)
Fixpoint Decode_indicators (passes : nat) (i : Z) (image : BitMatrix)
    (imageTopLeft imageTopRight : option ResultPoint)
    (minCodewordWidth maxCodewordWidth : Z) (state : Indicators)
  : option (option Indicators) :=
  match passes with
  | O => Some (Some state)
  | S passes' =>
      left ←
        match imageTopLeft with
        | Some topLeft =>
            column ← GetRowIndicatorColumn image (boundingBox state) topLeft true
                       minCodewordWidth maxCodewordWidth;
            Some (Some column)
        | None => Some (leftRowIndicatorColumn state)
        end;
      right ←
        match imageTopRight with
        | Some topRight =>
            column ← GetRowIndicatorColumn image (boundingBox state) topRight false
                       minCodewordWidth maxCodewordWidth;
            Some (Some column)
        | None => Some (rightRowIndicatorColumn state)
        end;
      '(left, right, result, merged) ← Merge left right (detectionResult state);
      if negb merged then Some None
      else
        match getBoundingBox result with
        | Some box =>
            if (i =? 0)
               && ((minY box <? minY (boundingBox state))
                   || (maxY box >? maxY (boundingBox state)))
            then
              Decode_indicators passes' (i + 1) image imageTopLeft imageTopRight
                minCodewordWidth maxCodewordWidth
                {| leftRowIndicatorColumn := left; rightRowIndicatorColumn := right;
                   detectionResult := result; boundingBox := box |}
            else
              Some (Some {| leftRowIndicatorColumn := left;
                            rightRowIndicatorColumn := right;
                            detectionResult := setBoundingBox result (boundingBox state);
                            boundingBox := boundingBox state |})
        | None =>
            Some (Some {| leftRowIndicatorColumn := left;
                          rightRowIndicatorColumn := right;
                          detectionResult := setBoundingBox result (boundingBox state);
                          boundingBox := boundingBox state |})
        end
  end.

(** The state of the scan of the data columns. *)
Record Scan : Type := {
  scanned : DetectionResult;
  previousStartColumn : Z;
  minWidth : Z;
  maxWidth : Z;
}.

(** The body of the loop over the image rows. *)
Definition Decode_row (image : BitMatrix) (box : BoundingBox) (leftToRight : bool)
    (barcodeColumn imageRow : Z) (scan : Scan) : option Scan :=
  startColumn ← GetStartColumn (scanned scan) barcodeColumn imageRow leftToRight;
  let outside := (startColumn <? 0) || (startColumn >? maxX box) in
  if outside && (previousStartColumn scan =? -1) then Some scan
  else
    let startColumn := if outside then previousStartColumn scan else startColumn in
    codeword ← DetectCodeword image (minX box) (maxX box) leftToRight startColumn imageRow
                 (minWidth scan) (maxWidth scan);
    match codeword with
    | Some codeword =>
        column ← Nullable_value (DetectionResult_column (scanned scan) barcodeColumn);
        Some {| scanned := setColumn (scanned scan) barcodeColumn
                             (Some (setCodeword column imageRow codeword));
                previousStartColumn := startColumn;
                minWidth := Z.min (minWidth scan) (Codeword_width codeword);
                maxWidth := Z.max (maxWidth scan) (Codeword_width codeword) |}
    | None => Some scan
    end.

(** The body of the loop over the barcode columns; the widths carry over
    from one column to the next. *)
Definition Decode_column (image : BitMatrix) (box : BoundingBox) (leftToRight : bool)
    (maxBarcodeColumn barcodeColumnCount : Z) (scan : Scan) : option Scan :=
  let barcodeColumn :=
    if leftToRight then barcodeColumnCount else maxBarcodeColumn - barcodeColumnCount in
  if bool_decide (DetectionResult_column (scanned scan) barcodeColumn <> None)
  then Some scan
  else
    let rowIndicator :=
      if barcodeColumn =? 0 then RowIndicator_Left
      else if barcodeColumn =? maxBarcodeColumn then RowIndicator_Right
      else RowIndicator_None in
    for_range (Z.to_nat (maxY box - minY box + 1)) (minY box)
      (Decode_row image box leftToRight barcodeColumn)
      {| scanned := setColumn (scanned scan) barcodeColumn
                      (Some (DetectionResultColumn_new box rowIndicator));
         previousStartColumn := -1;
         minWidth := minWidth scan;
         maxWidth := maxWidth scan |}.

(** [ScanningDecoder::Decode]; returns the status and the decoder result. *)
Definition Decode (image : BitMatrix)
    (imageTopLeft imageBottomLeft imageTopRight imageBottomRight : option ResultPoint)
    (minCodewordWidth maxCodewordWidth : Z) (codec : StringCodecs)
    (result : DecoderResult) : Run (ErrorStatus * DecoderResult) :=
  match BoundingBox_Create (width image) (height image) imageTopLeft imageBottomLeft
          imageTopRight imageBottomRight with
  | None => mret (NotFound, result)
  | Some box =>
      indicators ← defined
        (Decode_indicators 2 0 image imageTopLeft imageTopRight minCodewordWidth
           maxCodewordWidth
           {| leftRowIndicatorColumn := None; rightRowIndicatorColumn := None;
              detectionResult := DetectionResult_new; boundingBox := box |});
      match indicators with
      | None => mret (NotFound, result)
      | Some indicators =>
          let box := boundingBox indicators in
          let detectionResult := detectionResult indicators in
          let maxBarcodeColumn := barcodeColumnCount detectionResult + 1 in
          let detectionResult :=
            setColumn detectionResult 0 (leftRowIndicatorColumn indicators) in
          let detectionResult :=
            setColumn detectionResult maxBarcodeColumn (rightRowIndicatorColumn indicators) in
          let leftToRight := bool_decide (leftRowIndicatorColumn indicators <> None) in
          scan ← defined
            (for_range (Z.to_nat maxBarcodeColumn) 1
               (Decode_column image box leftToRight maxBarcodeColumn)
               {| scanned := detectionResult; previousStartColumn := -1;
                  minWidth := minCodewordWidth; maxWidth := maxCodewordWidth |});
          CreateDecoderResult (scanned scan) codec result
      end
  end.

End Decoder.

(** What the loops of [CreateDecoderResult] keep true of what they
    collect, for a vector of [n] codewords. *)
Definition Cells_wf (n : Z) (cells : Cells) : Prop :=
  size (codewords cells) = n
  /\ length (ambiguousIndexValues cells) = length (ambiguousIndexesList cells)
  /\ Forall (fun values => 2 <= size values) (ambiguousIndexValues cells)
  /\ Forall (fun index => 0 <= index < n) (erasures cells)
  /\ Forall (fun index => 0 <= index < n) (ambiguousIndexesList cells).

(** ** An instance of the classes

    A small instance on which the decoder runs: one image row given as a
    list of pixels, a table with one symbol, a bounding box as four numbers,
    a column as the vector of its codewords, a barcode value as the multiset
    of the values it has seen.  The decoding of the row indicators and the
    Reed-Solomon code are not part of it: a column carries the metadata and
    the row heights it answers with, and the error correction accepts a
    vector whose sum is a multiple of 929. *)

Module Example.

(** The row [pixels] in every image row, from column 0; white elsewhere. *)
Definition row_image (pixels : list bool) : BitMatrix :=
  {| width := size pixels;
     height := 1;
     get := fun x _ => if x <? 0 then false else nth (Z.to_nat x) pixels false |}.

Definition B : bool := true.
Definition W : bool := false.

(** The symbol with the module widths 1 6 1 2 1 1 4 1. *)
Definition symbol_widths : list Z := [1; 6; 1; 2; 1; 1; 4; 1].
Definition symbol : Z := Eval cbv in modules_value false (reverse symbol_widths).

#[export] Instance symbols : Symbols := {|
  GetDecodedValue counts :=
    if (size counts =? 8) && forallb (fun w => 1 <=? w) counts
       && (accumulate counts =? 17)
    then modules_value false (reverse counts) else -1;
  GetCodeword pattern := if pattern =? symbol then 768 else -1;
  MAX_CODEWORDS_IN_BARCODE := 928;
|}.

Record Box : Type := {
  box_minX : Z;
  box_maxX : Z;
  box_minY : Z;
  box_maxY : Z;
}.

Record Column : Type := {
  column_box : Box;
  column_indicator : RowIndicator;
  column_codewords : list (option Codeword);
  column_metadata : option BarcodeMetadata;
  column_rowHeights : option (list Z);
}.

Record Result : Type := {
  result_metadata : BarcodeMetadata;
  result_box : option Box;
  result_columns : list (option Column);
}.

(** The values seen and how often, in increasing order of the values. *)
Fixpoint Value_set (seen : list (Z * Z)) (v : Z) : list (Z * Z) :=
  match seen with
  | [] => [(v, 1)]
  | (v', n) :: seen' =>
      if v <? v' then (v, 1) :: seen
      else if v =? v' then (v', n + 1) :: seen'
      else (v', n) :: Value_set seen' v
  end.

Definition Value_get (seen : list (Z * Z)) : list Z :=
  let most := foldr (fun vn m => Z.max vn.2 m) 0 seen in
  map fst (filter (fun vn => vn.2 = most) seen).

Definition Column_lookup (column : Column) (imageRow : Z) : option Codeword :=
  match at_ (column_codewords column) (imageRow - box_minY (column_box column)) with
  | Some codeword => codeword
  | None => None
  end.

#[export] Instance detection : Detection := {|
  ResultPoint := Z * Z;
  ResultPoint_x p := p.1;
  ResultPoint_y p := p.2;
  BoundingBox := Box;
  minX := box_minX;
  maxX := box_maxX;
  minY := box_minY;
  maxY := box_maxY;
  BoundingBox_Create imgWidth imgHeight topLeft bottomLeft topRight bottomRight :=
    match topLeft, bottomRight with
    | Some (x1, y1), Some (x2, y2) =>
        if (0 <=? x1) && (x1 <=? x2) && (x2 <? imgWidth)
           && (0 <=? y1) && (y1 <=? y2) && (y2 <? imgHeight)
        then Some {| box_minX := x1; box_maxX := x2; box_minY := y1; box_maxY := y2 |}
        else None
    | _, _ => None
    end;
  BoundingBox_AddMissingRows box missingStartRows missingEndRows isLeft :=
    if box_minY box - missingStartRows <? 0 then None
    else Some {| box_minX := box_minX box; box_maxX := box_maxX box;
                 box_minY := box_minY box - missingStartRows;
                 box_maxY := box_maxY box + missingEndRows |};
  BoundingBox_Merge leftBox rightBox :=
    match leftBox, rightBox with
    | Some l, Some r =>
        Some (Some {| box_minX := box_minX l; box_maxX := box_maxX r;
                      box_minY := Z.min (box_minY l) (box_minY r);
                      box_maxY := Z.max (box_maxY l) (box_maxY r) |})
    | Some l, None => Some (Some l)
    | None, r => Some r
    end;
  DetectionResultColumn := Column;
  DetectionResultColumn_new box indicator :=
    {| column_box := box; column_indicator := indicator;
       column_codewords :=
         replicate (Z.to_nat (box_maxY box - box_minY box + 1)) None;
       column_metadata := None; column_rowHeights := None |};
  setCodeword column imageRow codeword :=
    {| column_box := column_box column; column_indicator := column_indicator column;
       column_codewords :=
         <[Z.to_nat (imageRow - box_minY (column_box column)) := Some codeword]>
           (column_codewords column);
       column_metadata := column_metadata column;
       column_rowHeights := column_rowHeights column |};
  DetectionResultColumn_codeword := Column_lookup;
  codewordNearby column imageRow :=
    match Column_lookup column imageRow with
    | Some codeword => Some codeword
    | None =>
        match Column_lookup column (imageRow - 1) with
        | Some codeword => Some codeword
        | None => Column_lookup column (imageRow + 1)
        end
    end;
  allCodewords := column_codewords;
  getBarcodeMetadata column := (column, column_metadata column);
  getRowHeights column := (column, column_rowHeights column);
  DetectionResultColumn_boundingBox := column_box;
  isLeftRowIndicator column :=
    match column_indicator column with RowIndicator_Left => true | _ => false end;
  DetectionResult := Result;
  DetectionResult_new :=
    {| result_metadata := {| columnCount := 0; errorCorrectionLevel := 0; rowCount := 0 |};
       result_box := None; result_columns := [] |};
  init _ metadata box :=
    {| result_metadata := metadata; result_box := box;
       result_columns := replicate (Z.to_nat (columnCount metadata + 2)) None |};
  getBoundingBox := result_box;
  setBoundingBox result box :=
    {| result_metadata := result_metadata result; result_box := Some box;
       result_columns := result_columns result |};
  barcodeColumnCount result := columnCount (result_metadata result);
  barcodeRowCount result := rowCount (result_metadata result);
  barcodeECLevel result := errorCorrectionLevel (result_metadata result);
  setColumn result barcodeColumn column :=
    {| result_metadata := result_metadata result; result_box := result_box result;
       result_columns := <[Z.to_nat barcodeColumn := column]> (result_columns result) |};
  DetectionResult_column result barcodeColumn :=
    match at_ (result_columns result) barcodeColumn with
    | Some column => column
    | None => None
    end;
  allColumns result := (result, result_columns result);
  BarcodeValue := list (Z * Z);
  BarcodeValue_new := [];
  setValue := Value_set;
  BarcodeValue_value := Value_get;
|}.

Record Decoded : Type := {
  decoded_codewords : list Z;
  decoded_errorsCorrected : Z;
  decoded_erasures : Z;
}.

#[export] Instance decoders : Decoders := {|
  DecoderResult := Decoded;
  StringCodecs := unit;
  ErrorCorrection_Decode_fn codewords numECCodewords erasures errorCount :=
    if accumulate codewords mod 929 =? 0 then (true, codewords, 0)
    else (false, codewords, errorCount);
  DecodedBitStreamParser_Decode_fn codewords ecLevel codec result :=
    (NoError,
     {| decoded_codewords := codewords;
        decoded_errorsCorrected := decoded_errorsCorrected result;
        decoded_erasures := decoded_erasures result |});
  setErrorsCorrected result n :=
    {| decoded_codewords := decoded_codewords result;
       decoded_errorsCorrected := n;
       decoded_erasures := decoded_erasures result |};
  setErasures result n :=
    {| decoded_codewords := decoded_codewords result;
       decoded_errorsCorrected := decoded_errorsCorrected result;
       decoded_erasures := n |};
|}.

Definition no_result : Decoded :=
  {| decoded_codewords := []; decoded_errorsCorrected := 0; decoded_erasures := 0 |}.

(** A row with the example symbol from column 1 on, after one white
    pixel and before the first bar of the next symbol. *)
Definition symbol_row : list bool :=
  [W; B; W; W; W; W; W; W; B; W; W; B; W; B; B; B; B; W; B].


Definition left_metadata : BarcodeMetadata :=
  {| columnCount := 3; errorCorrectionLevel := 2; rowCount := 10 |}.

Definition right_metadata : BarcodeMetadata :=
  {| columnCount := 3; errorCorrectionLevel := 4; rowCount := 12 |}.

Definition indicator_column (indicator : RowIndicator) (metadata : BarcodeMetadata)
  : Column :=
  {| column_box := {| box_minX := 0; box_maxX := 18; box_minY := 0; box_maxY := 0 |};
     column_indicator := indicator;
     column_codewords := [None];
     column_metadata := Some metadata;
     column_rowHeights := None |}.

(** A detection result of 3 columns and 3 rows at error correction level 1. *)
Definition small_result : Result :=
  {| result_metadata := {| columnCount := 3; errorCorrectionLevel := 1; rowCount := 3 |};
     result_box := None;
     result_columns := replicate 5 None |}.

(** A codeword of the example symbol with a value and a row number. *)
Definition numbered (v r : Z) : Codeword :=
  {| startX := 1; endX := 18; bucket := 6; value := v; rowNumber := r |}.

(** A data column over five image rows. *)
Definition data_column (codewords : list (option Codeword)) : Column :=
  {| column_box := {| box_minX := 0; box_maxX := 18; box_minY := 0; box_maxY := 4 |};
     column_indicator := RowIndicator_None;
     column_codewords := codewords;
     column_metadata := None;
     column_rowHeights := Some [0; 2; 3; 0] |}.

(** No codeword in the first image row, and a last codeword for a row 7
    that the barcode does not have. *)
Definition first_column : Column :=
  data_column [None; Some (numbered 5 0); Some (numbered 10 1); Some (numbered 20 2);
               Some (numbered 11 7)].

(** Row 0 read three times, as 1, 9 and 1. *)
Definition second_column : Column :=
  data_column [Some (numbered 1 0); Some (numbered 9 0); Some (numbered 1 0);
               Some (numbered 2 1); Some (numbered 3 2)].

Definition third_column : Column :=
  data_column [Some (numbered 4 0); Some (numbered 6 1); None; Some (numbered 878 2);
               None].

(** A detection result of 3 columns and 3 rows at error correction level 1
    with the left row indicator column and the data columns; the codewords
    add up to 929. *)
Definition filled_result : Result :=
  {| result_metadata := {| columnCount := 3; errorCorrectionLevel := 1; rowCount := 3 |};
     result_box := Some {| box_minX := 0; box_maxX := 18; box_minY := 0; box_maxY := 4 |};
     result_columns :=
       [Some (indicator_column RowIndicator_Left left_metadata); Some first_column;
        Some second_column; Some third_column; None] |}.

(** The classes with a row indicator column that can be read: every column
    answers with the metadata of a barcode of 4 columns and 1 row at error
    correction level 0. *)
Definition read_metadata : BarcodeMetadata :=
  {| columnCount := 4; errorCorrectionLevel := 0; rowCount := 1 |}.

Definition detection_read : Detection := {|
  ResultPoint := Z * Z;
  ResultPoint_x p := p.1;
  ResultPoint_y p := p.2;
  BoundingBox := Box;
  minX := box_minX;
  maxX := box_maxX;
  minY := box_minY;
  maxY := box_maxY;
  BoundingBox_Create imgWidth imgHeight topLeft bottomLeft topRight bottomRight :=
    match topLeft, bottomRight with
    | Some (x1, y1), Some (x2, y2) =>
        if (0 <=? x1) && (x1 <=? x2) && (x2 <? imgWidth)
           && (0 <=? y1) && (y1 <=? y2) && (y2 <? imgHeight)
        then Some {| box_minX := x1; box_maxX := x2; box_minY := y1; box_maxY := y2 |}
        else None
    | _, _ => None
    end;
  BoundingBox_AddMissingRows box missingStartRows missingEndRows isLeft :=
    if box_minY box - missingStartRows <? 0 then None
    else Some {| box_minX := box_minX box; box_maxX := box_maxX box;
                 box_minY := box_minY box - missingStartRows;
                 box_maxY := box_maxY box + missingEndRows |};
  BoundingBox_Merge leftBox rightBox :=
    match leftBox, rightBox with
    | Some l, Some r =>
        Some (Some {| box_minX := box_minX l; box_maxX := box_maxX r;
                      box_minY := Z.min (box_minY l) (box_minY r);
                      box_maxY := Z.max (box_maxY l) (box_maxY r) |})
    | Some l, None => Some (Some l)
    | None, r => Some r
    end;
  DetectionResultColumn := Column;
  DetectionResultColumn_new box indicator :=
    {| column_box := box; column_indicator := indicator;
       column_codewords :=
         replicate (Z.to_nat (box_maxY box - box_minY box + 1)) None;
       column_metadata := None; column_rowHeights := None |};
  setCodeword column imageRow codeword :=
    {| column_box := column_box column; column_indicator := column_indicator column;
       column_codewords :=
         <[Z.to_nat (imageRow - box_minY (column_box column)) := Some codeword]>
           (column_codewords column);
       column_metadata := column_metadata column;
       column_rowHeights := column_rowHeights column |};
  DetectionResultColumn_codeword := Column_lookup;
  codewordNearby column imageRow :=
    match Column_lookup column imageRow with
    | Some codeword => Some codeword
    | None =>
        match Column_lookup column (imageRow - 1) with
        | Some codeword => Some codeword
        | None => Column_lookup column (imageRow + 1)
        end
    end;
  allCodewords := column_codewords;
  getBarcodeMetadata column := (column, Some read_metadata);
  getRowHeights column := (column, column_rowHeights column);
  DetectionResultColumn_boundingBox := column_box;
  isLeftRowIndicator column :=
    match column_indicator column with RowIndicator_Left => true | _ => false end;
  DetectionResult := Result;
  DetectionResult_new :=
    {| result_metadata := {| columnCount := 0; errorCorrectionLevel := 0; rowCount := 0 |};
       result_box := None; result_columns := [] |};
  init _ metadata box :=
    {| result_metadata := metadata; result_box := box;
       result_columns := replicate (Z.to_nat (columnCount metadata + 2)) None |};
  getBoundingBox := result_box;
  setBoundingBox result box :=
    {| result_metadata := result_metadata result; result_box := Some box;
       result_columns := result_columns result |};
  barcodeColumnCount result := columnCount (result_metadata result);
  barcodeRowCount result := rowCount (result_metadata result);
  barcodeECLevel result := errorCorrectionLevel (result_metadata result);
  setColumn result barcodeColumn column :=
    {| result_metadata := result_metadata result; result_box := result_box result;
       result_columns := <[Z.to_nat barcodeColumn := column]> (result_columns result) |};
  DetectionResult_column result barcodeColumn :=
    match at_ (result_columns result) barcodeColumn with
    | Some column => column
    | None => None
    end;
  allColumns result := (result, result_columns result);
  BarcodeValue := list (Z * Z);
  BarcodeValue_new := [];
  setValue := Value_set;
  BarcodeValue_value := Value_get;
|}.

(** A Reed-Solomon decoder that takes every vector as it is. *)
Definition decoders_accepting : Decoders := {|
  DecoderResult := Decoded;
  StringCodecs := unit;
  ErrorCorrection_Decode_fn codewords numECCodewords erasures errorCount :=
    (true, codewords, 0);
  DecodedBitStreamParser_Decode_fn codewords ecLevel codec result :=
    (NoError,
     {| decoded_codewords := codewords;
        decoded_errorsCorrected := decoded_errorsCorrected result;
        decoded_erasures := decoded_erasures result |});
  setErrorsCorrected result n :=
    {| decoded_codewords := decoded_codewords result;
       decoded_errorsCorrected := n;
       decoded_erasures := decoded_erasures result |};
  setErasures result n :=
    {| decoded_codewords := decoded_codewords result;
       decoded_errorsCorrected := decoded_errorsCorrected result;
       decoded_erasures := n |};
|}.

End Example.

(** * The Java bridge of the Android wrapper

    The functions of the JNI bridge that compute on values: the names of the
    Kotlin enum constants for the values of the C++ enums, the enum values
    for the names that come from the Kotlin side, and the list of formats
    cut out of what [Set.toString()] gives.  The calls into the JVM and into
    the readers are not part of the model.

    - The enums are declared in headers that are not among the sources; each
      has the enumerators its [switch] names, and [Other] for the values
      that fall to [default].
    - A function that may [throw std::invalid_argument(what)] returns an
      [Outcome].
    - A [std::string] is a [string] where it is only compared, and the list
      of its chars where it is cut; a [size_t] is a [Z] in [0, 2^64). *)

Inductive Outcome (A : Type) : Type :=
  | Returns (a : A)
  | Throws (what : string).

Arguments Returns {A} a.
Arguments Throws {A} what.

Module BarcodeFormat.
Inductive t : Type :=
  | None | Aztec | Codabar | Code39 | Code93 | Code128 | DataMatrix | EAN8 | EAN13
  | ITF | MaxiCode | PDF417 | QRCode | MicroQRCode | DataBar | DataBarExpanded
  | UPCA | UPCE
  | Other.
End BarcodeFormat.

Module ContentType.
Inductive t : Type := Text | Binary | Mixed | GS1 | ISO15434 | UnknownECI | Other.
End ContentType.

Module ErrorType.
Inductive t : Type := Format | Checksum | Unsupported | Other.
End ErrorType.

Module EanAddOnSymbol.
Inductive t : Type := Ignore | Read | Require.
End EanAddOnSymbol.

Module Binarizer.
Inductive t : Type := LocalAverage | GlobalHistogram | FixedThreshold | BoolCast.
End Binarizer.

Module TextMode.
Inductive t : Type := Plain | ECI | HRI | Hex | Escaped.
End TextMode.

Section JavaBridge.

Local Open Scope string_scope.

Definition JavaBarcodeFormatName (format : BarcodeFormat.t) : Outcome string :=
  match format with
  | BarcodeFormat.None => Returns "NONE"
  | BarcodeFormat.Aztec => Returns "AZTEC"
  | BarcodeFormat.Codabar => Returns "CODABAR"
  | BarcodeFormat.Code39 => Returns "CODE_39"
  | BarcodeFormat.Code93 => Returns "CODE_93"
  | BarcodeFormat.Code128 => Returns "CODE_128"
  | BarcodeFormat.DataMatrix => Returns "DATA_MATRIX"
  | BarcodeFormat.EAN8 => Returns "EAN_8"
  | BarcodeFormat.EAN13 => Returns "EAN_13"
  | BarcodeFormat.ITF => Returns "ITF"
  | BarcodeFormat.MaxiCode => Returns "MAXICODE"
  | BarcodeFormat.PDF417 => Returns "PDF_417"
  | BarcodeFormat.QRCode => Returns "QR_CODE"
  | BarcodeFormat.MicroQRCode => Returns "MICRO_QR_CODE"
  | BarcodeFormat.DataBar => Returns "DATA_BAR"
  | BarcodeFormat.DataBarExpanded => Returns "DATA_BAR_EXPANDED"
  | BarcodeFormat.UPCA => Returns "UPC_A"
  | BarcodeFormat.UPCE => Returns "UPC_E"
  | BarcodeFormat.Other => Throws "Invalid format"
  end.

Definition JavaContentTypeName (contentType : ContentType.t) : Outcome string :=
  match contentType with
  | ContentType.Text => Returns "TEXT"
  | ContentType.Binary => Returns "BINARY"
  | ContentType.Mixed => Returns "MIXED"
  | ContentType.GS1 => Returns "GS1"
  | ContentType.ISO15434 => Returns "ISO15434"
  | ContentType.UnknownECI => Returns "UNKNOWN_ECI"
  | ContentType.Other => Throws "Invalid contentType"
  end.

Definition JavaErrorTypeName (errorType : ErrorType.t) : Outcome string :=
  match errorType with
  | ErrorType.Format => Returns "FORMAT"
  | ErrorType.Checksum => Returns "CHECKSUM"
  | ErrorType.Unsupported => Returns "UNSUPPORTED"
  | ErrorType.Other => Throws "Invalid errorType"
  end.

Definition EanAddOnSymbolFromString (name : string) : Outcome EanAddOnSymbol.t :=
  if name =? "IGNORE" then Returns EanAddOnSymbol.Ignore
  else if name =? "READ" then Returns EanAddOnSymbol.Read
  else if name =? "REQUIRE" then Returns EanAddOnSymbol.Require
  else Throws "Invalid eanAddOnSymbol name".

Definition BinarizerFromString (name : string) : Outcome Binarizer.t :=
  if name =? "LOCAL_AVERAGE" then Returns Binarizer.LocalAverage
  else if name =? "GLOBAL_HISTOGRAM" then Returns Binarizer.GlobalHistogram
  else if name =? "FIXED_THRESHOLD" then Returns Binarizer.FixedThreshold
  else if name =? "BOOL_CAST" then Returns Binarizer.BoolCast
  else Throws "Invalid binarizer name".

Definition TextModeFromString (name : string) : Outcome TextMode.t :=
  if name =? "PLAIN" then Returns TextMode.Plain
  else if name =? "ECI" then Returns TextMode.ECI
  else if name =? "HRI" then Returns TextMode.HRI
  else if name =? "HEX" then Returns TextMode.Hex
  else if name =? "ESCAPED" then Returns TextMode.Escaped
  else Throws "Invalid textMode name".

End JavaBridge.

(** [std::string::npos], the greatest [size_t]. *)
Definition npos : Z := 2 ^ 64 - 1.

(** The position of the first char of [s] that is not [c]. *)
Fixpoint first_not (c : Ascii.ascii) (s : list Ascii.ascii) : option nat :=
  match s with
  | [] => None
  | a :: s' => if Ascii.eqb a c then S <$> first_not c s' else Some O
  end.

(** [s.find_first_not_of(c)]. *)
Definition find_first_not_of (s : list Ascii.ascii) (c : Ascii.ascii) : Z :=
  match first_not c s with
  | Some i => Z.of_nat i
  | None => npos
  end.

(** [s.find_last_not_of(c)]: the search from the end of [s]. *)
Definition find_last_not_of (s : list Ascii.ascii) (c : Ascii.ascii) : Z :=
  match first_not c (reverse s) with
  | Some i => size s - 1 - Z.of_nat i
  | None => npos
  end.

(** [s.erase(index, count)]: removes [min(count, size() - index)] chars from
    [index] on; [None] for the [std::out_of_range] of an [index] beyond the
    size. *)
Definition erase (s : list Ascii.ascii) (index count : Z) : option (list Ascii.ascii) :=
  if index >? size s then None
  else
    let count := Z.min count (size s - index) in
    Some (take (Z.to_nat index) s ++ drop (Z.to_nat (index + count)) s).

(** [JoinFormats] from the string [J2CString(env, jStr)] on; the [+ 1] is
    on [size_t] and wraps around. *)
Definition JoinFormats (jStr : list Ascii.ascii) : option (list Ascii.ascii) :=
  let s := jStr in
  s ← erase s 0 (find_first_not_of s "["%char);
  erase s ((find_last_not_of s "]"%char + 1) mod 2 ^ 64) npos.

(** * Properties *)

(** ** Vectors *)

Lemma size_nonneg {A} (v : list A) : 0 <= size v.
Proof. unfold size. lia. Qed.

Lemma size_cons {A} (x : A) (v : list A) : size (x :: v) = 1 + size v.
Proof. unfold size. cbn [length]. lia. Qed.

Lemma at_Some_range {A} (v : list A) i x :
  at_ v i = Some x -> 0 <= i < size v.
Proof.
  unfold at_. destruct (0 <=? i) eqn:H0, (i <? size v) eqn:H1; cbn; try discriminate.
  intros _. apply Z.leb_le in H0. apply Z.ltb_lt in H1. lia.
Qed.

Lemma at_in_range {A} (v : list A) i :
  0 <= i < size v -> exists x, at_ v i = Some x.
Proof.
  intros [H0 H1]. unfold at_.
  destruct (Z.leb_spec 0 i); [|lia]. destruct (Z.ltb_spec i (size v)); [|lia]. cbn.
  destruct (v !! Z.to_nat i) eqn:E; [eauto|].
  apply lookup_ge_None in E. unfold size in H1. lia.
Qed.

Lemma assign_size {A} (v v' : list A) i x :
  assign v i x = Some v' -> size v' = size v.
Proof.
  unfold assign. destruct (_ && _); [|discriminate].
  intros [= <-]. unfold size. now rewrite length_insert.
Qed.


Lemma at_lookup {A} (v : list A) (i : Z) (x : A) :
  at_ v i = Some x -> v !! Z.to_nat i = Some x.
Proof.
  unfold at_. destruct (_ && _); [auto|discriminate].
Qed.

(** ** Error correction and codeword count *)

Section DecodingProperties.

Context {decoders : Decoders}.

Lemma Run_bind_unfold {A B} (m : Run A) (k : A -> Run B) log :
  (m ≫= k) log = match m log with Some (a, log') => k a log' | None => None end.
Proof. reflexivity. Qed.

Lemma Run_ret_unfold {A} (a : A) log : (mret a : Run A) log = Some (a, log).
Proof. reflexivity. Qed.


(** C5: [VerifyCodewordCount] answers [FormatError] exactly when the vector
    has fewer than 4 elements, or its first element exceeds its length, or
    its first element is 0 and [numECCodewords] is not smaller than the
    length; the vector is then as it was.  Otherwise the answer is [NoError]:
    a first element 0 has been replaced by [length - numECCodewords] (and
    [numECCodewords] is smaller than the length), any other vector is as it
    was. *)
Theorem VerifyCodewordCount_cases (codewords : list Z) (numECCodewords : Z) :
  let first := nth 0 codewords 0 in
  let status := (VerifyCodewordCount codewords numECCodewords).1 in
  let codewords' := (VerifyCodewordCount codewords numECCodewords).2 in
  (status = FormatError <->
   size codewords < 4 \/ first > size codewords
   \/ (first = 0 /\ numECCodewords >= size codewords))
  /\ (status = FormatError /\ codewords' = codewords
      \/ status = NoError /\ first = 0 /\ numECCodewords < size codewords
         /\ codewords' = <[0%nat := size codewords - numECCodewords]> codewords
      \/ status = NoError /\ first <> 0 /\ codewords' = codewords).
Proof.
  unfold VerifyCodewordCount.
  destruct (Z.ltb_spec (size codewords) 4) as [Hlen|Hlen]; cbn [fst snd].
  { split; [split; auto|]. left. auto. }
  destruct codewords as [|first rest]; [unfold size in Hlen; cbn in Hlen; lia|].
  cbn [nth].
  destruct (Z.gtb_spec first (size (first :: rest))) as [Hgt|Hgt]; cbn [fst snd].
  { split; [split; auto with lia|]. left. auto. }
  destruct (Z.eqb_spec first 0) as [H0|H0].
  - destruct (Z.ltb_spec numECCodewords (size (first :: rest))) as [Hec|Hec];
      cbn [fst snd].
    + split; [split; [discriminate|lia]|]. right. left. auto.
    + split; [split; auto with lia|]. left. auto.
  - cbn [fst snd]. split; [split; [discriminate|lia]|]. right. right. auto.
Qed.

(** C10: on an empty codewords vector [DecodeCodewords] answers
    [FormatError] and calls neither the Reed-Solomon decoder nor the bit
    stream parser: the log of calls and the decoder result are unchanged. *)
Theorem DecodeCodewords_empty (ecLevel : Z) (erasures : list Z) (codec : StringCodecs)
    (result : DecoderResult) (log : list Call) :
  DecodeCodewords [] ecLevel erasures codec result log
  = Some (FormatError, [], result, log).
Proof. reflexivity. Qed.

(** *** The mixed-radix counter *)

Lemma product_cons n radix : product (n :: radix) = n * product radix.
Proof. reflexivity. Qed.

Lemma product_pos radix : Forall (fun n => 1 <= n) radix -> 1 <= product radix.
Proof.
  induction 1 as [|n radix Hn _ IH]; [reflexivity|]. rewrite product_cons. nia.
Qed.

Lemma combination_length radix j : length (combination radix j) = length radix.
Proof. revert j. induction radix as [|n radix IH]; intros j; cbn; [|rewrite IH]; reflexivity. Qed.

Lemma combination_zero radix :
  Forall (fun n => 1 <= n) radix -> combination radix 0 = replicate (length radix) 0.
Proof.
  induction 1 as [|n radix Hn _ IH]; [reflexivity|]. cbn.
  rewrite Z.mod_0_l, Z.div_0_l by lia. now rewrite IH.
Qed.

Lemma combination_digits radix j :
  Forall (fun n => 1 <= n) radix ->
  Forall2 (fun c n => 0 <= c < n) (combination radix j) radix.
Proof.
  intros Hradix. revert j. induction Hradix as [|n radix Hn _ IH]; intros j; cbn.
  - constructor.
  - constructor; [apply Z.mod_pos_bound; lia | apply IH].
Qed.

Lemma combination_inj radix j1 j2 :
  Forall (fun n => 1 <= n) radix ->
  0 <= j1 < product radix -> 0 <= j2 < product radix ->
  combination radix j1 = combination radix j2 -> j1 = j2.
Proof.
  intros Hradix. revert j1 j2.
  induction Hradix as [|n radix Hn _ IH]; intros j1 j2 H1 H2 Heq.
  - cbn in H1, H2. lia.
  - rewrite product_cons in H1, H2. cbn in Heq. injection Heq as Hmod Hdiv.
    apply IH in Hdiv.
    + rewrite (Z.div_mod j1 n), (Z.div_mod j2 n) by lia. congruence.
    + split; [apply Z.div_pos; lia | apply Z.div_lt_upper_bound; lia].
    + split; [apply Z.div_pos; lia | apply Z.div_lt_upper_bound; lia].
Qed.

(** Every choice of one candidate per cell is among the combinations. *)
Lemma combinations_complete radix choice :
  Forall (fun n => 1 <= n) radix ->
  Forall2 (fun c n => 0 <= c < n) choice radix ->
  choice ∈ combinations radix.
Proof.
  intros Hradix Hchoice. unfold combinations.
  enough (exists j, 0 <= j < product radix /\ combination radix j = choice) as (j & Hj & <-).
  { apply list_elem_of_fmap. exists j. split; [reflexivity|]. apply elem_of_seqZ. lia. }
  induction Hchoice as [|c n choice radix Hc _ IH].
  - exists 0. cbn. split; [lia|reflexivity].
  - inversion Hradix as [|? ? Hn Hradix']; subst.
    destruct (IH Hradix') as (j & Hj & Hcomb).
    pose proof (product_pos radix Hradix').
    exists (c + n * j). rewrite product_cons. split; [nia|]. cbn.
    replace (c + n * j) with (c + j * n) by lia.
    rewrite Z_mod_plus_full, Z.mod_small by lia.
    rewrite Z.div_add, Z.div_small by lia. rewrite Z.add_0_l. now rewrite Hcomb.
Qed.

Lemma combinations_NoDup radix :
  Forall (fun n => 1 <= n) radix -> NoDup (combinations radix).
Proof.
  intros Hradix. unfold combinations. apply NoDup_fmap_2_strong.
  - intros j1 j2 H1%elem_of_seqZ H2%elem_of_seqZ. apply combination_inj; auto with lia.
  - apply NoDup_seqZ.
Qed.

Lemma at_app_r {A} (pre suf : list A) (x : A) (i : Z) :
  i = size pre -> at_ (pre ++ x :: suf) i = Some x.
Proof.
  intros ->. unfold at_, size. rewrite length_app. cbn [length].
  destruct (Z.leb_spec 0 (Z.of_nat (length pre))); [|lia].
  destruct (Z.ltb_spec (Z.of_nat (length pre)) (Z.of_nat (length pre + S (length suf))));
    [|lia].
  cbn. rewrite Nat2Z.id. now rewrite list_lookup_middle.
Qed.

Lemma assign_app_r {A} (pre suf : list A) (x y : A) (i : Z) :
  i = size pre -> assign (pre ++ x :: suf) i y = Some (pre ++ y :: suf).
Proof.
  intros ->. unfold assign, size. rewrite length_app. cbn [length].
  destruct (Z.leb_spec 0 (Z.of_nat (length pre))); [|lia].
  destruct (Z.ltb_spec (Z.of_nat (length pre)) (Z.of_nat (length pre + S (length suf))));
    [|lia].
  cbn. rewrite Nat2Z.id. f_equal.
  rewrite insert_app_r_alt by lia. now rewrite Nat.sub_diag.
Qed.

(** The second loop of an attempt is the successor of the counter: from
    position [size done] on, with the positions before it already reset. *)
Lemma advance_successor (values : list (list Z)) :
  Forall (fun v => 1 <= size v) values -> values <> [] ->
  forall (doneValues : list (list Z)) (done : list Z) (j : Z),
    length doneValues = length done ->
    0 <= j < product (map size values) ->
    advance (length values) (size done) (doneValues ++ values)
      (done ++ combination (map size values) j)
    = Some (if j + 1 <? product (map size values)
            then Advanced (done ++ combination (map size values) (j + 1))
            else Exhausted).
Proof.
  induction 1 as [|v values Hv Hvalues IH]; [congruence|].
  intros _ doneValues done j Hlen Hj.
  cbn [map] in Hj. cbn [map length advance combination]. rewrite product_cons in *.
  set (n := size v) in *. set (radix := map size values) in *.
  assert (Hp : 1 <= product radix).
  { apply product_pos. subst radix. clear -Hvalues.
    induction Hvalues; constructor; auto. }
  assert (Hsize : size done = size doneValues) by (unfold size; lia).
  rewrite (at_app_r done) by reflexivity.
  rewrite (at_app_r doneValues) by exact Hsize. cbn [mbind option_bind]. fold n.
  pose proof (Z.mod_pos_bound j n ltac:(lia)) as Hmod.
  pose proof (Z.div_mod j n ltac:(lia)) as Hdm.
  assert (Hdiv : 0 <= j `div` n < product radix).
  { split; [apply Z.div_pos; lia | apply Z.div_lt_upper_bound; lia]. }
  destruct (Z.ltb_spec (j `mod` n) (n - 1)) as [Hlt|Hge].
  - rewrite (assign_app_r done) by reflexivity. cbn [mbind option_bind].
    assert (Hnext : (j + 1) `mod` n = j `mod` n + 1 /\ (j + 1) `div` n = j `div` n).
    { assert (j + 1 = (j `div` n) * n + (j `mod` n + 1)) as -> by lia.
      rewrite Z.add_comm, Z_mod_plus_full, Z.div_add by lia.
      rewrite Z.mod_small, Z.div_small by lia. lia. }
    destruct Hnext as [-> ->].
    destruct (Z.ltb_spec (j + 1) (n * product radix)); [reflexivity|nia].
  - rewrite (assign_app_r done) by reflexivity. cbn [mbind option_bind].
    assert (Hnext : (j + 1) `mod` n = 0 /\ (j + 1) `div` n = j `div` n + 1).
    { assert (j + 1 = (j `div` n + 1) * n + 0) as -> by lia.
      rewrite Z.add_comm, Z_mod_plus_full, Z.div_add by lia.
      rewrite Z.mod_small, Z.div_small by lia. lia. }
    destruct Hnext as [Hm Hd].
    assert (Hcount : size (done ++ 0 :: combination radix (j `div` n))
                     = size done + 1 + size values).
    { unfold size. rewrite length_app. cbn [length]. rewrite combination_length.
      subst radix. rewrite length_map. lia. }
    rewrite Hcount, Hm, Hd.
    destruct values as [|v' values'].
    + change (size []) with 0.
      destruct (Z.eqb_spec (size done) (size done + 1 + 0 - 1)); [|lia].
      subst radix. cbn [map product foldr] in *.
      destruct (Z.ltb_spec (j + 1) (n * 1)); [lia|reflexivity].
    + destruct (Z.eqb_spec (size done) (size done + 1 + size (v' :: values') - 1))
        as [Heq|_]; [rewrite size_cons in Heq; pose proof (size_nonneg values'); lia|].
      assert (Hlen' : length (doneValues ++ [v]) = length (done ++ [0]))
        by (rewrite !length_app; cbn [length]; lia).
      specialize (IH ltac:(discriminate) (doneValues ++ [v]) (done ++ [0]) (j `div` n)
                    Hlen' Hdiv).
      replace (size (done ++ [0])) with (size done + 1) in IH
        by (unfold size; rewrite length_app; cbn [length]; lia).
      rewrite <- !app_assoc in IH. cbn [app] in IH. rewrite IH.
      destruct (Z.ltb_spec (j `div` n + 1) (product radix));
        destruct (Z.ltb_spec (j + 1) (n * product radix));
        try reflexivity; nia.
Qed.

(** *** The resolver *)

Lemma for_range_ext_from {S} (body1 body2 : Z -> S -> option S) :
  forall (count : nat) (from : Z) (s : S),
    (forall i s, from <= i -> body1 i s = body2 i s) ->
    for_range count from body1 s = for_range count from body2 s.
Proof.
  induction count as [|count IH]; intros from s Hbody; [reflexivity|].
  cbn [for_range]. rewrite Hbody by lia.
  destruct (body2 from s) as [s'|]; [|reflexivity]. cbn [mbind option_bind].
  apply IH. intros i s0 Hi. apply Hbody. lia.
Qed.

Lemma for_range_shift {S} (body : Z -> S -> option S) :
  forall (count : nat) (from : Z) (s : S),
    for_range count (from + 1) body s = for_range count from (fun i => body (i + 1)) s.
Proof.
  induction count as [|count IH]; intros from s; [reflexivity|].
  cbn [for_range]. destruct (body (from + 1) s) as [s'|]; [|reflexivity].
  cbn [mbind option_bind]. apply IH.
Qed.

Lemma at_cons_0 {A} (x : A) (v : list A) : at_ (x :: v) 0 = Some x.
Proof.
  unfold at_. rewrite size_cons. pose proof (size_nonneg v).
  destruct (Z.ltb_spec 0 (1 + size v)); [reflexivity|lia].
Qed.

Lemma at_cons_succ {A} (x : A) (v : list A) (i : Z) :
  0 <= i -> at_ (x :: v) (i + 1) = at_ v i.
Proof.
  intros Hi. unfold at_. rewrite size_cons.
  destruct (Z.leb_spec 0 (i + 1)); [|lia]. destruct (Z.leb_spec 0 i); [|lia].
  cbn [andb].
  destruct (Z.ltb_spec (i + 1) (1 + size v)), (Z.ltb_spec i (size v)); try lia;
    [|reflexivity].
  replace (Z.to_nat (i + 1)) with (S (Z.to_nat i)) by lia. reflexivity.
Qed.

(** One turn of the first [for] loop of an attempt. *)
Lemma patch_cons (index : Z) (ambiguousIndexes : list Z) (values : list Z)
    (ambiguousIndexValues : list (list Z)) (count : Z) (ambiguousIndexCount : list Z)
    (codewords : list Z) :
  patch (index :: ambiguousIndexes) (values :: ambiguousIndexValues)
    (count :: ambiguousIndexCount) codewords
  = (value ← at_ values count;
     codewords ← assign codewords index value;
     patch ambiguousIndexes ambiguousIndexValues ambiguousIndexCount codewords).
Proof.
  unfold patch. cbn [length for_range]. rewrite !at_cons_0. cbn [mbind option_bind].
  destruct (at_ values count) as [value|]; [|reflexivity]. cbn [mbind option_bind].
  destruct (assign codewords index value) as [codewords'|]; [|reflexivity].
  cbn [mbind option_bind]. rewrite for_range_shift. apply for_range_ext_from.
  intros i v Hi. now rewrite !at_cons_succ by exact Hi.
Qed.

Lemma substitute_nil (codewords : list Z) : substitute codewords [] = Some codewords.
Proof.
  unfold substitute. cbn [forallb]. f_equal. apply list_eq. intros p.
  rewrite list_lookup_imap. now destruct (codewords !! p).
Qed.

(** Writing one value after the other, as the loop does, gives the vector
    that [substitute] describes position by position. *)
Lemma substitute_cons (codewords : list Z) (index value : Z) (writes : list (Z * Z)) :
  substitute codewords ((index, value) :: writes)
  = (codewords ← assign codewords index value; substitute codewords writes).
Proof.
  unfold substitute, assign. cbn [forallb fst].
  destruct ((0 <=? index) && (index <? size codewords)) eqn:Hindex; [|reflexivity].
  cbn [andb mbind option_bind].
  assert (Hsize : size (<[Z.to_nat index := value]> codewords) = size codewords)
    by (unfold size; now rewrite length_insert).
  rewrite Hsize.
  destruct (forallb _ writes) eqn:Hall; [|reflexivity]. f_equal.
  apply andb_true_iff in Hindex as [H0 H1]. apply Z.leb_le in H0. apply Z.ltb_lt in H1.
  apply list_eq. intros p. rewrite !list_lookup_imap. cbn [written].
  destruct (decide (p = Z.to_nat index)) as [->|Hne].
  - rewrite list_lookup_insert_eq by (unfold size in H1; lia).
    destruct (codewords !! Z.to_nat index) as [old|] eqn:Hold.
    2:{ apply lookup_ge_None in Hold. unfold size in H1. lia. }
    cbn. rewrite Z2Nat.id by lia.
    destruct (written writes index); [reflexivity|]. now rewrite Z.eqb_refl.
  - rewrite list_lookup_insert_ne by congruence.
    destruct (codewords !! p) as [old|]; [|reflexivity]. cbn.
    destruct (written writes (Z.of_nat p)); [reflexivity|].
    destruct (Z.eqb_spec index (Z.of_nat p)); [lia|reflexivity].
Qed.

(** The first loop of an attempt writes the selected candidate values. *)
Lemma patch_substitute (ambiguousIndexes : list Z) (ambiguousIndexValues : list (list Z))
    (ambiguousIndexCount : list Z) :
  length ambiguousIndexValues = length ambiguousIndexes ->
  Forall2 (fun count values => 0 <= count < size values) ambiguousIndexCount
    ambiguousIndexValues ->
  forall codewords,
    patch ambiguousIndexes ambiguousIndexValues ambiguousIndexCount codewords
    = substitute codewords
        (zip ambiguousIndexes (selected ambiguousIndexValues ambiguousIndexCount)).
Proof.
  intros Hlen Hcount. revert ambiguousIndexes Hlen.
  induction Hcount as [|count values counts valuess Hrange _ IH];
    intros indexes Hlen codewords.
  - destruct indexes; [|discriminate]. cbn [selected zip_with zip].
    now rewrite substitute_nil.
  - destruct indexes as [|index indexes]; [discriminate|].
    rewrite patch_cons. cbn [selected zip_with zip]. rewrite substitute_cons.
    destruct (at_in_range values count Hrange) as [value Hvalue]. rewrite Hvalue.
    cbn [mbind option_bind].
    assert (nth (Z.to_nat count) values 0 = value) as ->.
    { apply at_lookup in Hvalue. now apply nth_lookup_Some. }
    destruct (assign codewords index value) as [codewords'|]; [|reflexivity].
    cbn [mbind option_bind]. apply IH. now injection Hlen.
Qed.

Lemma combination_places (ambiguousIndexValues : list (list Z)) (j : Z) :
  Forall (fun values => 1 <= size values) ambiguousIndexValues ->
  Forall2 (fun c values => 0 <= c < size values)
    (combination (map size ambiguousIndexValues) j) ambiguousIndexValues.
Proof.
  intros Hvalues.
  assert (Hradix : Forall (fun n => 1 <= n) (map size ambiguousIndexValues)).
  { clear -Hvalues. induction Hvalues; constructor; auto. }
  pose proof (combination_digits (map size ambiguousIndexValues) j Hradix) as Hdigits.
  apply Forall2_fmap_r in Hdigits. exact Hdigits.
Qed.

Lemma attempts_try_each (ecLevel : Z) (erasureArray ambiguousIndexes : list Z)
    (ambiguousIndexValues : list (list Z)) (codec : StringCodecs) :
  let radix := map size ambiguousIndexValues in
  length ambiguousIndexValues = length ambiguousIndexes ->
  Forall (fun v => 1 <= size v) ambiguousIndexValues ->
  forall (tries : nat) (j : Z) (codewords : list Z) (result : DecoderResult)
         (log : list Call),
    0 <= j < product radix ->
    (Z.to_nat (product radix - j) <= tries)%nat ->
    attempts tries ecLevel erasureArray ambiguousIndexes ambiguousIndexValues codec
      (combination radix j) codewords result log
    = try_each (map (combination radix) (seqZ j (product radix - j))) ecLevel
        erasureArray ambiguousIndexes ambiguousIndexValues codec codewords result log.
Proof.
  intros radix Hlen Hvalues tries.
  induction tries as [|tries IH]; intros j codewords result log Hj Htries; [lia|].
  rewrite (seqZ_cons j) by lia. cbn [map attempts try_each].
  rewrite !Run_bind_unfold.
  rewrite (patch_substitute ambiguousIndexes ambiguousIndexValues (combination radix j)
             Hlen)
    by (apply combination_places, Hvalues).
  destruct (defined _ log) as [[patched log1]|]; [|reflexivity].
  rewrite !Run_bind_unfold.
  destruct (DecodeCodewords patched ecLevel erasureArray codec result log1)
    as [[[[status codewords'] result'] log2]|]; [|reflexivity].
  destruct (bool_decide (status <> ChecksumError)); [reflexivity|].
  destruct (decide (ambiguousIndexValues = [])) as [Hnil|Hcons].
  - subst ambiguousIndexValues radix. cbn in Hj. assert (j = 0) as -> by lia.
    reflexivity.
  - assert (Hne : combination radix j <> []).
    { intros Hnil. apply (f_equal length) in Hnil. rewrite combination_length in Hnil.
      subst radix. rewrite length_map in Hnil.
      destruct ambiguousIndexValues; [congruence|discriminate]. }
    rewrite bool_decide_eq_false_2 by exact Hne.
    rewrite Run_bind_unfold, combination_length.
    pose proof (advance_successor ambiguousIndexValues Hvalues Hcons [] [] j eq_refl Hj)
      as Hadv.
    cbn [app] in Hadv. change (size []) with 0 in Hadv.
    subst radix. rewrite length_map, Hadv. cbn [defined].
    destruct (Z.ltb_spec (j + 1) (product (map size ambiguousIndexValues))) as [Hlt|Hge].
    + rewrite IH by lia.
      now replace (Z.pred (product (map size ambiguousIndexValues) - j))
        with (product (map size ambiguousIndexValues) - Z.succ j) by lia.
    + replace (Z.pred (product (map size ambiguousIndexValues) - j)) with 0 by lia.
      reflexivity.
Qed.

(** Different combinations select different candidate values when no cell
    lists a value twice. *)
Lemma selected_inj (ambiguousIndexValues : list (list Z)) :
  Forall NoDup ambiguousIndexValues ->
  forall choice1 choice2,
    Forall2 (fun c values => 0 <= c < size values) choice1 ambiguousIndexValues ->
    Forall2 (fun c values => 0 <= c < size values) choice2 ambiguousIndexValues ->
    selected ambiguousIndexValues choice1 = selected ambiguousIndexValues choice2 ->
    choice1 = choice2.
Proof.
  induction 1 as [|values valuess Hvalues _ IH]; intros choice1 choice2 H1 H2.
  - inversion H1. inversion H2. reflexivity.
  - inversion H1 as [|c1 ? rest1 ? Hc1 Hrest1]; subst.
    inversion H2 as [|c2 ? rest2 ? Hc2 Hrest2]; subst.
    cbn [selected zip_with]. intros [= Hnth Hrest]. f_equal.
    + apply (proj1 (List.NoDup_nth values 0)) in Hnth;
        [lia|now apply NoDup_ListNoDup|unfold size in *; lia|unfold size in *; lia].
    + now apply IH.
Qed.

(** C4: when every ambiguous cell has at least one candidate value, there
    are as many lists of candidates as ambiguous cells, and the product of
    the numbers of candidates is at most 100,
    [CreateDecoderResultFromAmbiguousValues] is [try_each] on the
    combinations in counting order, least significant position first: it
    calls [DecodeCodewords] on one combination after the other, each time on
    the codewords in which every ambiguous index holds the candidate value
    that the combination selects for it, and returns the first status that
    is not [ChecksumError] at once and [ChecksumError] when the last
    combination has failed.  No combination occurs twice, also as a
    combination of values when no cell lists a value twice, and with no
    ambiguous cell there is the single empty combination. *)
Theorem CreateDecoderResultFromAmbiguousValues_combinations (ecLevel : Z)
    (codewords erasureArray ambiguousIndexes : list Z)
    (ambiguousIndexValues : list (list Z)) (codec : StringCodecs)
    (result : DecoderResult) (log : list Call) :
  let radix := map size ambiguousIndexValues in
  length ambiguousIndexValues = length ambiguousIndexes ->
  Forall (fun values => 1 <= size values) ambiguousIndexValues ->
  product radix <= 100 ->
  CreateDecoderResultFromAmbiguousValues ecLevel codewords erasureArray ambiguousIndexes
    ambiguousIndexValues codec result log
  = try_each (combinations radix) ecLevel erasureArray ambiguousIndexes
      ambiguousIndexValues codec codewords result log
  /\ NoDup (combinations radix)
  /\ length (combinations radix) = Z.to_nat (product radix)
  /\ (ambiguousIndexes = [] -> combinations radix = [[]])
  /\ (Forall NoDup ambiguousIndexValues ->
      NoDup (map (selected ambiguousIndexValues) (combinations radix))).
Proof.
  intros radix Hlen Hvalues Hproduct.
  assert (Hradix : Forall (fun n => 1 <= n) radix).
  { subst radix. clear -Hvalues. induction Hvalues; constructor; auto. }
  pose proof (product_pos radix Hradix) as Hpos.
  split; [|split; [|split; [|split]]].
  - unfold CreateDecoderResultFromAmbiguousValues, combinations.
    rewrite <- Hlen, <- (length_map size ambiguousIndexValues).
    fold radix. rewrite <- combination_zero by exact Hradix.
    subst radix. rewrite attempts_try_each by (auto; lia).
    now rewrite Z.sub_0_r.
  - now apply combinations_NoDup.
  - unfold combinations. rewrite length_map, length_seqZ. reflexivity.
  - intros ->. destruct ambiguousIndexValues; [reflexivity|discriminate].
  - intros Hdistinct. apply NoDup_fmap_2_strong; [|now apply combinations_NoDup].
    intros choice1 choice2 Hin1 Hin2.
    assert (Hdigits : forall choice,
               choice ∈ combinations radix ->
               Forall2 (fun c values => 0 <= c < size values) choice
                 ambiguousIndexValues).
    { intros choice (j & -> & _)%list_elem_of_fmap.
      apply combination_places, Hvalues. }
    apply selected_inj; auto.
Qed.

End DecodingProperties.

(** ** Row traversal *)

Lemma assign_in_range {A} (v : list A) i x :
  0 <= i < size v -> assign v i x = Some (<[Z.to_nat i := x]> v).
Proof.
  intros [H0 H1]. unfold assign.
  destruct (Z.leb_spec 0 i); [|lia]. destruct (Z.ltb_spec i (size v)); [|lia].
  reflexivity.
Qed.

Lemma foldl_add_shift (v : list Z) (a : Z) : foldl Z.add a v = a + foldl Z.add 0 v.
Proof.
  revert a. induction v as [|x v IH]; intros a; cbn; [lia|].
  rewrite (IH (a + x)), (IH (0 + x)). lia.
Qed.

Lemma accumulate_app (a b : list Z) : accumulate (a ++ b) = accumulate a + accumulate b.
Proof. unfold accumulate. rewrite foldl_app. apply foldl_add_shift. Qed.

Lemma accumulate_cons (x : Z) (v : list Z) : accumulate (x :: v) = x + accumulate v.
Proof. unfold accumulate. cbn. apply foldl_add_shift. Qed.

Lemma accumulate_assign (v v' : list Z) (i c x : Z) :
  at_ v i = Some c -> assign v i x = Some v' -> accumulate v' = accumulate v + (x - c).
Proof.
  intros Hat Hassign. pose proof (at_Some_range _ _ _ Hat) as Hi.
  rewrite assign_in_range in Hassign by exact Hi. injection Hassign as <-.
  unfold at_ in Hat.
  destruct (Z.leb_spec 0 i); [|lia]. destruct (Z.ltb_spec i (size v)); [|lia].
  cbn in Hat.
  rewrite insert_take_drop by (unfold size in Hi; lia).
  rewrite <- (take_drop_middle v (Z.to_nat i) c Hat) at 3.
  rewrite !accumulate_app, !accumulate_cons. lia.
Qed.

Lemma accumulate_reverse (v : list Z) : accumulate (reverse v) = accumulate v.
Proof.
  induction v as [|x v IH]; [reflexivity|].
  rewrite reverse_cons, accumulate_app, IH, !accumulate_cons.
  unfold accumulate. cbn. lia.
Qed.

(** *** Start column *)

(** A [while] loop that starts at most 3 columns from [codewordStartColumn]
    is left within 7 steps, by giving up or at most 3 columns away. *)
Lemma AdjustCodewordStartColumn_while_bound (image : BitMatrix)
    (minColumn maxColumn : Z) (leftToRight : bool) (codewordStartColumn imageRow : Z)
    (increment : Z) :
  increment = 1 \/ increment = -1 ->
  forall (fuel : nat) (correctedStartColumn : Z),
    Z.abs (correctedStartColumn - codewordStartColumn) <= 3 ->
    (Z.to_nat (4 + (codewordStartColumn - correctedStartColumn) * increment) <= fuel)%nat ->
    exists r,
      AdjustCodewordStartColumn_while fuel image minColumn maxColumn leftToRight
        codewordStartColumn imageRow increment correctedStartColumn = Some r
      /\ match r with
         | GiveUp => True
         | Stopped column => Z.abs (column - codewordStartColumn) <= 3
         end.
Proof.
  intros Hinc fuel.
  induction fuel as [|fuel IH]; intros corrected Hnear Hfuel; [lia|].
  cbn [AdjustCodewordStartColumn_while].
  destruct (_ && _).
  - unfold CODEWORD_SKEW_SIZE.
    destruct (Z.gtb_spec (Z.abs (codewordStartColumn - corrected)) 2) as [Hfar|Hclose].
    + exists GiveUp. split; [reflexivity|exact I].
    + apply IH; lia.
  - exists (Stopped corrected). split; [reflexivity|exact Hnear].
Qed.

Lemma AdjustCodewordStartColumn_total (image : BitMatrix) (minColumn maxColumn : Z)
    (leftToRight : bool) (codewordStartColumn imageRow : Z) :
  exists column,
    AdjustCodewordStartColumn image minColumn maxColumn leftToRight codewordStartColumn
      imageRow = Some column
    /\ Z.abs (column - codewordStartColumn) <= 3.
Proof.
  unfold AdjustCodewordStartColumn. cbn [AdjustCodewordStartColumn_for].
  set (increment := if leftToRight then -1 else 1).
  assert (Hinc : increment = 1 \/ increment = -1) by (subst increment; destruct leftToRight; auto).
  destruct (AdjustCodewordStartColumn_while_bound image minColumn maxColumn leftToRight
              codewordStartColumn imageRow increment Hinc 8 codewordStartColumn)
    as (r1 & -> & H1); [lia|lia|].
  cbn [mbind option_bind]. destruct r1 as [|column1].
  { exists codewordStartColumn. split; [reflexivity|lia]. }
  destruct (AdjustCodewordStartColumn_while_bound image minColumn maxColumn
              (negb leftToRight) codewordStartColumn imageRow (- increment)
              ltac:(lia) 8 column1) as (r2 & -> & H2); [exact H1|lia|].
  cbn [mbind option_bind]. destruct r2 as [|column2].
  - exists codewordStartColumn. split; [reflexivity|lia].
  - exists column2. split; [reflexivity|exact H2].
Qed.

(** What a run of the [while] loop says about the columns: it is left by
    [return codewordStartColumn] when the loop is out of tolerance, and at
    the column where the loop stops otherwise. *)
Lemma AdjustCodewordStartColumn_while_spec (image : BitMatrix) (minColumn maxColumn : Z)
    (leftToRight : bool) (codewordStartColumn imageRow : Z) :
  forall (fuel : nat) (correctedStartColumn : Z) (r : Adjusted),
    AdjustCodewordStartColumn_while fuel image minColumn maxColumn leftToRight
      codewordStartColumn imageRow (if leftToRight then -1 else 1) correctedStartColumn
    = Some r ->
    match r with
    | GiveUp =>
        out_of_tolerance image minColumn maxColumn codewordStartColumn imageRow
          leftToRight correctedStartColumn
    | Stopped column =>
        stops_at image minColumn maxColumn codewordStartColumn imageRow leftToRight
          correctedStartColumn column
    end.
Proof.
  induction fuel as [|fuel IH]; intros corrected r; [discriminate|].
  cbn [AdjustCodewordStartColumn_while].
  fold (moves_on image minColumn maxColumn imageRow leftToRight corrected).
  destruct (moves_on image minColumn maxColumn imageRow leftToRight corrected) eqn:Hmoves.
  - destruct (Z.gtb_spec (Z.abs (codewordStartColumn - corrected)) CODEWORD_SKEW_SIZE)
      as [Hfar|Hnear].
    + intros [= <-]. exists 0%nat. unfold step_from. rewrite Z.add_0_r.
      split; [intros j Hj; lia|]. split; [exact Hmoves|lia].
    + intros Hrun. specialize (IH _ _ Hrun).
      assert (Hwalk : forall k,
                 walks image minColumn maxColumn codewordStartColumn imageRow leftToRight
                   (corrected + (if leftToRight then -1 else 1)) k ->
                 walks image minColumn maxColumn codewordStartColumn imageRow leftToRight
                   corrected (S k)).
      { intros k Hk [|j] Hj.
        - unfold step_from. rewrite Z.add_0_r. split; [exact Hmoves|exact Hnear].
        - replace (step_from leftToRight corrected (S j))
            with (step_from leftToRight (corrected + (if leftToRight then -1 else 1)) j)
            by (unfold step_from; lia).
          apply Hk. lia. }
      assert (Hstep : forall k,
                 step_from leftToRight (corrected + (if leftToRight then -1 else 1)) k
                 = step_from leftToRight corrected (S k))
        by (intros k; unfold step_from; lia).
      destruct r as [|column].
      * destruct IH as (k & Hk & Hon & Hfar). exists (S k). rewrite <- Hstep. auto.
      * destruct IH as (k & Hk & -> & Hoff). exists (S k). rewrite <- Hstep. auto.
  - intros [= <-]. exists 0%nat. unfold step_from. rewrite Z.add_0_r.
    split; [intros j Hj; lia|]. split; [reflexivity|exact Hmoves].
Qed.

(** A loop stops at one column only, and not when it is out of tolerance. *)
Lemma stops_at_unique (image : BitMatrix)
    (minColumn maxColumn codewordStartColumn imageRow : Z) (leftToRight : bool)
    (from column column' : Z) :
  stops_at image minColumn maxColumn codewordStartColumn imageRow leftToRight from column ->
  stops_at image minColumn maxColumn codewordStartColumn imageRow leftToRight from column' ->
  column = column'.
Proof.
  intros (k & Hk & -> & Hoff) (k' & Hk' & -> & Hoff').
  destruct (lt_eq_lt_dec k k') as [[Hlt| ->]|Hgt]; [|reflexivity|].
  - destruct (Hk' k Hlt) as [Hon _]. congruence.
  - destruct (Hk k' Hgt) as [Hon _]. congruence.
Qed.

Lemma stops_at_in_tolerance (image : BitMatrix)
    (minColumn maxColumn codewordStartColumn imageRow : Z) (leftToRight : bool)
    (from column : Z) :
  stops_at image minColumn maxColumn codewordStartColumn imageRow leftToRight from column ->
  ~ out_of_tolerance image minColumn maxColumn codewordStartColumn imageRow leftToRight
      from.
Proof.
  intros (k & Hk & -> & Hoff) (k' & Hk' & Hon & Hfar).
  destruct (lt_eq_lt_dec k k') as [[Hlt|Heq]|Hgt].
  - destruct (Hk' k Hlt) as [Hon' _]. congruence.
  - subst k'. congruence.
  - destruct (Hk k' Hgt) as [_ Hnear]. lia.
Qed.

(** C8, as amended: [AdjustCodewordStartColumn] always returns, and the
    column it returns is at most [CODEWORD_SKEW_SIZE + 1 = 3] columns from
    [codewordStartColumn].  When one of its two loops is out of tolerance,
    the first from [codewordStartColumn] or the second, in the other
    direction, from the column where the first has stopped, it returns
    [codewordStartColumn] itself; otherwise it returns the column where the
    second loop stops. *)
Theorem AdjustCodewordStartColumn_deviation (image : BitMatrix)
    (minColumn maxColumn : Z) (leftToRight : bool) (codewordStartColumn imageRow : Z) :
  let stops := stops_at image minColumn maxColumn codewordStartColumn imageRow in
  let exceeds := out_of_tolerance image minColumn maxColumn codewordStartColumn imageRow in
  let gives_up :=
    exceeds leftToRight codewordStartColumn
    \/ exists column1,
         stops leftToRight codewordStartColumn column1
         /\ exceeds (negb leftToRight) column1 in
  exists column,
    AdjustCodewordStartColumn image minColumn maxColumn leftToRight codewordStartColumn
      imageRow = Some column
    /\ Z.abs (column - codewordStartColumn) <= CODEWORD_SKEW_SIZE + 1
    /\ (gives_up -> column = codewordStartColumn)
    /\ (gives_up
        \/ exists column1,
             stops leftToRight codewordStartColumn column1
             /\ stops (negb leftToRight) column1 column).
Proof.
  intros stops exceeds gives_up.
  destruct (AdjustCodewordStartColumn_total image minColumn maxColumn leftToRight
              codewordStartColumn imageRow) as (column & Hrun & Hnear).
  exists column. split; [exact Hrun|]. split; [exact Hnear|].
  unfold AdjustCodewordStartColumn in Hrun. cbn [AdjustCodewordStartColumn_for] in Hrun.
  destruct (AdjustCodewordStartColumn_while 8 image minColumn maxColumn leftToRight
              codewordStartColumn imageRow (if leftToRight then -1 else 1)
              codewordStartColumn) as [r1|] eqn:Hfirst; [|discriminate].
  apply AdjustCodewordStartColumn_while_spec in Hfirst.
  cbn [mbind option_bind] in Hrun. destruct r1 as [|column1].
  { injection Hrun as <-. split; [reflexivity|]. left. left. exact Hfirst. }
  replace (- (if leftToRight then -1 else 1)) with (if negb leftToRight then -1 else 1)
    in Hrun by (destruct leftToRight; reflexivity).
  destruct (AdjustCodewordStartColumn_while 8 image minColumn maxColumn (negb leftToRight)
              codewordStartColumn imageRow (if negb leftToRight then -1 else 1) column1)
    as [r2|] eqn:Hsecond; [|discriminate].
  apply AdjustCodewordStartColumn_while_spec in Hsecond.
  cbn [mbind option_bind] in Hrun. destruct r2 as [|column2].
  { injection Hrun as <-. split; [reflexivity|]. left. right. exists column1. auto. }
  injection Hrun as <-. split.
  - intros [Hout|(column1' & Hstop & Hout)].
    + now apply stops_at_in_tolerance in Hfirst.
    + rewrite (stops_at_unique _ _ _ _ _ _ _ _ _ Hstop Hfirst) in Hout.
      now apply stops_at_in_tolerance in Hsecond.
  - right. exists column1. auto.
Qed.

(** *** Module bit count *)

Lemma size_replicate {A} (n : nat) (x : A) : size (replicate n x) = Z.of_nat n.
Proof. unfold size. now rewrite length_replicate. Qed.

Lemma accumulate_replicate_0 (n : nat) : accumulate (replicate n 0) = 0.
Proof.
  induction n as [|n IH]; [reflexivity|].
  cbn [replicate]. rewrite accumulate_cons, IH. reflexivity.
Qed.

(** The loop of [GetModuleBitCount] always ends.  When it ends, either all
    the modules are complete or the columns are used up; [imageColumn] is
    then the first column outside the bounds in the direction of the scan.
    Once two modules are complete, at least one pixel has been counted. *)
Lemma GetModuleBitCount_while_exit (image : BitMatrix) (minColumn maxColumn : Z)
    (leftToRight : bool) (imageRow : Z) :
  forall (fuel : nat) (imageColumn moduleNumber : Z) (previousPixelValue : bool)
         (moduleBitCount : list Z),
    size moduleBitCount = 8 ->
    0 <= moduleNumber <= 8 ->
    0 <= accumulate moduleBitCount ->
    (1 <= moduleNumber ->
     1 <= accumulate moduleBitCount
     \/ get image imageColumn imageRow = previousPixelValue) ->
    (2 <= moduleNumber -> 1 <= accumulate moduleBitCount) ->
    (Z.to_nat (if leftToRight then maxColumn - imageColumn
               else imageColumn - minColumn + 1)
     + Z.to_nat (8 - moduleNumber) + 1 <= fuel)%nat ->
    exists imageColumn' moduleNumber' moduleBitCount',
      GetModuleBitCount_while fuel image minColumn maxColumn leftToRight imageRow
        (if leftToRight then 1 else -1) imageColumn moduleNumber previousPixelValue
        moduleBitCount
      = Some (imageColumn', moduleNumber', moduleBitCount')
      /\ size moduleBitCount' = 8
      /\ moduleNumber <= moduleNumber' <= 8
      /\ (moduleNumber' < 8 ->
          imageColumn' = if leftToRight then Z.max imageColumn maxColumn
                         else Z.min imageColumn (minColumn - 1))
      /\ (2 <= moduleNumber' -> 1 <= accumulate moduleBitCount')
      /\ accumulate moduleBitCount'
         = accumulate moduleBitCount
           + (imageColumn' - imageColumn) * (if leftToRight then 1 else -1).
Proof.
  induction fuel as [|fuel IH];
    intros column number previous counts Hsize Hnumber Hsum Hone Htwo Hfuel; [lia|].
  cbn [GetModuleBitCount_while]. rewrite Hsize.
  destruct ((if leftToRight then column <? maxColumn else column >=? minColumn)
            && (number <? 8)) eqn:Hcond.
  - apply andb_true_iff in Hcond as [Hcolumn Hmodule]. apply Z.ltb_lt in Hmodule.
    assert (Hin : if leftToRight then column < maxColumn else minColumn <= column).
    { destruct leftToRight; [apply Z.ltb_lt in Hcolumn|apply Z.geb_le in Hcolumn]; lia. }
    destruct (eqb (get image column imageRow) previous) eqn:Hpixel.
    + destruct (at_in_range counts number) as [count Hat]; [lia|].
      rewrite Hat. cbn [mbind option_bind].
      rewrite assign_in_range by lia. cbn [mbind option_bind].
      pose proof (accumulate_assign counts _ number count (count + 1) Hat
                    (assign_in_range counts number (count + 1) ltac:(lia))) as Hacc.
      destruct (IH (column + (if leftToRight then 1 else -1)) number previous
                  (<[Z.to_nat number := count + 1]> counts))
        as (column' & number' & counts' & Hrun & Hsize' & Hnumber' & Hexit & Htwo' & Hacc').
      * unfold size in *. now rewrite length_insert.
      * exact Hnumber.
      * lia.
      * intros _. left. lia.
      * intros _. lia.
      * destruct leftToRight; lia.
      * exists column', number', counts'. rewrite Hrun.
        repeat split; try lia; try assumption.
        -- intros Hlt. specialize (Hexit Hlt). destruct leftToRight; lia.
        -- destruct leftToRight; lia.
    + apply eqb_false_iff in Hpixel.
      destruct (IH column (number + 1) (negb previous) counts)
        as (column' & number' & counts' & Hrun & Hsize' & Hnumber' & Hexit & Htwo' & Hacc').
      * exact Hsize.
      * lia.
      * exact Hsum.
      * intros _. right. destruct (get image column imageRow), previous; cbn; congruence.
      * intros Hge. destruct Hone as [Hone|Hone]; [lia|exact Hone|congruence].
      * destruct leftToRight; lia.
      * exists column', number', counts'. rewrite Hrun.
        repeat split; try lia; assumption.
  - exists column, number, counts.
    apply andb_false_iff in Hcond.
    repeat split; try lia; try assumption.
    intros Hlt. destruct Hcond as [Hcolumn|Hmodule]; [|apply Z.ltb_ge in Hmodule; lia].
    destruct leftToRight;
      [apply Z.ltb_ge in Hcolumn|rewrite Z.geb_leb in Hcolumn; apply Z.leb_gt in Hcolumn];
      lia.
Qed.

(** [GetModuleBitCount] always returns; its result is the test on the state
    in which the loop was left. *)
Lemma GetModuleBitCount_total (image : BitMatrix) (minColumn maxColumn : Z)
    (leftToRight : bool) (startColumn imageRow : Z) :
  exists imageColumn moduleNumber moduleBitCount,
    GetModuleBitCount_while
      (GetModuleBitCount_fuel minColumn maxColumn leftToRight startColumn)
      image minColumn maxColumn leftToRight imageRow (if leftToRight then 1 else -1)
      startColumn 0 leftToRight (replicate 8 0)
    = Some (imageColumn, moduleNumber, moduleBitCount)
    /\ GetModuleBitCount image minColumn maxColumn leftToRight startColumn imageRow
       = Some ((moduleNumber =? 8)
               || ((imageColumn =? (if leftToRight then maxColumn else minColumn))
                   && (moduleNumber =? 7)),
               moduleBitCount)
    /\ size moduleBitCount = 8
    /\ 0 <= moduleNumber <= 8
    /\ (moduleNumber < 8 ->
        imageColumn = if leftToRight then Z.max startColumn maxColumn
                      else Z.min startColumn (minColumn - 1))
    /\ (2 <= moduleNumber -> 1 <= accumulate moduleBitCount)
    /\ accumulate moduleBitCount
       = (imageColumn - startColumn) * (if leftToRight then 1 else -1).
Proof.
  destruct (GetModuleBitCount_while_exit image minColumn maxColumn leftToRight imageRow
              (GetModuleBitCount_fuel minColumn maxColumn leftToRight startColumn)
              startColumn 0 leftToRight (replicate 8 0))
    as (column & number & counts & Hrun & Hsize & Hnumber & Hexit & Htwo & Hacc).
  - reflexivity.
  - lia.
  - rewrite (accumulate_replicate_0 8). lia.
  - lia.
  - lia.
  - unfold GetModuleBitCount_fuel, BARS_IN_MODULE. lia.
  - exists column, number, counts. split; [exact Hrun|].
    unfold GetModuleBitCount. change (Z.to_nat BARS_IN_MODULE) with 8%nat.
    rewrite Hrun. cbn [mbind option_bind]. rewrite Hsize.
    rewrite (accumulate_replicate_0 8) in Hacc.
    repeat split; try lia; assumption.
Qed.

(** *** Bit count of a pattern *)

Lemma land_1_double (q : Z) (b : bool) : Z.land (2 * q + Z.b2z b) 1 = Z.b2z b.
Proof.
  change (Z.land (2 * q + Z.b2z b) 1) with (Z.land (2 * q + Z.b2z b) (Z.ones 1)).
  rewrite Z.land_ones by lia.
  change (2 ^ 1) with 2. destruct b; cbn [Z.b2z]; Z.to_euclidean_division_equations; lia.
Qed.

Lemma shiftr_1_double (q : Z) (b : bool) : Z.shiftr (2 * q + Z.b2z b) 1 = q.
Proof.
  rewrite Z.shiftr_div_pow2 by lia. change (2 ^ 1) with 2.
  destruct b; cbn [Z.b2z]; Z.to_euclidean_division_equations; lia.
Qed.

(** A pattern that starts (from its last module) with [S k] equal bits. *)
Lemma run_double (bit : bool) (k : nat) (rest : Z) :
  (if bit then Z.ones (Z.of_nat (S k)) else 0) + Z.shiftl rest (Z.of_nat (S k))
  = 2 * ((if bit then Z.ones (Z.of_nat k) else 0) + Z.shiftl rest (Z.of_nat k))
    + Z.b2z bit.
Proof.
  rewrite !Z.shiftl_mul_pow2, !Z.ones_equiv by lia.
  rewrite Nat2Z.inj_succ, Z.pow_succ_r by lia.
  destruct bit; cbn [Z.b2z]; lia.
Qed.

(** The three ways through one turn of the loop of [GetBitCountForCodeword]. *)
Lemma GetBitCountForCodeword_while_same (fuel : nat) (codeword previousValue i : Z)
    (result : list Z) (count : Z) :
  Z.land codeword 1 = previousValue ->
  at_ result i = Some count ->
  GetBitCountForCodeword_while (S fuel) codeword previousValue i result
  = GetBitCountForCodeword_while fuel (Z.shiftr codeword 1) previousValue i
      (<[Z.to_nat i := count + 1]> result).
Proof.
  intros Hbit Hat. cbn [GetBitCountForCodeword_while].
  rewrite Hbit, Z.eqb_refl. cbn [negb andb]. rewrite Hat. cbn [mbind option_bind].
  rewrite assign_in_range by (eapply at_Some_range; eauto). reflexivity.
Qed.

Lemma GetBitCountForCodeword_while_changed (fuel : nat) (codeword previousValue i : Z)
    (result : list Z) (count : Z) :
  Z.land codeword 1 <> previousValue ->
  at_ result (i - 1) = Some count ->
  GetBitCountForCodeword_while (S fuel) codeword previousValue i result
  = GetBitCountForCodeword_while fuel (Z.shiftr codeword 1) (Z.land codeword 1) (i - 1)
      (<[Z.to_nat (i - 1) := count + 1]> result).
Proof.
  intros Hbit Hat. cbn [GetBitCountForCodeword_while].
  destruct (Z.eqb_spec (Z.land codeword 1) previousValue) as [|_]; [contradiction|].
  cbn [negb andb]. pose proof (at_Some_range _ _ _ Hat) as Hrange.
  destruct (Z.ltb_spec (i - 1) 0); [lia|].
  rewrite Hat. cbn [mbind option_bind]. rewrite assign_in_range by exact Hrange.
  reflexivity.
Qed.

Lemma GetBitCountForCodeword_while_end (fuel : nat) (codeword previousValue i : Z)
    (result : list Z) :
  Z.land codeword 1 <> previousValue ->
  i - 1 < 0 ->
  GetBitCountForCodeword_while (S fuel) codeword previousValue i result = Some result.
Proof.
  intros Hbit Hi. cbn [GetBitCountForCodeword_while].
  destruct (Z.eqb_spec (Z.land codeword 1) previousValue) as [|_]; [contradiction|].
  cbn [negb andb]. destruct (Z.ltb_spec (i - 1) 0); [reflexivity|lia].
Qed.

(** Once shifting leaves the codeword as it is (0 or -1) and its low bit is
    the previous value, the loop never ends. *)
Lemma GetBitCountForCodeword_while_stuck (codeword previousValue : Z) :
  Z.shiftr codeword 1 = codeword ->
  Z.land codeword 1 = previousValue ->
  forall (fuel : nat) (i : Z) (result : list Z),
    GetBitCountForCodeword_while fuel codeword previousValue i result = None.
Proof.
  intros Hshift Hbit fuel.
  induction fuel as [|fuel IH]; intros i result; [reflexivity|].
  cbn [GetBitCountForCodeword_while].
  rewrite Hbit, Z.eqb_refl. cbn [negb andb].
  destruct (at_ result i); [|reflexivity]. cbn [mbind option_bind].
  destruct (assign result i _); [|reflexivity]. cbn [mbind option_bind].
  rewrite Hshift. apply IH.
Qed.

Lemma GetBitCountForCodeword_while_settled (codeword previousValue : Z) :
  Z.shiftr codeword 1 = codeword ->
  forall (fuel1 fuel2 : nat) (i : Z) (result : list Z),
    (2 <= fuel1)%nat -> (2 <= fuel2)%nat ->
    GetBitCountForCodeword_while fuel1 codeword previousValue i result
    = GetBitCountForCodeword_while fuel2 codeword previousValue i result.
Proof.
  intros Hshift fuel1 fuel2 i result H1 H2.
  destruct (Z.eq_dec (Z.land codeword 1) previousValue) as [Hbit|Hbit].
  { now rewrite !GetBitCountForCodeword_while_stuck. }
  destruct fuel1 as [|fuel1]; [lia|]. destruct fuel2 as [|fuel2]; [lia|].
  cbn [GetBitCountForCodeword_while].
  destruct (Z.eqb_spec (Z.land codeword 1) previousValue) as [|_]; [contradiction|].
  cbn [negb andb]. destruct (i - 1 <? 0); [reflexivity|].
  destruct (at_ result (i - 1)); [|reflexivity]. cbn [mbind option_bind].
  destruct (assign result (i - 1) _); [|reflexivity]. cbn [mbind option_bind].
  rewrite Hshift. now rewrite !GetBitCountForCodeword_while_stuck.
Qed.

(** More fuel than the bits of the codeword and two turns changes nothing:
    a loop that has not ended by then does not end. *)
Lemma GetBitCountForCodeword_while_fuel (bits : nat) :
  forall (codeword previousValue i : Z) (result : list Z) (fuel1 fuel2 : nat),
    - 2 ^ Z.of_nat bits <= codeword < 2 ^ Z.of_nat bits ->
    (bits + 2 <= fuel1)%nat -> (bits + 2 <= fuel2)%nat ->
    GetBitCountForCodeword_while fuel1 codeword previousValue i result
    = GetBitCountForCodeword_while fuel2 codeword previousValue i result.
Proof.
  induction bits as [|bits IH]; intros codeword previous i result fuel1 fuel2 Hc H1 H2.
  - apply GetBitCountForCodeword_while_settled; [|lia|lia].
    change (2 ^ Z.of_nat 0) with 1 in Hc.
    assert (codeword = 0 \/ codeword = -1) as [-> | ->] by lia; reflexivity.
  - destruct fuel1 as [|fuel1]; [lia|]. destruct fuel2 as [|fuel2]; [lia|].
    cbn [GetBitCountForCodeword_while].
    destruct (_ && _); [reflexivity|].
    destruct (at_ result _); [|reflexivity]. cbn [mbind option_bind].
    destruct (assign result _ _); [|reflexivity]. cbn [mbind option_bind].
    apply IH; [|lia|lia].
    rewrite Z.shiftr_div_pow2 by lia. change (2 ^ 1) with 2.
    rewrite Nat2Z.inj_succ, Z.pow_succ_r in Hc by lia.
    Z.to_euclidean_division_equations. lia.
Qed.

Lemma GetBitCountForCodeword_fuel_enough (codeword : Z) (fuel : nat) :
  (GetBitCountForCodeword_fuel codeword <= fuel)%nat ->
  GetBitCountForCodeword_while fuel codeword 0 7 (replicate 8 0)
  = GetBitCountForCodeword codeword.
Proof.
  intros Hfuel. unfold GetBitCountForCodeword.
  change (size (replicate (Z.to_nat BARS_IN_MODULE) 0) - 1) with 7.
  change (Z.to_nat BARS_IN_MODULE) with 8%nat.
  unfold GetBitCountForCodeword_fuel in *.
  apply (GetBitCountForCodeword_while_fuel (Z.to_nat (Z.log2 (Z.abs codeword)) + 1));
    [|lia|lia].
  rewrite Nat2Z.inj_add, Z2Nat.id by apply Z.log2_nonneg.
  change (Z.of_nat 1) with 1.
  destruct (Z.eq_dec codeword 0) as [->|Hne]; [split; [discriminate|reflexivity]|].
  pose proof (Z.log2_spec (Z.abs codeword) ltac:(lia)) as [_ Hlt].
  replace (Z.succ (Z.log2 (Z.abs codeword))) with (Z.log2 (Z.abs codeword) + 1) in Hlt
    by lia.
  lia.
Qed.

Lemma at_insert_same {A} (v : list A) (i : Z) (x : A) :
  0 <= i < size v -> at_ (<[Z.to_nat i := x]> v) i = Some x.
Proof.
  intros Hi. unfold at_, size in *. rewrite length_insert.
  destruct (Z.leb_spec 0 i); [|lia]. destruct (Z.ltb_spec i (Z.of_nat (length v))); [|lia].
  cbn. apply list_lookup_insert_eq. lia.
Qed.

(** The loop reads a run of [k] bits equal to the previous value and counts
    them in the current module. *)
Lemma GetBitCountForCodeword_while_run (k : nat) :
  forall (fuel : nat) (rest : Z) (bit : bool) (i : Z) (result : list Z) (count : Z),
    (k <= fuel)%nat ->
    at_ result i = Some count ->
    GetBitCountForCodeword_while fuel
      ((if bit then Z.ones (Z.of_nat k) else 0) + Z.shiftl rest (Z.of_nat k))
      (Z.b2z bit) i result
    = GetBitCountForCodeword_while (fuel - k) rest (Z.b2z bit) i
        (<[Z.to_nat i := count + Z.of_nat k]> result).
Proof.
  induction k as [|k IH]; intros fuel rest bit i result count Hfuel Hat.
  - change (Z.of_nat 0) with 0. rewrite Z.shiftl_0_r, Z.add_0_r, Nat.sub_0_r.
    rewrite list_insert_id by (now apply at_lookup).
    destruct bit; reflexivity.
  - destruct fuel as [|fuel]; [lia|].
    pose proof (at_Some_range _ _ _ Hat) as Hrange.
    rewrite run_double.
    rewrite (GetBitCountForCodeword_while_same _ _ _ _ _ count)
      by (auto using land_1_double).
    rewrite shiftr_1_double.
    rewrite (IH fuel rest bit i _ (count + 1)) by (auto using at_insert_same with lia).
    rewrite list_insert_insert_eq. cbn [Nat.sub].
    now replace (count + 1 + Z.of_nat k) with (count + Z.of_nat (S k)) by lia.
Qed.

(** The loop reads runs of alternating bits, each of them different from the
    bits before it, and ends after the last run, of ones: the widths of the
    runs fill the modules from position [length widths - 1] down. *)
Lemma GetBitCountForCodeword_while_runs (widths : list Z) :
  Forall (fun w => 1 <= w) widths ->
  forall (bit : bool) (fuel : nat) (done : list Z),
    bit = Nat.odd (length widths) ->
    (Z.to_nat (accumulate widths) + 1 <= fuel)%nat ->
    GetBitCountForCodeword_while fuel (modules_value bit widths) (Z.b2z (negb bit))
      (size widths) (replicate (length widths) 0 ++ done)
    = Some (reverse widths ++ done).
Proof.
  induction 1 as [|w widths Hw Hwidths IH]; intros bit fuel done Hbit Hfuel.
  - subst bit. cbn in *. destruct fuel as [|fuel]; [lia|].
    now rewrite GetBitCountForCodeword_while_end.
  - cbn [modules_value].
    destruct fuel as [|fuel]; [lia|].
    rewrite accumulate_cons in Hfuel. pose proof Hw as Hw'.
    assert (Hsum : 0 <= accumulate widths).
    { clear -Hwidths. induction Hwidths as [|x l Hx _ IHl]; [reflexivity|].
      rewrite accumulate_cons. lia. }
    replace w with (Z.of_nat (S (Z.to_nat (w - 1)))) at 1 2 by lia.
    rewrite run_double.
    assert (Hat : at_ (replicate (length (w :: widths)) 0 ++ done) (size (w :: widths) - 1)
                  = Some 0).
    { cbn [length]. rewrite replicate_S_end, <- app_assoc. cbn [app].
      apply at_app_r. rewrite size_cons, size_replicate. unfold size. lia. }
    rewrite (GetBitCountForCodeword_while_changed _ _ _ _ _ 0);
      [|rewrite land_1_double; destruct bit; discriminate|exact Hat].
    rewrite land_1_double, shiftr_1_double.
    assert (Hin : 0 <= size (w :: widths) - 1
                  < size (replicate (length (w :: widths)) 0 ++ done)).
    { eapply at_Some_range; eauto. }
    rewrite (GetBitCountForCodeword_while_run _ fuel _ bit _ _ (0 + 1))
      by (auto using at_insert_same with lia).
    rewrite list_insert_insert_eq.
    replace (0 + 1 + Z.of_nat (Z.to_nat (w - 1))) with w by lia.
    replace (size (w :: widths) - 1) with (size widths) by (rewrite size_cons; lia).
    replace (<[Z.to_nat (size widths) := w]> (replicate (length (w :: widths)) 0 ++ done))
      with (replicate (length widths) 0 ++ w :: done).
    2:{ cbn [length]. rewrite replicate_S_end, <- app_assoc. cbn [app].
        unfold size. rewrite Nat2Z.id.
        rewrite insert_app_r_alt by (rewrite length_replicate; lia).
        rewrite length_replicate, Nat.sub_diag. reflexivity. }
    replace bit with (negb (negb bit)) at 2 by apply negb_involutive.
    rewrite IH.
    + rewrite reverse_cons, <- app_assoc. reflexivity.
    + subst bit. cbn [length]. rewrite Nat.odd_succ, <- Nat.negb_odd.
      now rewrite negb_involutive.
    + lia.
Qed.

Lemma accumulate_widths (widths : list Z) :
  Forall (fun w => 1 <= w) widths -> size widths <= accumulate widths.
Proof.
  induction 1 as [|w widths Hw _ IH]; [reflexivity|].
  rewrite size_cons, accumulate_cons. lia.
Qed.

(** The bit count of a symbol is its module widths. *)
Lemma GetBitCountForCodeword_symbol (pattern : Z) (moduleBitCount : list Z) :
  is_symbol pattern moduleBitCount ->
  GetBitCountForCodeword pattern = Some moduleBitCount.
Proof.
  intros (Hlen & Hpos & Hsum & ->).
  destruct moduleBitCount as [|b0 [|b1 [|b2 [|b3 [|b4 [|b5 [|b6 [|b7 [|]]]]]]]]];
    try discriminate.
  change (reverse [b0; b1; b2; b3; b4; b5; b6; b7]) with [b7; b6; b5; b4; b3; b2; b1; b0].
  set (widths := [b6; b5; b4; b3; b2; b1; b0]).
  set (pattern := modules_value false (b7 :: widths)).
  rewrite <- (GetBitCountForCodeword_fuel_enough pattern
                (Nat.max (GetBitCountForCodeword_fuel pattern) 18)) by lia.
  assert (Hwidths : Forall (fun w => 1 <= w) widths /\ 1 <= b7).
  { subst widths. repeat match goal with H : Forall _ (_ :: _) |- _ => inversion H; clear H; subst end.
    repeat constructor; assumption. }
  destruct Hwidths as [Hwidths Hb7].
  pose proof (accumulate_widths widths Hwidths) as Hmin.
  change (size widths) with 7 in Hmin.
  assert (Hacc : accumulate widths = 17 - b7).
  { subst widths. unfold accumulate in *. cbn in *. lia. }
  subst pattern. cbn [modules_value].
  replace b7 with (Z.of_nat (Z.to_nat b7)) at 1 2 by lia.
  rewrite (GetBitCountForCodeword_while_run _ _ _ false 7 _ 0) by (reflexivity || lia).
  change (<[Z.to_nat 7 := 0 + Z.of_nat (Z.to_nat b7)]> (replicate 8 0))
    with (replicate (length widths) 0 ++ [0 + Z.of_nat (Z.to_nat b7)]).
  change 7 with (size widths). change (Z.b2z false) with (Z.b2z (negb true)).
  change (negb false) with true.
  rewrite (GetBitCountForCodeword_while_runs widths Hwidths true) by (reflexivity || lia).
  subst widths. cbn. f_equal. repeat f_equal. lia.
Qed.

(** The bucket of a symbol is the residue of [b0 - b2 + b4 - b6 + 9]. *)
Lemma GetCodewordBucketNumber_symbol (pattern : Z) (moduleBitCount : list Z) :
  is_symbol pattern moduleBitCount ->
  exists bucket,
    GetCodewordBucketNumber pattern = Some bucket
    /\ 0 <= bucket < 9
    /\ bucket = (nth 0 moduleBitCount 0 - nth 2 moduleBitCount 0
                 + nth 4 moduleBitCount 0 - nth 6 moduleBitCount 0 + 9) mod 9.
Proof.
  intros Hsymbol. unfold GetCodewordBucketNumber.
  rewrite (GetBitCountForCodeword_symbol _ _ Hsymbol). cbn [mbind option_bind].
  destruct Hsymbol as (Hlen & Hpos & Hsum & _).
  destruct moduleBitCount as [|b0 [|b1 [|b2 [|b3 [|b4 [|b5 [|b6 [|b7 [|]]]]]]]]];
    try discriminate.
  repeat match goal with H : Forall _ (_ :: _) |- _ => inversion H; clear H; subst end.
  unfold accumulate in Hsum. cbn in Hsum.
  exists (Z.rem (b0 - b2 + b4 - b6 + 9) 9). split; [reflexivity|].
  cbn [nth]. rewrite Z.rem_mod_nonneg by lia.
  split; [apply Z.mod_pos_bound; lia|reflexivity].
Qed.

Section ScanningProperties.

Context {symbols : Symbols}.

(** C7: under the contract of the symbol table, every codeword that
    [DetectCodeword] returns has a bucket in 0..8, a value in 0..928 and
    [endX > startX].  Its value is the codeword of the pattern that
    [GetDecodedValue] gives for the module bit counts [GetModuleBitCount]
    has read from the adjusted start column (reversed for a scan from right
    to left); this pattern is a symbol, and the bucket is
    [(b0 - b2 + b4 - b6 + 9) mod 9] for the module widths [b] of this very
    pattern, which are the bit count the code computes for it. *)
Theorem DetectCodeword_codeword (image : BitMatrix) (minColumn maxColumn : Z)
    (leftToRight : bool) (startColumn imageRow minCodewordWidth maxCodewordWidth : Z)
    (codeword : Codeword) :
  Symbols_contract ->
  DetectCodeword image minColumn maxColumn leftToRight startColumn imageRow
    minCodewordWidth maxCodewordWidth = Some (Some codeword) ->
  0 <= bucket codeword < 9
  /\ 0 <= value codeword < 929
  /\ endX codeword > startX codeword
  /\ exists column moduleBitCount b,
       AdjustCodewordStartColumn image minColumn maxColumn leftToRight startColumn
         imageRow = Some column
       /\ GetModuleBitCount image minColumn maxColumn leftToRight column imageRow
          = Some (true, moduleBitCount)
       /\ endX codeword - startX codeword = accumulate moduleBitCount
       /\ let pattern :=
            GetDecodedValue
              (if leftToRight then moduleBitCount else reverse moduleBitCount) in
          pattern <> -1
          /\ value codeword = GetCodeword pattern
          /\ is_symbol pattern b
          /\ GetBitCountForCodeword pattern = Some b
          /\ GetCodewordBucketNumber pattern = Some (bucket codeword)
          /\ bucket codeword
             = (nth 0 b 0 - nth 2 b 0 + nth 4 b 0 - nth 6 b 0 + 9) mod 9.
Proof.
  intros Hcontract. unfold DetectCodeword.
  destruct (AdjustCodewordStartColumn_total image minColumn maxColumn leftToRight
              startColumn imageRow) as (column & Hadjust & _).
  rewrite Hadjust. cbn [mbind option_bind].
  destruct (GetModuleBitCount_total image minColumn maxColumn leftToRight column imageRow)
    as (imageColumn & moduleNumber & counts & _ & Hget & _ & Hnumber & _ & Htwo & _).
  rewrite Hget. cbn [mbind option_bind].
  destruct ((moduleNumber =? 8) || _) eqn:Hfound; cbn [negb]; [|discriminate].
  assert (Hsum : 1 <= accumulate counts).
  { apply Htwo. apply orb_true_iff in Hfound as [Hall|Hbound].
    - apply Z.eqb_eq in Hall. lia.
    - apply andb_true_iff in Hbound as [_ Hseven]. apply Z.eqb_eq in Hseven. lia. }
  set (scanned :=
         if leftToRight then (counts, column, column + accumulate counts)
         else (reverse counts, column - accumulate counts, column)).
  assert (Hscan : scanned.2 - scanned.1.2 = accumulate counts
                  /\ scanned.1.1 = if leftToRight then counts else reverse counts)
    by (subst scanned; destruct leftToRight; cbn; split; (lia || reflexivity)).
  destruct scanned as [[counts' start'] end']. cbn [fst snd] in Hscan.
  destruct Hscan as [Hwidth Hcounts]. subst counts'.
  destruct (CheckCodewordSkew _ _ _); cbn [negb]; [|discriminate].
  destruct (Z.eqb_spec (GetDecodedValue (if leftToRight then counts else reverse counts))
              (-1)) as [|Hdecoded]; cbn [negb]; [discriminate|].
  destruct (Z.eqb_spec
              (GetCodeword
                 (GetDecodedValue (if leftToRight then counts else reverse counts)))
              (-1)) as [|Hfoundcw]; cbn [negb]; [discriminate|].
  destruct (Hcontract _ Hfoundcw) as (Hvalue & b & Hsymbol).
  destruct (GetCodewordBucketNumber_symbol _ _ Hsymbol) as (n & Hbucket & Hn & Hformula).
  rewrite Hbucket. cbn [mbind option_bind]. intros [= <-].
  cbn [bucket value startX endX Codeword_new].
  repeat split; try lia.
  exists column, counts, b. cbn zeta.
  repeat split; auto using GetBitCountForCodeword_symbol; try apply Hsymbol.
Qed.

(** Under the contract of the symbol table [DetectCodeword] always returns. *)
Lemma DetectCodeword_total (image : BitMatrix) (minColumn maxColumn : Z)
    (leftToRight : bool) (startColumn imageRow minCodewordWidth maxCodewordWidth : Z) :
  Symbols_contract ->
  exists r,
    DetectCodeword image minColumn maxColumn leftToRight startColumn imageRow
      minCodewordWidth maxCodewordWidth = Some r.
Proof.
  intros Hcontract. unfold DetectCodeword.
  destruct (AdjustCodewordStartColumn_total image minColumn maxColumn leftToRight
              startColumn imageRow) as (column & -> & _).
  cbn [mbind option_bind].
  destruct (GetModuleBitCount_total image minColumn maxColumn leftToRight column imageRow)
    as (imageColumn & moduleNumber & counts & _ & -> & _).
  cbn [mbind option_bind].
  destruct (_ || _); cbn [negb]; [|eauto].
  destruct (if leftToRight then _ else _) as [[counts' start'] end'].
  destruct (CheckCodewordSkew _ _ _); cbn [negb]; [|eauto].
  destruct (GetDecodedValue counts' =? -1); cbn [negb]; [eauto|].
  destruct (Z.eqb_spec (GetCodeword (GetDecodedValue counts')) (-1)) as [|Hfoundcw];
    cbn [negb]; [eauto|].
  destruct (Hcontract _ Hfoundcw) as (_ & b & Hsymbol).
  destruct (GetCodewordBucketNumber_symbol _ _ Hsymbol) as (n & -> & _).
  cbn [mbind option_bind]. eauto.
Qed.

End ScanningProperties.

(** *** The claims on the row traversal, on concrete rows *)

(** C8, as stated, fails: scanning left to right from column 2 of the row
    [W W W W W B B B B B], [AdjustCodewordStartColumn] moves right over the
    white pixels at columns 2, 3 and 4 and returns column 5, which is 3
    columns from the start, more than [CODEWORD_SKEW_SIZE]. *)
Lemma AdjustCodewordStartColumn_three_away :
  let image := Example.row_image
                 [Example.W; Example.W; Example.W; Example.W; Example.W;
                  Example.B; Example.B; Example.B; Example.B; Example.B] in
  AdjustCodewordStartColumn image 0 10 true 2 0 = Some 5
  /\ ~ Z.abs (5 - 2) <= CODEWORD_SKEW_SIZE.
Proof. split; [reflexivity|]. unfold CODEWORD_SKEW_SIZE. lia. Qed.

(** Scanning right to left, [GetModuleBitCount] succeeds only when all 8
    modules are complete: when the loop is left with 7 complete modules,
    [imageColumn] is below [minColumn], never equal to it. *)
Lemma GetModuleBitCount_right_to_left (image : BitMatrix) (minColumn maxColumn : Z)
    (startColumn imageRow : Z) :
  exists imageColumn moduleNumber moduleBitCount,
    GetModuleBitCount_while
      (GetModuleBitCount_fuel minColumn maxColumn false startColumn)
      image minColumn maxColumn false imageRow (-1) startColumn 0 false (replicate 8 0)
    = Some (imageColumn, moduleNumber, moduleBitCount)
    /\ GetModuleBitCount image minColumn maxColumn false startColumn imageRow
       = Some (moduleNumber =? 8, moduleBitCount)
    /\ (moduleNumber < 8 -> imageColumn < minColumn).
Proof.
  destruct (GetModuleBitCount_total image minColumn maxColumn false startColumn imageRow)
    as (column & number & counts & Hrun & Hget & _ & Hnumber & Hexit & _).
  exists column, number, counts. split; [exact Hrun|]. split.
  - rewrite Hget. f_equal. f_equal.
    destruct (Z.eqb_spec number 8) as [|Hne]; [reflexivity|]. cbn [orb].
    destruct (Z.eqb_spec number 7) as [Hseven|]; [|apply andb_false_r].
    specialize (Hexit ltac:(lia)).
    destruct (Z.eqb_spec column minColumn); [lia|reflexivity].
  - intros Hlt. specialize (Hexit Hlt). lia.
Qed.

(** C6, at the bound of a right-to-left scan: on the row
    [B B W B W B W B W W W], scanned from column 10 down to [minColumn = 0],
    the loop is left at column -1 with 7 complete modules (and the 8th
    holding the last two pixels), and [GetModuleBitCount] returns [false];
    the row [B B B W B W B W B W W], which shows the same runs to a scan
    from column 0 left to right up to [maxColumn = 11], is left at column
    11 with 7 complete modules and returns [true]. *)
Theorem GetModuleBitCount_at_bound :
  let image := Example.row_image
                 [Example.B; Example.B; Example.W; Example.B; Example.W; Example.B;
                  Example.W; Example.B; Example.W; Example.W; Example.W] in
  let mirrored := Example.row_image
                    [Example.B; Example.B; Example.B; Example.W; Example.B; Example.W;
                     Example.B; Example.W; Example.B; Example.W; Example.W] in
  GetModuleBitCount_while (GetModuleBitCount_fuel 0 11 false 10) image 0 11 false 0 (-1)
    10 0 false (replicate 8 0)
  = Some (-1, 7, [3; 1; 1; 1; 1; 1; 1; 2])
  /\ GetModuleBitCount image 0 11 false 10 0 = Some (false, [3; 1; 1; 1; 1; 1; 1; 2])
  /\ GetModuleBitCount_while (GetModuleBitCount_fuel 0 11 true 0) mirrored 0 11 true 0 1
       0 0 true (replicate 8 0)
     = Some (11, 7, [3; 1; 1; 1; 1; 1; 1; 2])
  /\ GetModuleBitCount mirrored 0 11 true 0 0 = Some (true, [3; 1; 1; 1; 1; 1; 1; 2]).
Proof. repeat split; reflexivity. Qed.

(** ** Metadata and codeword count *)

Section DetectingProperties.

Context {symbols : Symbols} {detection : Detection}.

(** C1: when both row indicator columns yield metadata,
    [GetBarcodeMetadata] fails exactly when the column counts, the error
    correction levels and the row counts all differ; when at least one of
    the three is the same on both sides it returns the left metadata as it
    is. *)
Theorem GetBarcodeMetadata_both (left right left' right' : DetectionResultColumn)
    (leftMetadata rightMetadata : BarcodeMetadata) :
  getBarcodeMetadata left = (left', Some leftMetadata) ->
  getBarcodeMetadata right = (right', Some rightMetadata) ->
  (columnCount leftMetadata <> columnCount rightMetadata
   /\ errorCorrectionLevel leftMetadata <> errorCorrectionLevel rightMetadata
   /\ rowCount leftMetadata <> rowCount rightMetadata ->
   GetBarcodeMetadata (Some left) (Some right) = (Some left', Some right', None))
  /\ (columnCount leftMetadata = columnCount rightMetadata
      \/ errorCorrectionLevel leftMetadata = errorCorrectionLevel rightMetadata
      \/ rowCount leftMetadata = rowCount rightMetadata ->
      GetBarcodeMetadata (Some left) (Some right)
      = (Some left', Some right', Some leftMetadata)).
Proof.
  intros Hleft Hright. unfold GetBarcodeMetadata, metadata_of.
  rewrite Hleft, Hright.
  destruct (Z.eqb_spec (columnCount leftMetadata) (columnCount rightMetadata));
    destruct (Z.eqb_spec (errorCorrectionLevel leftMetadata)
                (errorCorrectionLevel rightMetadata));
    destruct (Z.eqb_spec (rowCount leftMetadata) (rowCount rightMetadata));
    cbn [negb andb]; split; intros Hcase; try reflexivity; try tauto; lia.
Qed.

Lemma matrix_setValue_defined (barcodeMatrix : list (list BarcodeValue))
    (rowNumber column v : Z) (row : list BarcodeValue) (cell : BarcodeValue) :
  at_ barcodeMatrix rowNumber = Some row ->
  at_ row column = Some cell ->
  exists barcodeMatrix',
    matrix_setValue barcodeMatrix rowNumber column v = Some barcodeMatrix'.
Proof.
  intros Hrow Hcell. unfold matrix_setValue. rewrite Hrow. cbn [mbind option_bind].
  rewrite Hcell. cbn [mbind option_bind].
  rewrite assign_in_range by (eapply at_Some_range; eauto). cbn [mbind option_bind].
  rewrite assign_in_range by (eapply at_Some_range; eauto). eauto.
Qed.

(** C2, as amended: on a matrix with a cell (0, 1), [AdjustCodewordCount]
    returns [false] exactly when that cell holds no value and the calculated
    number of codewords is outside [1, MAX_CODEWORDS_IN_BARCODE]; when the
    cell holds a value it returns [true] whatever the calculated number
    is. *)
Theorem AdjustCodewordCount_rejects (detectionResult : DetectionResult)
    (barcodeMatrix : list (list BarcodeValue)) (row : list BarcodeValue)
    (cell : BarcodeValue) :
  at_ barcodeMatrix 0 = Some row ->
  at_ row 1 = Some cell ->
  let calculatedNumberOfCodewords :=
    barcodeColumnCount detectionResult * barcodeRowCount detectionResult
    - Z.shiftl 2 (barcodeECLevel detectionResult) in
  exists adjusted barcodeMatrix',
    AdjustCodewordCount detectionResult barcodeMatrix = Some (adjusted, barcodeMatrix')
    /\ (adjusted = false <->
        BarcodeValue_value cell = []
        /\ (calculatedNumberOfCodewords < 1
            \/ calculatedNumberOfCodewords > MAX_CODEWORDS_IN_BARCODE)).
Proof.
  intros Hrow Hcell calculated. unfold AdjustCodewordCount, GetNumberOfECCodeWords.
  rewrite Hrow. cbn [mbind option_bind]. rewrite Hcell. cbn [mbind option_bind].
  fold calculated.
  destruct (matrix_setValue_defined barcodeMatrix 0 1 calculated row cell Hrow Hcell)
    as [barcodeMatrix' Hset].
  destruct (BarcodeValue_value cell) as [|first rest].
  - destruct (Z.ltb_spec calculated 1); cbn [orb].
    { exists false, barcodeMatrix. split; [reflexivity|].
      split; [intros _; split; [reflexivity|lia]|reflexivity]. }
    destruct (Z.gtb_spec calculated MAX_CODEWORDS_IN_BARCODE).
    { exists false, barcodeMatrix. split; [reflexivity|].
      split; [intros _; split; [reflexivity|lia]|reflexivity]. }
    rewrite Hset. exists true, barcodeMatrix'. split; [reflexivity|].
    split; [discriminate|]. intros [_ [|]]; lia.
  - destruct (first =? calculated); cbn [negb].
    + exists true, barcodeMatrix. split; [reflexivity|].
      split; [discriminate|]. intros [? _]. discriminate.
    + rewrite Hset. exists true, barcodeMatrix'. split; [reflexivity|].
      split; [discriminate|]. intros [? _]. discriminate.
Qed.

End DetectingProperties.

(** C2, as stated, fails: for a detection result of 1 column, 1 row and
    error correction level 0 the calculated number of codewords is
    [1 * 1 - 2 = -1], outside [1, 928]; with the value 5 in cell (0, 1)
    [AdjustCodewordCount] returns [true] (and puts -1 into the cell). *)
Lemma AdjustCodewordCount_accepts_outside :
  let detectionResult :=
    {| Example.result_metadata :=
         {| columnCount := 1; errorCorrectionLevel := 0; rowCount := 1 |};
       Example.result_box := None;
       Example.result_columns := [None; None; None] |} in
  let barcodeMatrix := [[ [] ; [(5, 1)] ; [] ]] in
  barcodeColumnCount (Detection := Example.detection) detectionResult
  * barcodeRowCount (Detection := Example.detection) detectionResult
  - Z.shiftl 2 (barcodeECLevel (Detection := Example.detection) detectionResult) = -1
  /\ ~ 1 <= -1 <= MAX_CODEWORDS_IN_BARCODE (Symbols := Example.symbols)
  /\ AdjustCodewordCount (symbols := Example.symbols) (detection := Example.detection)
       detectionResult barcodeMatrix
     = Some (true, [[ [] ; [(-1, 1); (5, 1)] ; [] ]]).
Proof.
  split; [reflexivity|]. split; [|reflexivity].
  cbn. lia.
Qed.

(** ** The theorems at concrete inputs *)

Lemma Example_symbols_contract : Symbols_contract (symbols := Example.symbols).
Proof.
  intros pattern. cbn [GetCodeword Example.symbols].
  destruct (Z.eqb_spec pattern Example.symbol) as [->|]; [|congruence].
  intros _. split; [lia|]. exists Example.symbol_widths.
  repeat split; try reflexivity. unfold Example.symbol_widths.
  repeat constructor; lia.
Qed.

Lemma GetBarcodeMetadata_both_witness :
  let left := Example.indicator_column RowIndicator_Left Example.left_metadata in
  let right := Example.indicator_column RowIndicator_Right Example.right_metadata in
  GetBarcodeMetadata (detection := Example.detection) (Some left) (Some right)
  = (Some left, Some right, Some Example.left_metadata).
Proof.
  exact (proj2 (GetBarcodeMetadata_both (detection := Example.detection)
                  (Example.indicator_column RowIndicator_Left Example.left_metadata)
                  (Example.indicator_column RowIndicator_Right Example.right_metadata)
                  _ _ Example.left_metadata Example.right_metadata eq_refl eq_refl)
               (or_introl eq_refl)).
Defined.

Lemma AdjustCodewordCount_rejects_witness :
  exists adjusted barcodeMatrix',
    AdjustCodewordCount (symbols := Example.symbols) (detection := Example.detection)
      Example.small_result [[ []; []; []; []; [] ]]
    = Some (adjusted, barcodeMatrix')
    /\ (adjusted = false <->
        @nil Z = [] /\ (3 * 3 - Z.shiftl 2 1 < 1 \/ 3 * 3 - Z.shiftl 2 1 > 928)).
Proof.
  exact (AdjustCodewordCount_rejects (symbols := Example.symbols)
           (detection := Example.detection) Example.small_result
           [[ []; []; []; []; [] ]] [ []; []; []; []; [] ] [] eq_refl eq_refl).
Defined.

Lemma CreateDecoderResultFromAmbiguousValues_combinations_witness :
  CreateDecoderResultFromAmbiguousValues (decoders := Example.decoders) 0
    [4; 0; 0; 921] [] [1; 2] [[5; 1]; [7; 3]] tt Example.no_result []
  = try_each (decoders := Example.decoders) (combinations [2; 2]) 0 [] [1; 2]
      [[5; 1]; [7; 3]] tt [4; 0; 0; 921] Example.no_result []
  /\ NoDup (combinations [2; 2])
  /\ length (combinations [2; 2]) = Z.to_nat (product [2; 2])
  /\ ([1; 2] = @nil Z -> combinations [2; 2] = [[]])
  /\ (Forall NoDup [[5; 1]; [7; 3]] ->
      NoDup (map (selected [[5; 1]; [7; 3]]) (combinations [2; 2]))).
Proof.
  apply (CreateDecoderResultFromAmbiguousValues_combinations
           (decoders := Example.decoders) 0 [4; 0; 0; 921] [] [1; 2] [[5; 1]; [7; 3]]
           tt Example.no_result []).
  - reflexivity.
  - repeat constructor; vm_compute; discriminate.
  - vm_compute. discriminate.
Defined.

Lemma DetectCodeword_codeword_witness :
  let codeword := Codeword_new 1 18 6 768 in
  let image := Example.row_image Example.symbol_row in
  0 <= bucket codeword < 9
  /\ 0 <= value codeword < 929
  /\ endX codeword > startX codeword
  /\ exists column moduleBitCount b,
       AdjustCodewordStartColumn image 0 19 true 1 0 = Some column
       /\ GetModuleBitCount image 0 19 true column 0 = Some (true, moduleBitCount)
       /\ endX codeword - startX codeword = accumulate moduleBitCount
       /\ let pattern := GetDecodedValue (Symbols := Example.symbols) moduleBitCount in
          pattern <> -1
          /\ value codeword = GetCodeword (Symbols := Example.symbols) pattern
          /\ is_symbol pattern b
          /\ GetBitCountForCodeword pattern = Some b
          /\ GetCodewordBucketNumber pattern = Some (bucket codeword)
          /\ bucket codeword
             = (nth 0 b 0 - nth 2 b 0 + nth 4 b 0 - nth 6 b 0 + 9) mod 9.
Proof.
  apply (DetectCodeword_codeword (symbols := Example.symbols)
           (Example.row_image Example.symbol_row) 0 19 true 1 0 17 17
           (Codeword_new 1 18 6 768)).
  - exact Example_symbols_contract.
  - reflexivity.
Defined.

(** * Further properties of the scanning decoder *)

(** ** Row traversal *)

Lemma AdjustCodewordStartColumn_while_stop (fuel : nat) (image : BitMatrix)
    (minColumn maxColumn : Z) (leftToRight : bool) (codewordStartColumn imageRow : Z)
    (increment correctedStartColumn : Z) :
  (if leftToRight then correctedStartColumn >=? minColumn
   else correctedStartColumn <? maxColumn)
  && eqb leftToRight (get image correctedStartColumn imageRow) = false ->
  AdjustCodewordStartColumn_while (S fuel) image minColumn maxColumn leftToRight
    codewordStartColumn imageRow increment correctedStartColumn
  = Some (Stopped correctedStartColumn).
Proof. intros Hcond. cbn [AdjustCodewordStartColumn_while]. now rewrite Hcond. Qed.

Lemma AdjustCodewordStartColumn_while_step (fuel : nat) (image : BitMatrix)
    (minColumn maxColumn : Z) (leftToRight : bool) (codewordStartColumn imageRow : Z)
    (increment correctedStartColumn : Z) :
  (if leftToRight then correctedStartColumn >=? minColumn
   else correctedStartColumn <? maxColumn)
  && eqb leftToRight (get image correctedStartColumn imageRow) = true ->
  Z.abs (codewordStartColumn - correctedStartColumn) <= CODEWORD_SKEW_SIZE ->
  AdjustCodewordStartColumn_while (S fuel) image minColumn maxColumn leftToRight
    codewordStartColumn imageRow increment correctedStartColumn
  = AdjustCodewordStartColumn_while fuel image minColumn maxColumn leftToRight
      codewordStartColumn imageRow increment (correctedStartColumn + increment).
Proof.
  intros Hcond Hnear. cbn [AdjustCodewordStartColumn_while]. rewrite Hcond.
  destruct (Z.gtb_spec (Z.abs (codewordStartColumn - correctedStartColumn))
              CODEWORD_SKEW_SIZE); [lia|reflexivity].
Qed.

(** A start column that already sits on the edge is kept: when the pixel at
    [codewordStartColumn] has the colour the scan starts with (black from
    left to right, white from right to left) and the pixel before it, seen
    in the direction of the scan, has the other colour,
    [AdjustCodewordStartColumn] returns [codewordStartColumn], with one
    exception: when the first loop steps to the pixel before and the bound
    of the second loop keeps it from stepping back (from left to right
    [codewordStartColumn >= minColumn] and [codewordStartColumn - 1 >=
    maxColumn], from right to left [codewordStartColumn < maxColumn] and
    [codewordStartColumn + 1 < minColumn]), the column of the pixel before
    is returned. *)
Theorem AdjustCodewordStartColumn_on_edge (image : BitMatrix) (minColumn maxColumn : Z)
    (leftToRight : bool) (codewordStartColumn imageRow : Z) :
  get image codewordStartColumn imageRow = leftToRight ->
  get image (codewordStartColumn + (if leftToRight then -1 else 1)) imageRow
  = negb leftToRight ->
  AdjustCodewordStartColumn image minColumn maxColumn leftToRight codewordStartColumn
    imageRow
  = Some (if (if leftToRight
              then (codewordStartColumn >=? minColumn)
                   && (codewordStartColumn - 1 >=? maxColumn)
              else (codewordStartColumn <? maxColumn)
                   && (codewordStartColumn + 1 <? minColumn))
          then codewordStartColumn + (if leftToRight then -1 else 1)
          else codewordStartColumn).
Proof.
  intros Hhere Hbefore. unfold AdjustCodewordStartColumn.
  cbn [AdjustCodewordStartColumn_for].
  set (increment := if leftToRight then -1 else 1) in *.
  (* the pixel before the start stops the first loop, the pixel at the start
     the second *)
  assert (Hstop1 :
    (if leftToRight then codewordStartColumn + increment >=? minColumn
     else codewordStartColumn + increment <? maxColumn)
    && eqb leftToRight (get image (codewordStartColumn + increment) imageRow) = false).
  { rewrite Hbefore. destruct leftToRight; cbn [eqb negb]; apply andb_false_r. }
  assert (Hstop2 :
    (if negb leftToRight then codewordStartColumn >=? minColumn
     else codewordStartColumn <? maxColumn)
    && eqb (negb leftToRight) (get image codewordStartColumn imageRow) = false).
  { rewrite Hhere. destruct leftToRight; cbn [eqb negb]; apply andb_false_r. }
  assert (Hfirst : forall moves,
    (if leftToRight then codewordStartColumn >=? minColumn
     else codewordStartColumn <? maxColumn) = moves ->
    (if leftToRight then codewordStartColumn >=? minColumn
     else codewordStartColumn <? maxColumn)
    && eqb leftToRight (get image codewordStartColumn imageRow) = moves).
  { intros moves <-. rewrite Hhere. destruct leftToRight; cbn [eqb]; apply andb_true_r. }
  assert (Hback : forall steps,
    (if leftToRight then negb (codewordStartColumn - 1 >=? maxColumn)
     else negb (codewordStartColumn + 1 <? minColumn)) = steps ->
    (if negb leftToRight then codewordStartColumn + increment >=? minColumn
     else codewordStartColumn + increment <? maxColumn)
    && eqb (negb leftToRight) (get image (codewordStartColumn + increment) imageRow)
    = steps).
  { intros steps <-. rewrite Hbefore. subst increment.
    destruct leftToRight; cbn [eqb negb]; rewrite andb_true_r.
    - destruct (Z.ltb_spec (codewordStartColumn + -1) maxColumn),
        (Z.geb_spec (codewordStartColumn - 1) maxColumn); (reflexivity || lia).
    - destruct (Z.geb_spec (codewordStartColumn + 1) minColumn),
        (Z.ltb_spec (codewordStartColumn + 1) minColumn); (reflexivity || lia). }
  destruct (if leftToRight then codewordStartColumn >=? minColumn
            else codewordStartColumn <? maxColumn) eqn:Hmoves.
  - specialize (Hfirst true eq_refl).
    rewrite (AdjustCodewordStartColumn_while_step 7)
      by (rewrite ?Hmoves; auto; unfold CODEWORD_SKEW_SIZE; lia).
    rewrite (AdjustCodewordStartColumn_while_stop 6) by exact Hstop1.
    cbn [mbind option_bind].
    destruct (if leftToRight then negb (codewordStartColumn - 1 >=? maxColumn)
              else negb (codewordStartColumn + 1 <? minColumn)) eqn:Hsteps.
    + specialize (Hback true eq_refl).
      rewrite (AdjustCodewordStartColumn_while_step 7)
        by (auto; unfold CODEWORD_SKEW_SIZE; subst increment; destruct leftToRight; lia).
      replace (codewordStartColumn + increment + - increment) with codewordStartColumn
        by lia.
      rewrite (AdjustCodewordStartColumn_while_stop 6) by exact Hstop2.
      cbn [mbind option_bind]. f_equal.
      destruct leftToRight; apply negb_true_iff in Hsteps;
        now rewrite Hsteps, andb_false_r.
    + specialize (Hback false eq_refl).
      rewrite (AdjustCodewordStartColumn_while_stop 7) by exact Hback.
      cbn [mbind option_bind]. f_equal.
      destruct leftToRight; apply negb_false_iff in Hsteps;
        now rewrite Hmoves, Hsteps.
  - specialize (Hfirst false eq_refl).
    rewrite (AdjustCodewordStartColumn_while_stop 7) by (now rewrite Hmoves).
    cbn [mbind option_bind].
    rewrite (AdjustCodewordStartColumn_while_stop 7) by exact Hstop2.
    cbn [mbind option_bind]. f_equal. destruct leftToRight; now rewrite Hmoves.
Qed.

Lemma AdjustCodewordStartColumn_on_edge_witness :
  AdjustCodewordStartColumn (Example.row_image Example.symbol_row) 0 19 true 1 0 = Some 1.
Proof.
  apply (AdjustCodewordStartColumn_on_edge (Example.row_image Example.symbol_row)
           0 19 true 1 0); reflexivity.
Defined.

Section ScanningGeometry.

Context {symbols : Symbols}.


End ScanningGeometry.


(** ** Error correction and codeword count *)

Section DecodingMore.

Context {decoders : Decoders}.

(** [DecodeCodewords] answers [NoError] only when the number of erasures is
    within [numECCodewords / 2 + 3] for [numECCodewords = 1 << (ecLevel + 1)]
    in 0..512, the Reed-Solomon decoder, the count check and the bit stream
    parser all succeed, in this order; the decoder result is then the
    parser's with the number of corrected errors and the number of erasures
    set, and each external decoder has been called exactly once. *)
Theorem DecodeCodewords_NoError (codewords : list Z) (ecLevel : Z) (erasures : list Z)
    (codec : StringCodecs) (result : DecoderResult) (log : list Call)
    (codewords' : list Z) (result' : DecoderResult) (log' : list Call) :
  DecodeCodewords codewords ecLevel erasures codec result log
  = Some (NoError, codewords', result', log') ->
  let numECCodewords := Z.shiftl 1 (ecLevel + 1) in
  exists corrected errorsCorrected parsed,
    codewords <> []
    /\ size erasures <= Z.quot numECCodewords 2 + MAX_ERRORS
    /\ 0 <= numECCodewords <= MAX_EC_CODEWORDS
    /\ ErrorCorrection_Decode_fn codewords numECCodewords erasures 0
       = (true, corrected, errorsCorrected)
    /\ VerifyCodewordCount corrected numECCodewords = (NoError, codewords')
    /\ DecodedBitStreamParser_Decode_fn codewords' ecLevel codec result
       = (NoError, parsed)
    /\ result' = setErasures (setErrorsCorrected parsed errorsCorrected) (size erasures)
    /\ log' = log ++ [ErrorCorrection_Decode codewords numECCodewords erasures;
                      DecodedBitStreamParser_Decode codewords' ecLevel].
Proof.
  unfold DecodeCodewords, CorrectErrors.
  destruct (bool_decide (codewords = [])) eqn:Hempty; [discriminate|].
  apply bool_decide_eq_false in Hempty.
  set (numECCodewords := Z.shiftl 1 (ecLevel + 1)).
  rewrite Run_bind_unfold.
  destruct (Z.gtb_spec (size erasures) (Z.quot numECCodewords 2 + MAX_ERRORS));
    cbn [orb]; [discriminate|].
  destruct (Z.ltb_spec numECCodewords 0); cbn [orb]; [discriminate|].
  destruct (Z.gtb_spec numECCodewords MAX_EC_CODEWORDS); [discriminate|].
  rewrite Run_bind_unfold. cbn [called].
  destruct (ErrorCorrection_Decode_fn codewords numECCodewords erasures 0)
    as [[ok corrected] errorsCorrected] eqn:Hrs.
  destruct ok; cbn; [|discriminate].
  destruct (VerifyCodewordCount corrected numECCodewords) as [status verified] eqn:Hverify.
  destruct status; cbn; try discriminate.
  destruct (DecodedBitStreamParser_Decode_fn verified ecLevel codec result)
    as [status parsed] eqn:Hparse.
  destruct status; cbn; try discriminate.
  intros [= <- <- <-]. exists corrected, errorsCorrected, parsed.
  rewrite <- app_assoc. repeat split; auto; lia.
Qed.

(** [DecodeCodewords] calls the external decoders at most twice. *)
Lemma DecodeCodewords_calls (codewords : list Z) (ecLevel : Z) (erasures : list Z)
    (codec : StringCodecs) (result : DecoderResult) (log : list Call) r (log' : list Call) :
  DecodeCodewords codewords ecLevel erasures codec result log = Some (r, log') ->
  exists calls, log' = log ++ calls /\ (length calls <= 2)%nat.
Proof.
  unfold DecodeCodewords, CorrectErrors.
  destruct (bool_decide (codewords = [])).
  { intros [= <- <-]. exists []. rewrite app_nil_r. split; [reflexivity|cbn; lia]. }
  rewrite Run_bind_unfold.
  destruct (_ || _).
  { cbn. intros [= <- <-]. exists []. rewrite app_nil_r. split; [reflexivity|cbn; lia]. }
  rewrite Run_bind_unfold. cbn [called].
  destruct (ErrorCorrection_Decode_fn _ _ _ _) as [[ok corrected] errorsCorrected].
  destruct ok; cbn.
  2:{ intros [= <- <-]. eexists. split; [reflexivity|cbn; lia]. }
  destruct (VerifyCodewordCount corrected _) as [status verified].
  destruct status; cbn;
    try (intros [= <- <-]; eexists; split; [reflexivity|cbn; lia]).
  destruct (DecodedBitStreamParser_Decode_fn _ _ _ _) as [status parsed].
  destruct status; cbn; intros [= <- <-]; rewrite <- app_assoc;
    eexists; (split; [reflexivity|cbn; lia]).
Qed.

(** Each attempt of the resolver calls the external decoders at most
    twice. *)
Lemma attempts_calls (ecLevel : Z) (erasureArray ambiguousIndexes : list Z)
    (ambiguousIndexValues : list (list Z)) (codec : StringCodecs) (tries : nat) :
  forall (ambiguousIndexCount codewords : list Z) (result : DecoderResult)
         (log : list Call) r (log' : list Call),
    attempts tries ecLevel erasureArray ambiguousIndexes ambiguousIndexValues codec
      ambiguousIndexCount codewords result log = Some (r, log') ->
    exists calls, log' = log ++ calls /\ (length calls <= 2 * tries)%nat.
Proof.
  induction tries as [|tries IH]; intros count codewords result log r log'.
  { cbn. intros [= <- <-]. exists []. rewrite app_nil_r. split; [reflexivity|cbn; lia]. }
  cbn [attempts]. rewrite Run_bind_unfold.
  destruct (patch _ _ _ _) as [patched|]; cbn [defined]; [|discriminate].
  rewrite Run_bind_unfold.
  destruct (DecodeCodewords patched ecLevel erasureArray codec result log)
    as [[[[status codewords'] result'] log1]|] eqn:Hdecode; [|discriminate].
  apply DecodeCodewords_calls in Hdecode as (calls1 & -> & Hcalls1).
  destruct (bool_decide (status <> ChecksumError)).
  { intros [= <- <-]. exists calls1. split; [reflexivity|lia]. }
  destruct (bool_decide (count = [])).
  { intros [= <- <-]. exists calls1. split; [reflexivity|lia]. }
  rewrite Run_bind_unfold.
  destruct (advance _ _ _ _) as [[count'|]|]; cbn [defined]; [| |discriminate].
  - intros Hrest. apply IH in Hrest as (calls2 & -> & Hcalls2).
    exists (calls1 ++ calls2). rewrite app_assoc, length_app. split; [reflexivity|lia].
  - intros [= <- <-]. exists calls1. split; [reflexivity|lia].
Qed.

(** The resolver is bounded: whatever the candidates are, the loop of
    [CreateDecoderResultFromAmbiguousValues] makes at most 100 attempts and
    calls the external decoders at most twice per attempt, at most 200
    times in all. *)
Theorem CreateDecoderResultFromAmbiguousValues_bounded (ecLevel : Z)
    (codewords erasureArray ambiguousIndexes : list Z)
    (ambiguousIndexValues : list (list Z)) (codec : StringCodecs)
    (result : DecoderResult) (log : list Call) r (log' : list Call) :
  CreateDecoderResultFromAmbiguousValues ecLevel codewords erasureArray ambiguousIndexes
    ambiguousIndexValues codec result log = Some (r, log') ->
  exists calls, log' = log ++ calls /\ (length calls <= 200)%nat.
Proof.
  unfold CreateDecoderResultFromAmbiguousValues. intros Hrun.
  apply attempts_calls in Hrun as (calls & -> & Hcalls). exists calls.
  split; [reflexivity|lia].
Qed.

End DecodingMore.

Lemma DecodeCodewords_NoError_witness :
  exists corrected errorsCorrected parsed,
    [4; 0; 0; 925] <> []
    /\ size (@nil Z) <= Z.quot (Z.shiftl 1 (0 + 1)) 2 + MAX_ERRORS
    /\ 0 <= Z.shiftl 1 (0 + 1) <= MAX_EC_CODEWORDS
    /\ ErrorCorrection_Decode_fn (Decoders := Example.decoders) [4; 0; 0; 925]
         (Z.shiftl 1 (0 + 1)) [] 0 = (true, corrected, errorsCorrected)
    /\ VerifyCodewordCount corrected (Z.shiftl 1 (0 + 1)) = (NoError, [4; 0; 0; 925])
    /\ DecodedBitStreamParser_Decode_fn (Decoders := Example.decoders) [4; 0; 0; 925] 0
         tt Example.no_result = (NoError, parsed)
    /\ {| Example.decoded_codewords := [4; 0; 0; 925];
          Example.decoded_errorsCorrected := 0;
          Example.decoded_erasures := 0 |}
       = setErasures (Decoders := Example.decoders)
           (setErrorsCorrected (Decoders := Example.decoders) parsed errorsCorrected)
           (size (@nil Z))
    /\ [ErrorCorrection_Decode [4; 0; 0; 925] 2 [];
        DecodedBitStreamParser_Decode [4; 0; 0; 925] 0]
       = [] ++ [ErrorCorrection_Decode [4; 0; 0; 925] (Z.shiftl 1 (0 + 1)) [];
                DecodedBitStreamParser_Decode [4; 0; 0; 925] 0].
Proof.
  apply (DecodeCodewords_NoError (decoders := Example.decoders) [4; 0; 0; 925] 0 [] tt
           Example.no_result []).
  reflexivity.
Defined.

Lemma CreateDecoderResultFromAmbiguousValues_bounded_witness :
  exists calls,
    [ErrorCorrection_Decode [4; 5; 7; 921] 2 []; ErrorCorrection_Decode [4; 1; 7; 921] 2 [];
     ErrorCorrection_Decode [4; 5; 3; 921] 2 []; ErrorCorrection_Decode [4; 1; 3; 921] 2 [];
     DecodedBitStreamParser_Decode [4; 1; 3; 921] 0]
    = [] ++ calls
    /\ (length calls <= 200)%nat.
Proof.
  apply (CreateDecoderResultFromAmbiguousValues_bounded (decoders := Example.decoders) 0
           [4; 0; 0; 921] [] [1; 2] [[5; 1]; [7; 3]] tt Example.no_result []
           (NoError, [4; 1; 3; 921],
            {| Example.decoded_codewords := [4; 1; 3; 921];
               Example.decoded_errorsCorrected := 0;
               Example.decoded_erasures := 0 |})).
  reflexivity.
Defined.

(** ** Row indicators, metadata and bounding box *)

(** [GetMax] returns -1 for an empty vector and otherwise an element of the
    vector that no element exceeds. *)
Theorem GetMax_greatest (v : list Z) :
  (v = [] -> GetMax v = -1)
  /\ (v <> [] -> GetMax v ∈ v /\ Forall (fun x => x <= GetMax v) v).
Proof.
  split; [intros ->; reflexivity|]. intros Hne.
  destruct v as [|x v]; [congruence|]. cbn [GetMax]. clear Hne.
  revert x. induction v as [|y v IH]; intros x; cbn [foldl].
  - split; [left|repeat constructor; lia].
  - destruct (IH (Z.max x y)) as [Hin Hall].
    inversion Hall as [|? ? Hhead Htail]; subst. split.
    + apply elem_of_cons in Hin as [Heq|Hin].
      * rewrite Heq. destruct (Z.max_spec x y) as [[_ ->]|[_ ->]];
          [right; left|left].
      * right. right. exact Hin.
    + constructor; [lia|]. constructor; [lia|exact Htail].
Qed.

Section MergeProperties.

Context {symbols : Symbols} {detection : Detection} {decoders : Decoders}.

(** A [Merge] that fails leaves the detection result as it was; one that
    succeeds has initialised it with the metadata [GetBarcodeMetadata]
    gives for the two columns.  Without any column [Merge] fails at once. *)
Theorem Merge_result
    (leftRowIndicatorColumn rightRowIndicatorColumn : option DetectionResultColumn)
    (result : DetectionResult)
    (left' right' : option DetectionResultColumn) (result' : DetectionResult)
    (merged : bool) :
  Merge leftRowIndicatorColumn rightRowIndicatorColumn result
  = Some (left', right', result', merged) ->
  (merged = false -> result' = result)
  /\ (merged = true ->
      exists barcodeMetadata mergedBox,
        (GetBarcodeMetadata leftRowIndicatorColumn rightRowIndicatorColumn).2
        = Some barcodeMetadata
        /\ result' = init result barcodeMetadata mergedBox)
  /\ (leftRowIndicatorColumn = None -> rightRowIndicatorColumn = None ->
      merged = false /\ left' = None /\ right' = None).
Proof.
  unfold Merge.
  destruct (bool_decide (leftRowIndicatorColumn <> None)
            || bool_decide (rightRowIndicatorColumn <> None)) eqn:Hsome.
  2:{ intros [= <- <- <- <-]. apply orb_false_iff in Hsome as [Hl Hr].
      apply bool_decide_eq_false in Hl, Hr.
      repeat split; try discriminate; auto;
        destruct leftRowIndicatorColumn, rightRowIndicatorColumn; congruence. }
  assert (Hnot : ~ (leftRowIndicatorColumn = None /\ rightRowIndicatorColumn = None)).
  { intros [-> ->]. cbn in Hsome. repeat rewrite bool_decide_eq_false_2 in Hsome by auto.
    discriminate. }
  destruct (GetBarcodeMetadata leftRowIndicatorColumn rightRowIndicatorColumn)
    as [[left1 right1] [metadata|]] eqn:Hmetadata; cbn [snd].
  2:{ intros [= <- <- <- <-]. repeat split; try discriminate; tauto. }
  destruct (AdjustBoundingBox left1) as [[left2 [leftBox|]]|]; cbn [mbind option_bind];
    try discriminate.
  2:{ intros [= <- <- <- <-]. repeat split; try discriminate; tauto. }
  destruct (AdjustBoundingBox right1) as [[right2 [rightBox|]]|]; cbn [mbind option_bind];
    try discriminate.
  2:{ intros [= <- <- <- <-]. repeat split; try discriminate; tauto. }
  destruct (BoundingBox_Merge leftBox rightBox) as [mergedBox|].
  2:{ intros [= <- <- <- <-]. repeat split; try discriminate; tauto. }
  intros [= <- <- <- <-]. repeat split; try discriminate; try tauto.
  intros _. exists metadata, mergedBox. split; reflexivity.
Qed.

(** Without a top left and a top right corner [Decode] answers [NotFound]:
    no row indicator column is read, [Merge] fails, and the decoder result
    and the log of calls to the external decoders are as they were. *)
Theorem Decode_without_top_corners (image : BitMatrix)
    (imageBottomLeft imageBottomRight : option ResultPoint)
    (minCodewordWidth maxCodewordWidth : Z) (codec : StringCodecs)
    (result : DecoderResult) (log : list Call) :
  Decode image None imageBottomLeft None imageBottomRight minCodewordWidth
    maxCodewordWidth codec result log
  = Some (NotFound, result, log).
Proof.
  unfold Decode. destruct (BoundingBox_Create _ _ _ _ _ _); [|reflexivity].
  rewrite Run_bind_unfold. cbn [Decode_indicators mbind option_bind].
  cbn [leftRowIndicatorColumn rightRowIndicatorColumn detectionResult].
  unfold Merge. rewrite !bool_decide_eq_false_2 by auto. reflexivity.
Qed.

End MergeProperties.

Lemma Merge_result_witness :
  let left := Example.indicator_column RowIndicator_Left Example.left_metadata in
  let right := Example.indicator_column RowIndicator_Right Example.right_metadata in
  let result' :=
    {| Example.result_metadata := Example.left_metadata;
       Example.result_box := None;
       Example.result_columns := [None; None; None; None; None] |} in
  (true = false -> result' = Example.small_result)
  /\ (true = true ->
      exists barcodeMetadata mergedBox,
        (GetBarcodeMetadata (detection := Example.detection) (Some left) (Some right)).2
        = Some barcodeMetadata
        /\ result' = init (Detection := Example.detection) Example.small_result
                       barcodeMetadata mergedBox)
  /\ (Some left = None -> Some right = None ->
      true = false /\ Some left = None /\ Some right = None).
Proof.
  apply (Merge_result (detection := Example.detection)
           (Some (Example.indicator_column RowIndicator_Left Example.left_metadata))
           (Some (Example.indicator_column RowIndicator_Right Example.right_metadata))
           Example.small_result).
  reflexivity.
Defined.

(** ** The barcode matrix *)

Section MatrixProperties.

Context {symbols : Symbols} {detection : Detection}.

Lemma matrix_setValue_shape (barcodeMatrix barcodeMatrix' : list (list BarcodeValue))
    (rowNumber column v cells : Z) :
  matrix_setValue barcodeMatrix rowNumber column v = Some barcodeMatrix' ->
  size barcodeMatrix' = size barcodeMatrix
  /\ (Forall (fun row => size row = cells) barcodeMatrix ->
      Forall (fun row => size row = cells) barcodeMatrix').
Proof.
  unfold matrix_setValue.
  destruct (at_ barcodeMatrix rowNumber) as [row|] eqn:Hrow; [|discriminate].
  cbn [mbind option_bind].
  destruct (at_ row column) as [cell|] eqn:Hcell; [|discriminate].
  cbn [mbind option_bind].
  destruct (assign row column _) as [row'|] eqn:Hassign; [|discriminate].
  cbn [mbind option_bind]. intros Hset.
  pose proof (assign_size _ _ _ _ Hassign) as Hsize.
  pose proof (assign_size _ _ _ _ Hset) as Hsize'.
  split; [exact Hsize'|]. intros Hall.
  rewrite assign_in_range in Hset by (eapply at_Some_range; eauto).
  injection Hset as <-. apply Forall_insert; [exact Hall|].
  rewrite Hsize. apply at_lookup in Hrow.
  eapply (Forall_lookup_1 _ _ _ _ Hall Hrow).
Qed.

Lemma CreateBarcodeMatrix_codewords_shape (codewords : list (option Codeword))
    (column cells : Z) :
  forall barcodeMatrix barcodeMatrix',
    CreateBarcodeMatrix_codewords codewords column barcodeMatrix = Some barcodeMatrix' ->
    size barcodeMatrix' = size barcodeMatrix
    /\ (Forall (fun row => size row = cells) barcodeMatrix ->
        Forall (fun row => size row = cells) barcodeMatrix').
Proof.
  induction codewords as [|codeword codewords IH]; intros m m'; cbn.
  - intros [= <-]. auto.
  - destruct (match codeword with Some _ => _ | None => _ end) as [m1|] eqn:Hstep;
      [|discriminate].
    cbn [mbind option_bind]. intros Hrest. apply IH in Hrest as [Hsize Hall].
    assert (Hstep' : size m1 = size m
                     /\ (Forall (fun row => size row = cells) m ->
                         Forall (fun row => size row = cells) m1)).
    { destruct codeword as [codeword|]; [|injection Hstep as <-; auto].
      destruct (rowNumber codeword >=? 0); [|injection Hstep as <-; auto].
      destruct (rowNumber codeword >=? size m); [injection Hstep as <-; auto|].
      eapply matrix_setValue_shape; eauto. }
    destruct Hstep' as [Hsize1 Hall1]. split; [congruence|auto].
Qed.

Lemma CreateBarcodeMatrix_columns_shape (columns : list (option DetectionResultColumn))
    (cells : Z) :
  forall column barcodeMatrix barcodeMatrix',
    CreateBarcodeMatrix_columns columns column barcodeMatrix = Some barcodeMatrix' ->
    size barcodeMatrix' = size barcodeMatrix
    /\ (Forall (fun row => size row = cells) barcodeMatrix ->
        Forall (fun row => size row = cells) barcodeMatrix').
Proof.
  induction columns as [|resultColumn columns IH]; intros column m m'; cbn.
  - intros [= <-]. auto.
  - destruct (match resultColumn with Some _ => _ | None => _ end) as [m1|] eqn:Hstep;
      [|discriminate].
    cbn [mbind option_bind]. intros Hrest. apply IH in Hrest as [Hsize Hall].
    assert (Hstep' : size m1 = size m
                     /\ (Forall (fun row => size row = cells) m ->
                         Forall (fun row => size row = cells) m1)).
    { destruct resultColumn as [resultColumn|]; [|injection Hstep as <-; auto].
      eapply CreateBarcodeMatrix_codewords_shape; eauto. }
    destruct Hstep' as [Hsize1 Hall1]. split; [congruence|auto].
Qed.

Lemma as_size_Some (n : Z) (k : nat) : as_size n = Some k -> 0 <= n /\ Z.of_nat k = n.
Proof.
  unfold as_size. destruct (Z.ltb_spec n 0); [discriminate|]. intros [= <-]. lia.
Qed.

(** The matrix before the columns are read: [None] when a count that is
    converted to a size is negative. *)
Lemma CreateBarcodeMatrix_empty (detectionResult : DetectionResult)
    (barcodeMatrix : list (list BarcodeValue)) :
  CreateBarcodeMatrix_resize detectionResult = Some barcodeMatrix ->
  0 <= barcodeRowCount detectionResult
  /\ (1 <= barcodeRowCount detectionResult -> 0 <= barcodeColumnCount detectionResult + 2)
  /\ barcodeMatrix
     = replicate (Z.to_nat (barcodeRowCount detectionResult))
         (replicate (Z.to_nat (barcodeColumnCount detectionResult + 2)) BarcodeValue_new).
Proof.
  unfold CreateBarcodeMatrix_resize.
  destruct (as_size (barcodeRowCount detectionResult)) as [rows|] eqn:Hrows;
    [|discriminate].
  cbn [mbind option_bind]. apply as_size_Some in Hrows as [Hrows0 Hrows].
  destruct rows as [|rows].
  - intros [= <-]. replace (barcodeRowCount detectionResult) with 0 by lia.
    split; [lia|]. split; [lia|reflexivity].
  - destruct (as_size (barcodeColumnCount detectionResult + 2)) as [cells|] eqn:Hcells;
      [|discriminate].
    cbn [mbind option_bind]. apply as_size_Some in Hcells as [Hcells0 Hcells].
    intros [= <-]. split; [lia|]. split; [lia|].
    now replace (Z.to_nat (barcodeRowCount detectionResult)) with (S rows) by lia;
      replace (Z.to_nat (barcodeColumnCount detectionResult + 2)) with cells by lia.
Qed.

(** The matrix [CreateBarcodeMatrix] builds has [barcodeRowCount] rows of
    [barcodeColumnCount + 2] cells each, whatever the columns hold.  When it
    returns, the number of rows is not negative, and with at least one row
    the number of cells is not negative either; with no row the number of
    cells is not looked at. *)
Theorem CreateBarcodeMatrix_shape (detectionResult detectionResult' : DetectionResult)
    (barcodeMatrix : list (list BarcodeValue)) :
  CreateBarcodeMatrix detectionResult = Some (detectionResult', barcodeMatrix) ->
  size barcodeMatrix = barcodeRowCount detectionResult
  /\ Forall (fun row => size row = barcodeColumnCount detectionResult + 2) barcodeMatrix
  /\ 0 <= barcodeRowCount detectionResult
  /\ (1 <= barcodeRowCount detectionResult -> 0 <= barcodeColumnCount detectionResult + 2)
  /\ detectionResult' = (allColumns detectionResult).1.
Proof.
  unfold CreateBarcodeMatrix.
  destruct (CreateBarcodeMatrix_resize detectionResult) as [empty|] eqn:Hempty;
    [|discriminate].
  apply CreateBarcodeMatrix_empty in Hempty as (Hrows & Hcells & ->).
  cbn [mbind option_bind].
  destruct (allColumns detectionResult) as [result columns]. cbn [fst].
  destruct (CreateBarcodeMatrix_columns columns 0 _) as [matrix|] eqn:Hbuild;
    [|discriminate].
  cbn [mbind option_bind]. intros [= <- <-].
  apply (CreateBarcodeMatrix_columns_shape _ (barcodeColumnCount detectionResult + 2))
    in Hbuild as [Hsize Hall].
  rewrite size_replicate in Hsize. repeat split; try lia.
  apply Hall. destruct (Z.le_gt_cases 1 (barcodeRowCount detectionResult)) as [Hone|Hnone].
  - apply Forall_replicate. rewrite size_replicate. specialize (Hcells Hone). lia.
  - replace (Z.to_nat (barcodeRowCount detectionResult)) with 0%nat by lia. constructor.
Qed.

End MatrixProperties.

Lemma at_insert {A} (v : list A) (i j : Z) (x : A) :
  0 <= i < size v ->
  at_ (<[Z.to_nat i := x]> v) j = if j =? i then Some x else at_ v j.
Proof.
  intros Hi. destruct (Z.eqb_spec j i) as [->|Hne]; [now apply at_insert_same|].
  unfold at_, size. rewrite length_insert.
  destruct (_ && _) eqn:Hj; [|reflexivity].
  apply andb_true_iff in Hj as [Hj _]. apply Z.leb_le in Hj.
  apply list_lookup_insert_ne. lia.
Qed.

Lemma at_replicate {A} (n : nat) (x : A) (i : Z) :
  0 <= i < Z.of_nat n -> at_ (replicate n x) i = Some x.
Proof.
  intros Hi. unfold at_. rewrite size_replicate.
  destruct (Z.leb_spec 0 i); [|lia]. destruct (Z.ltb_spec i (Z.of_nat n)); [|lia].
  cbn. apply lookup_replicate_2. lia.
Qed.

Lemma cell_at_outside {A} (barcodeMatrix : list (list A)) (r c : Z) :
  ~ 0 <= r < size barcodeMatrix -> cell_at barcodeMatrix r c = None.
Proof.
  intros Hr. unfold cell_at.
  destruct (at_ barcodeMatrix r) eqn:Hat; [|reflexivity].
  apply at_Some_range in Hat. lia.
Qed.

Lemma fmap_same {A} (f : A -> A) (o : option A) :
  (forall a, f a = a) -> f <$> o = o.
Proof. intros Hf. destruct o; cbn; [now rewrite Hf|reflexivity]. Qed.

Lemma fmap_ext_option {A B} (f g : A -> B) (o : option A) :
  (forall a, f a = g a) -> f <$> o = g <$> o.
Proof. intros Hf. destruct o; cbn; [now rewrite Hf|reflexivity]. Qed.

Section MatrixCells.

Context {symbols : Symbols} {detection : Detection}.

(** [setValue] on one cell changes that cell and no other. *)
Lemma matrix_setValue_cell (barcodeMatrix barcodeMatrix' : list (list BarcodeValue))
    (rowNumber column v : Z) :
  matrix_setValue barcodeMatrix rowNumber column v = Some barcodeMatrix' ->
  forall r c,
    cell_at barcodeMatrix' r c
    = (fun cell => if (r =? rowNumber) && (c =? column) then setValue cell v else cell)
      <$> cell_at barcodeMatrix r c.
Proof.
  unfold matrix_setValue.
  destruct (at_ barcodeMatrix rowNumber) as [row|] eqn:Hrow; [|discriminate].
  cbn [mbind option_bind].
  destruct (at_ row column) as [cell|] eqn:Hcell; [|discriminate].
  cbn [mbind option_bind].
  pose proof (at_Some_range _ _ _ Hrow) as Hr.
  pose proof (at_Some_range _ _ _ Hcell) as Hc.
  rewrite assign_in_range by assumption. cbn [mbind option_bind].
  rewrite assign_in_range by assumption.
  intros [= <-] r c. unfold cell_at. rewrite at_insert by exact Hr.
  destruct (Z.eqb_spec r rowNumber) as [->|Hne]; cbn [andb].
  - rewrite Hrow. cbn [mbind option_bind]. rewrite at_insert by exact Hc.
    destruct (Z.eqb_spec c column) as [->|Hnec].
    + now rewrite Hcell.
    + now destruct (at_ row c).
  - destruct (at_ barcodeMatrix r) as [row'|]; cbn [mbind option_bind]; [|reflexivity].
    now destruct (at_ row' c).
Qed.

Lemma row_values_cons (codeword : option Codeword) (codewords : list (option Codeword))
    (r : Z) :
  row_values (codeword :: codewords) r
  = match codeword with
    | Some codeword =>
        if rowNumber codeword =? r then value codeword :: row_values codewords r
        else row_values codewords r
    | None => row_values codewords r
    end.
Proof.
  unfold row_values. destruct codeword as [codeword|]; [|reflexivity].
  cbn. now destruct (rowNumber codeword =? r).
Qed.

(** The codewords of one column add their values to the cells of that
    column, each to the row of its row number. *)
Lemma CreateBarcodeMatrix_codewords_cell (codewords : list (option Codeword))
    (column : Z) :
  forall barcodeMatrix barcodeMatrix',
    CreateBarcodeMatrix_codewords codewords column barcodeMatrix = Some barcodeMatrix' ->
    forall r c,
      cell_at barcodeMatrix' r c
      = (fun cell => if c =? column then foldl setValue cell (row_values codewords r)
                     else cell)
        <$> cell_at barcodeMatrix r c.
Proof.
  induction codewords as [|codeword codewords IH]; intros m m'.
  - cbn. intros [= <-] r c. symmetry. apply fmap_same. intros cell.
    now destruct (c =? column).
  - cbn [CreateBarcodeMatrix_codewords].
    destruct (match codeword with Some _ => _ | None => _ end) as [m1|] eqn:Hstep;
      [|discriminate].
    cbn [mbind option_bind]. intros Hrest r c. rewrite (IH _ _ Hrest).
    rewrite row_values_cons.
    assert (Hone : cell_at m1 r c
                   = (fun cell =>
                        match codeword with
                        | Some codeword =>
                            if (r =? rowNumber codeword) && (c =? column)
                            then setValue cell (value codeword) else cell
                        | None => cell
                        end) <$> cell_at m r c).
    { destruct codeword as [codeword|];
        [|injection Hstep as <-; symmetry; now apply fmap_same].
      destruct (Z.geb_spec (rowNumber codeword) 0) as [Hge|Hlt].
      - destruct (Z.geb_spec (rowNumber codeword) (size m)) as [Hout|Hin].
        + injection Hstep as <-.
          destruct (Z.eqb_spec r (rowNumber codeword)) as [->|];
            [|symmetry; now apply fmap_same].
          rewrite cell_at_outside by lia. reflexivity.
        + now apply matrix_setValue_cell.
      - injection Hstep as <-.
        destruct (Z.eqb_spec r (rowNumber codeword)) as [->|];
          [|symmetry; now apply fmap_same].
        rewrite cell_at_outside by lia. reflexivity. }
    rewrite Hone. rewrite <- option_fmap_compose. apply fmap_ext_option. intros cell.
    cbn. destruct codeword as [codeword|]; [|reflexivity].
    rewrite (Z.eqb_sym r). destruct (rowNumber codeword =? r), (c =? column); reflexivity.
Qed.

(** The columns of the detection result fill the columns of the matrix, the
    first of them the column [column]. *)
Lemma CreateBarcodeMatrix_columns_cell (columns : list (option DetectionResultColumn)) :
  forall column barcodeMatrix barcodeMatrix',
    CreateBarcodeMatrix_columns columns column barcodeMatrix = Some barcodeMatrix' ->
    forall r c,
      cell_at barcodeMatrix' r c
      = (fun cell =>
           match (if c <? column then None else columns !! Z.to_nat (c - column)) with
           | Some (Some resultColumn) =>
               foldl setValue cell (row_values (allCodewords resultColumn) r)
           | _ => cell
           end)
        <$> cell_at barcodeMatrix r c.
Proof.
  induction columns as [|resultColumn columns IH]; intros column m m'.
  - cbn. intros [= <-] r c. symmetry. apply fmap_same. intros cell.
    now destruct (c <? column).
  - cbn [CreateBarcodeMatrix_columns].
    destruct (match resultColumn with Some _ => _ | None => _ end) as [m1|] eqn:Hstep;
      [|discriminate].
    cbn [mbind option_bind]. intros Hrest r c. rewrite (IH _ _ _ Hrest).
    assert (Hone : cell_at m1 r c
                   = (fun cell =>
                        match resultColumn with
                        | Some resultColumn =>
                            if c =? column
                            then foldl setValue cell
                                   (row_values (allCodewords resultColumn) r)
                            else cell
                        | None => cell
                        end) <$> cell_at m r c).
    { destruct resultColumn as [resultColumn|];
        [|injection Hstep as <-; symmetry; now apply fmap_same].
      now apply CreateBarcodeMatrix_codewords_cell. }
    rewrite Hone, <- option_fmap_compose. apply fmap_ext_option. intros cell. cbn.
    destruct (Z.ltb_spec c (column + 1)) as [Hlt|Hge].
    + destruct (Z.ltb_spec c column) as [|Heq].
      * destruct resultColumn; [|reflexivity].
        destruct (Z.eqb_spec c column); [lia|reflexivity].
      * assert (c = column) as -> by lia. rewrite Z.sub_diag. cbn.
        destruct resultColumn; [|reflexivity]. now rewrite Z.eqb_refl.
    + destruct (Z.ltb_spec c column); [lia|].
      replace (Z.to_nat (c - column)) with (S (Z.to_nat (c - (column + 1)))) by lia.
      cbn [lookup list_lookup].
      assert (Hskip : forall cell',
                match resultColumn with
                | Some resultColumn =>
                    if c =? column
                    then foldl setValue cell' (row_values (allCodewords resultColumn) r)
                    else cell'
                | None => cell'
                end = cell').
      { intros cell'. destruct resultColumn; [|reflexivity].
        destruct (Z.eqb_spec c column); [lia|reflexivity]. }
      now rewrite Hskip.
Qed.

(** What [CreateBarcodeMatrix] puts into the matrix: the cell at row [r] and
    column [c] holds the values of the codewords of column [c] of the
    detection result whose row number is [r], passed to [setValue] in the
    order of the column, starting from an empty barcode value; it is empty
    when the detection result has no such column.  Codewords with a row
    number outside the matrix leave no trace. *)
Theorem CreateBarcodeMatrix_cells (detectionResult detectionResult' : DetectionResult)
    (barcodeMatrix : list (list BarcodeValue)) (r c : Z) :
  CreateBarcodeMatrix detectionResult = Some (detectionResult', barcodeMatrix) ->
  0 <= r < barcodeRowCount detectionResult ->
  0 <= c < barcodeColumnCount detectionResult + 2 ->
  cell_at barcodeMatrix r c
  = Some match (allColumns detectionResult).2 !! Z.to_nat c with
         | Some (Some resultColumn) =>
             foldl setValue BarcodeValue_new (row_values (allCodewords resultColumn) r)
         | _ => BarcodeValue_new
         end.
Proof.
  unfold CreateBarcodeMatrix. intros Hrun Hr Hc.
  destruct (CreateBarcodeMatrix_resize detectionResult) as [empty|] eqn:Hempty;
    [|discriminate].
  apply CreateBarcodeMatrix_empty in Hempty as (_ & _ & ->).
  cbn [mbind option_bind] in Hrun.
  destruct (allColumns detectionResult) as [result columns]. cbn [snd].
  destruct (CreateBarcodeMatrix_columns columns 0 _) as [matrix|] eqn:Hbuild;
    [|discriminate].
  cbn [mbind option_bind] in Hrun. injection Hrun as <- <-.
  rewrite (CreateBarcodeMatrix_columns_cell _ _ _ _ Hbuild).
  unfold cell_at. rewrite at_replicate by lia. cbn [mbind option_bind].
  rewrite at_replicate by lia. cbn [fmap option_fmap option_map].
  destruct (Z.ltb_spec c 0); [lia|]. now rewrite Z.sub_0_r.
Qed.

End MatrixCells.

(** ** The codewords handed to the error correction *)

Lemma for_range_invariant {S} (P : S -> Prop) (body : Z -> S -> option S) :
  forall (count : nat) (from : Z) (s : S),
    (forall i s, from <= i < from + Z.of_nat count -> P s ->
                 exists s', body i s = Some s' /\ P s') ->
    P s ->
    exists s', for_range count from body s = Some s' /\ P s'.
Proof.
  induction count as [|count IH]; intros from s Hbody Hs; [cbn; eauto|].
  cbn [for_range]. destruct (Hbody from s ltac:(lia) Hs) as (s1 & -> & Hs1).
  cbn [mbind option_bind]. apply IH; [|exact Hs1].
  intros i s' Hi. apply Hbody. lia.
Qed.

Section CellsProperties.

Context {symbols : Symbols} {detection : Detection} {decoders : Decoders}.

Lemma CreateDecoderResult_cell_wf (detectionResult : DetectionResult)
    (barcodeMatrix : list (list BarcodeValue)) (row column : Z) (cells : Cells) :
  size barcodeMatrix = barcodeRowCount detectionResult ->
  Forall (fun r => size r = barcodeColumnCount detectionResult + 2) barcodeMatrix ->
  0 <= row < barcodeRowCount detectionResult ->
  0 <= column < barcodeColumnCount detectionResult ->
  Cells_wf (barcodeRowCount detectionResult * barcodeColumnCount detectionResult) cells ->
  exists cells',
    CreateDecoderResult_cell detectionResult barcodeMatrix row column cells = Some cells'
    /\ Cells_wf (barcodeRowCount detectionResult * barcodeColumnCount detectionResult)
         cells'.
Proof.
  intros Hrows Hcells Hrow Hcolumn (Hsize & Hlen & Hvalues & Herasures & Hindexes).
  unfold CreateDecoderResult_cell.
  destruct (at_in_range barcodeMatrix row ltac:(lia)) as [matrixRow Hat].
  rewrite Hat. cbn [mbind option_bind].
  assert (HrowSize : size matrixRow = barcodeColumnCount detectionResult + 2).
  { apply at_lookup in Hat. eapply (Forall_lookup_1 _ _ _ _ Hcells Hat). }
  destruct (at_in_range matrixRow (column + 1) ltac:(lia)) as [cell ->].
  cbn [mbind option_bind].
  set (index := row * barcodeColumnCount detectionResult + column).
  assert (Hindex : 0 <= index
                   < barcodeRowCount detectionResult * barcodeColumnCount detectionResult)
    by (subst index; nia).
  destruct (BarcodeValue_value cell) as [|v [|v' values]] eqn:Hvalue.
  - eexists. split; [reflexivity|]. unfold Cells_wf. cbn.
    repeat split; auto. apply Forall_app. split; [assumption|]. repeat constructor; lia.
  - rewrite assign_in_range by lia. cbn [mbind option_bind].
    eexists. split; [reflexivity|]. unfold Cells_wf. cbn.
    repeat split; auto. unfold size in *. now rewrite length_insert.
  - eexists. split; [reflexivity|]. unfold Cells_wf. cbn.
    repeat split; auto.
    + rewrite !length_app. cbn. lia.
    + apply Forall_app. split; [assumption|]. repeat constructor.
      rewrite !size_cons. pose proof (size_nonneg values). lia.
    + apply Forall_app. split; [assumption|]. repeat constructor; lia.
Qed.

(** The two loops keep [Cells_wf]. *)
Lemma CreateDecoderResult_loops (detectionResult : DetectionResult)
    (barcodeMatrix : list (list BarcodeValue)) :
  size barcodeMatrix = barcodeRowCount detectionResult ->
  Forall (fun r => size r = barcodeColumnCount detectionResult + 2) barcodeMatrix ->
  0 <= barcodeColumnCount detectionResult ->
  exists cells,
    for_range (Z.to_nat (barcodeRowCount detectionResult)) 0
      (fun row =>
         for_range (Z.to_nat (barcodeColumnCount detectionResult)) 0
           (CreateDecoderResult_cell detectionResult barcodeMatrix row))
      {| erasures := [];
         codewords :=
           replicate (Z.to_nat (barcodeRowCount detectionResult
                                * barcodeColumnCount detectionResult)) 0;
         ambiguousIndexValues := [];
         ambiguousIndexesList := [] |}
    = Some cells
    /\ Cells_wf (barcodeRowCount detectionResult * barcodeColumnCount detectionResult)
         cells.
Proof.
  intros Hrows Hcells Hcolumns.
  pose proof (size_nonneg barcodeMatrix) as Hrows0. rewrite Hrows in Hrows0.
  apply (for_range_invariant
           (Cells_wf (barcodeRowCount detectionResult
                      * barcodeColumnCount detectionResult))).
  - intros row cells Hrow Hwf.
    apply (for_range_invariant
             (Cells_wf (barcodeRowCount detectionResult
                        * barcodeColumnCount detectionResult))); [|exact Hwf].
    intros column cells' Hcolumn Hwf'.
    apply CreateDecoderResult_cell_wf; auto; lia.
  - unfold Cells_wf. cbn. rewrite size_replicate.
    repeat split; auto; try constructor. nia.
Qed.

(** On a matrix of [barcodeRowCount] rows of [barcodeColumnCount + 2] cells
    the two loops of [CreateDecoderResult] read only cells of the matrix and
    write only codewords of the vector: they end with a vector of exactly
    [barcodeRowCount * barcodeColumnCount] codewords, erasures and ambiguous
    indexes that are positions of this vector, and one list of at least two
    candidate values for each ambiguous index. *)
Theorem CreateDecoderResult_cells (detectionResult : DetectionResult)
    (barcodeMatrix : list (list BarcodeValue)) :
  size barcodeMatrix = barcodeRowCount detectionResult ->
  Forall (fun r => size r = barcodeColumnCount detectionResult + 2) barcodeMatrix ->
  0 <= barcodeColumnCount detectionResult ->
  exists cells,
    for_range (Z.to_nat (barcodeRowCount detectionResult)) 0
      (fun row =>
         for_range (Z.to_nat (barcodeColumnCount detectionResult)) 0
           (CreateDecoderResult_cell detectionResult barcodeMatrix row))
      {| erasures := [];
         codewords :=
           replicate (Z.to_nat (barcodeRowCount detectionResult
                                * barcodeColumnCount detectionResult)) 0;
         ambiguousIndexValues := [];
         ambiguousIndexesList := [] |}
    = Some cells
    /\ Cells_wf (barcodeRowCount detectionResult * barcodeColumnCount detectionResult)
         cells.
Proof. apply CreateDecoderResult_loops. Qed.

End CellsProperties.

(** ** No access outside the vectors *)

Section Defined.

Context {symbols : Symbols} {detection : Detection} {decoders : Decoders}.

Lemma VerifyCodewordCount_size (codewords : list Z) (numECCodewords : Z) :
  size (VerifyCodewordCount codewords numECCodewords).2 = size codewords.
Proof.
  unfold VerifyCodewordCount. destruct (size codewords <? 4); [reflexivity|].
  destruct codewords as [|first rest]; [reflexivity|].
  destruct (first >? _); [reflexivity|]. destruct (first =? 0); [|reflexivity].
  destruct (numECCodewords <? _); [|reflexivity]. cbn [snd]. now rewrite !size_cons.
Qed.

(** [DecodeCodewords] has no undefined behaviour of its own, and with a
    decoder that keeps the size it returns a vector as long as the one it
    was given. *)
Lemma DecodeCodewords_defined (codewords : list Z) (ecLevel : Z) (erasures : list Z)
    (codec : StringCodecs) (result : DecoderResult) (log : list Call) :
  keeps_size ->
  exists status codewords' result' log',
    DecodeCodewords codewords ecLevel erasures codec result log
    = Some (status, codewords', result', log')
    /\ size codewords' = size codewords.
Proof.
  intros Hkeeps. unfold DecodeCodewords, CorrectErrors.
  destruct (bool_decide (codewords = [])); [cbn; eauto 10|].
  rewrite Run_bind_unfold.
  destruct (_ || _); [cbn; eauto 10|].
  rewrite Run_bind_unfold. cbn [called].
  pose proof (Hkeeps codewords (Z.shiftl 1 (ecLevel + 1)) erasures 0) as Hsize.
  destruct (ErrorCorrection_Decode_fn _ _ _ _) as [[ok corrected] errorsCorrected].
  cbn [fst snd] in Hsize.
  destruct ok; cbn; [|eauto 10].
  pose proof (VerifyCodewordCount_size corrected (Z.shiftl 1 (ecLevel + 1))) as Hverify.
  destruct (VerifyCodewordCount corrected _) as [status verified]. cbn [snd] in Hverify.
  destruct status; cbn; try (do 4 eexists; split; [reflexivity|congruence]).
  destruct (DecodedBitStreamParser_Decode_fn _ _ _ _) as [status parsed].
  destruct status; cbn; do 4 eexists; (split; [reflexivity|congruence]).
Qed.

(** The first loop of an attempt stays inside the vectors when the counters
    select candidates that exist and the ambiguous indexes are positions of
    the codewords. *)
Lemma patch_defined (ambiguousIndexes : list Z) (ambiguousIndexValues : list (list Z))
    (ambiguousIndexCount codewords : list Z) :
  length ambiguousIndexValues = length ambiguousIndexes ->
  Forall (fun index => 0 <= index < size codewords) ambiguousIndexes ->
  Forall2 (fun count values => 0 <= count < size values) ambiguousIndexCount
    ambiguousIndexValues ->
  exists codewords',
    patch ambiguousIndexes ambiguousIndexValues ambiguousIndexCount codewords
    = Some codewords'
    /\ size codewords' = size codewords.
Proof.
  intros Hlen Hindexes Hcount. unfold patch.
  pose proof (Forall2_length _ _ _ Hcount) as Hlen2.
  apply (for_range_invariant (fun v => size v = size codewords)); [|reflexivity].
  intros i v Hi Hv.
  destruct (at_in_range ambiguousIndexes i ltac:(unfold size; lia)) as [index Hindex].
  destruct (at_in_range ambiguousIndexValues i ltac:(unfold size; lia)) as [values Hvalues].
  destruct (at_in_range ambiguousIndexCount i ltac:(unfold size; lia)) as [count Hcounti].
  rewrite Hindex, Hvalues, Hcounti. cbn [mbind option_bind].
  pose proof (Forall2_lookup_lr _ _ _ _ _ _ Hcount (at_lookup _ _ _ Hcounti)
                (at_lookup _ _ _ Hvalues)) as Hrange.
  destruct (at_in_range values count Hrange) as [value ->]. cbn [mbind option_bind].
  assert (Hin : 0 <= index < size codewords).
  { apply at_lookup in Hindex. eapply (Forall_lookup_1 _ _ _ _ Hindexes Hindex). }
  rewrite assign_in_range by lia. eexists. split; [reflexivity|].
  unfold size in *. now rewrite length_insert.
Qed.

Lemma attempts_defined (ecLevel : Z) (erasureArray ambiguousIndexes : list Z)
    (ambiguousIndexValues : list (list Z)) (codec : StringCodecs) (n : Z) :
  keeps_size ->
  length ambiguousIndexValues = length ambiguousIndexes ->
  Forall (fun index => 0 <= index < n) ambiguousIndexes ->
  Forall (fun values => 1 <= size values) ambiguousIndexValues ->
  forall (tries : nat) (j : Z) (codewords : list Z) (result : DecoderResult)
         (log : list Call),
    0 <= j < product (map size ambiguousIndexValues) ->
    size codewords = n ->
    exists r log',
      attempts tries ecLevel erasureArray ambiguousIndexes ambiguousIndexValues codec
        (combination (map size ambiguousIndexValues) j) codewords result log
      = Some (r, log').
Proof.
  intros Hkeeps Hlen Hindexes Hvalues tries.
  assert (Hradix : Forall (fun k => 1 <= k) (map size ambiguousIndexValues)).
  { clear -Hvalues. induction Hvalues; constructor; auto. }
  induction tries as [|tries IH]; intros j codewords result log Hj Hsize;
    [cbn; eauto|].
  cbn [attempts]. rewrite Run_bind_unfold.
  destruct (patch_defined ambiguousIndexes ambiguousIndexValues
              (combination (map size ambiguousIndexValues) j) codewords Hlen)
    as (patched & -> & Hpatched).
  { now rewrite Hsize. }
  { pose proof (combination_digits (map size ambiguousIndexValues) j Hradix) as Hdigits.
    apply Forall2_fmap_r in Hdigits. exact Hdigits. }
  cbn [defined]. rewrite Run_bind_unfold.
  destruct (DecodeCodewords_defined patched ecLevel erasureArray codec result log Hkeeps)
    as (status & codewords' & result' & log1 & -> & Hsize').
  destruct (bool_decide (status <> ChecksumError)); [cbn; eauto|].
  destruct (bool_decide _) eqn:Hempty; [cbn; eauto|].
  apply bool_decide_eq_false in Hempty.
  assert (Hne : ambiguousIndexValues <> []).
  { intros ->. apply Hempty. reflexivity. }
  rewrite Run_bind_unfold, combination_length, length_map.
  pose proof (advance_successor ambiguousIndexValues Hvalues Hne [] [] j eq_refl Hj)
    as Hadvance.
  cbn [app] in Hadvance. change (size []) with 0 in Hadvance. rewrite Hadvance.
  cbn [defined].
  destruct (Z.ltb_spec (j + 1) (product (map size ambiguousIndexValues)));
    [|cbn; eauto].
  apply IH; [lia|congruence].
Qed.

Lemma AdjustCodewordCount_shape (detectionResult : DetectionResult)
    (barcodeMatrix : list (list BarcodeValue)) (cells : Z) :
  1 <= size barcodeMatrix ->
  2 <= cells ->
  Forall (fun row => size row = cells) barcodeMatrix ->
  exists adjusted barcodeMatrix',
    AdjustCodewordCount detectionResult barcodeMatrix = Some (adjusted, barcodeMatrix')
    /\ size barcodeMatrix' = size barcodeMatrix
    /\ Forall (fun row => size row = cells) barcodeMatrix'.
Proof.
  intros Hrows Hcells Hall. unfold AdjustCodewordCount.
  destruct (at_in_range barcodeMatrix 0 ltac:(lia)) as [row Hrow].
  rewrite Hrow. cbn [mbind option_bind].
  assert (HrowSize : size row = cells).
  { apply at_lookup in Hrow. eapply (Forall_lookup_1 _ _ _ _ Hall Hrow). }
  destruct (at_in_range row 1 ltac:(lia)) as [cell Hcell].
  rewrite Hcell. cbn [mbind option_bind].
  set (calculated := _ - _).
  destruct (matrix_setValue_defined barcodeMatrix 0 1 calculated row cell Hrow Hcell)
    as [matrix' Hset].
  pose proof (matrix_setValue_shape _ _ _ _ _ cells Hset) as [Hsize' Hall'].
  destruct (BarcodeValue_value cell) as [|first rest].
  - destruct (_ || _); [eauto 10|]. rewrite Hset. cbn. eauto 10.
  - destruct (first =? calculated); cbn [negb]; [eauto 10|].
    rewrite Hset. cbn. eauto 10.
Qed.

Lemma CreateBarcodeMatrix_codewords_defined (codewords : list (option Codeword))
    (column cells : Z) :
  0 <= column < cells ->
  forall barcodeMatrix,
    Forall (fun row => size row = cells) barcodeMatrix ->
    exists barcodeMatrix',
      CreateBarcodeMatrix_codewords codewords column barcodeMatrix = Some barcodeMatrix'.
Proof.
  intros Hcolumn. induction codewords as [|codeword codewords IH]; intros m Hall;
    [cbn; eauto|].
  cbn [CreateBarcodeMatrix_codewords].
  assert (Hstep : exists m1,
             match codeword with
             | Some codeword =>
                 if rowNumber codeword >=? 0
                 then if rowNumber codeword >=? size m then Some m
                      else matrix_setValue m (rowNumber codeword) column (value codeword)
                 else Some m
             | None => Some m
             end = Some m1
             /\ Forall (fun row => size row = cells) m1).
  { destruct codeword as [codeword|]; [|eauto].
    destruct (Z.geb_spec (rowNumber codeword) 0); [|eauto].
    destruct (Z.geb_spec (rowNumber codeword) (size m)); [eauto|].
    destruct (at_in_range m (rowNumber codeword) ltac:(lia)) as [row Hrow].
    assert (HrowSize : size row = cells).
    { apply at_lookup in Hrow. eapply (Forall_lookup_1 _ _ _ _ Hall Hrow). }
    destruct (at_in_range row column ltac:(lia)) as [cell Hcell].
    destruct (matrix_setValue_defined m (rowNumber codeword) column (value codeword)
                row cell Hrow Hcell) as [m1 Hset].
    exists m1. split; [exact Hset|].
    now apply (matrix_setValue_shape _ _ _ _ _ cells Hset). }
  destruct Hstep as (m1 & -> & Hall1). cbn [mbind option_bind]. now apply IH.
Qed.

Lemma CreateBarcodeMatrix_columns_defined (columns : list (option DetectionResultColumn))
    (cells : Z) :
  forall column barcodeMatrix,
    0 <= column ->
    column + size columns <= cells ->
    Forall (fun row => size row = cells) barcodeMatrix ->
    exists barcodeMatrix',
      CreateBarcodeMatrix_columns columns column barcodeMatrix = Some barcodeMatrix'.
Proof.
  induction columns as [|resultColumn columns IH]; intros column m Hcolumn Hfit Hall;
    [cbn; eauto|].
  cbn [CreateBarcodeMatrix_columns]. rewrite size_cons in Hfit.
  pose proof (size_nonneg columns).
  assert (Hstep : exists m1,
             match resultColumn with
             | Some resultColumn =>
                 CreateBarcodeMatrix_codewords (allCodewords resultColumn) column m
             | None => Some m
             end = Some m1
             /\ Forall (fun row => size row = cells) m1).
  { destruct resultColumn as [resultColumn|]; [|eauto].
    destruct (CreateBarcodeMatrix_codewords_defined (allCodewords resultColumn) column
                cells ltac:(lia) m Hall) as [m1 Hm1].
    exists m1. split; [exact Hm1|].
    now apply (CreateBarcodeMatrix_codewords_shape _ _ cells _ _ Hm1). }
  destruct Hstep as (m1 & -> & Hall1). cbn [mbind option_bind].
  apply IH; [lia|lia|exact Hall1].
Qed.

(** [CreateDecoderResult] reads and writes only inside its vectors: for a
    detection result with at least one row, no negative number of columns
    and no more columns than [barcodeColumnCount + 2], whose [allColumns]
    keeps the two counts, and with a Reed-Solomon decoder that keeps the
    size of the codeword vector, it returns a status. *)
Theorem CreateDecoderResult_defined (detectionResult : DetectionResult)
    (codec : StringCodecs) (result : DecoderResult) (log : list Call) :
  keeps_size ->
  1 <= barcodeRowCount detectionResult ->
  0 <= barcodeColumnCount detectionResult ->
  size (allColumns detectionResult).2 <= barcodeColumnCount detectionResult + 2 ->
  barcodeRowCount (allColumns detectionResult).1 = barcodeRowCount detectionResult ->
  barcodeColumnCount (allColumns detectionResult).1
  = barcodeColumnCount detectionResult ->
  exists status result' log',
    CreateDecoderResult detectionResult codec result log = Some (status, result', log').
Proof.
  intros Hkeeps Hrows Hcolumns Hfit HrowsKept HcolumnsKept.
  unfold CreateDecoderResult. rewrite Run_bind_unfold.
  unfold CreateBarcodeMatrix, CreateBarcodeMatrix_resize, as_size.
  destruct (Z.ltb_spec (barcodeRowCount detectionResult) 0); [lia|].
  destruct (Z.ltb_spec (barcodeColumnCount detectionResult + 2) 0); [lia|].
  cbn [mbind option_bind].
  destruct (Z.to_nat (barcodeRowCount detectionResult)) as [|rows] eqn:Hcount; [lia|].
  rewrite <- Hcount. clear rows Hcount. cbn [mbind option_bind].
  destruct (allColumns detectionResult) as [adjusted columns]. cbn [fst snd] in *.
  set (cells := barcodeColumnCount detectionResult + 2) in *.
  set (empty := replicate _ (replicate _ BarcodeValue_new)).
  assert (Hempty : size empty = barcodeRowCount detectionResult
                   /\ Forall (fun row => size row = cells) empty).
  { subst empty. rewrite size_replicate. split; [lia|].
    apply Forall_replicate. rewrite size_replicate. lia. }
  destruct Hempty as [HemptyRows HemptyCells].
  destruct (CreateBarcodeMatrix_columns_defined columns cells 0 empty ltac:(lia)
              ltac:(lia) HemptyCells) as [matrix Hmatrix].
  rewrite Hmatrix. cbn [mbind option_bind defined].
  apply (CreateBarcodeMatrix_columns_shape _ cells) in Hmatrix as [HmatrixRows HmatrixCells].
  specialize (HmatrixCells HemptyCells).
  rewrite Run_bind_unfold.
  destruct (AdjustCodewordCount_shape adjusted matrix cells ltac:(lia) ltac:(lia)
              HmatrixCells) as (ok & matrix' & -> & Hrows' & Hcells').
  cbn [defined]. destruct ok; cbn [negb]; [|cbn; eauto].
  rewrite Run_bind_unfold. unfold as_size.
  destruct (Z.ltb_spec (barcodeRowCount adjusted * barcodeColumnCount adjusted) 0); [nia|].
  cbn [defined]. rewrite Run_bind_unfold.
  destruct (CreateDecoderResult_loops adjusted matrix') as (collected & -> & Hwf).
  { congruence. }
  { now rewrite HcolumnsKept. }
  { lia. }
  cbn [defined]. rewrite Run_bind_unfold.
  destruct Hwf as (Hsize & Hlen & Hvalues & _ & Hindexes).
  unfold CreateDecoderResultFromAmbiguousValues.
  assert (Hvalues1 : Forall (fun values => 1 <= size values)
                       (ambiguousIndexValues collected)).
  { eapply Forall_impl; [exact Hvalues|]. cbn. intros; lia. }
  assert (Hradix : Forall (fun k => 1 <= k) (map size (ambiguousIndexValues collected))).
  { clear -Hvalues1. induction Hvalues1; constructor; auto. }
  rewrite <- Hlen, <- (length_map size), <- combination_zero by exact Hradix.
  destruct (attempts_defined (barcodeECLevel adjusted) (erasures collected)
              (ambiguousIndexesList collected) (ambiguousIndexValues collected) codec
              _ Hkeeps Hlen Hindexes Hvalues1 100 0 (codewords collected) result log)
    as ([[status codewords'] result'] & log' & ->).
  { pose proof (product_pos _ Hradix). lia. }
  { exact Hsize. }
  cbn. eauto.
Qed.

End Defined.

(** ** Bounding box adjustment *)

Lemma GetMax_upper (v : list Z) : Forall (fun x => x <= GetMax v) v.
Proof.
  destruct v as [|x v]; [constructor|]. cbn [GetMax].
  revert x. induction v as [|y v IH]; intros x; cbn [foldl].
  - repeat constructor. lia.
  - specialize (IH (Z.max x y)). inversion IH as [|? ? Hhead Htail]; subst.
    constructor; [lia|]. constructor; [lia|exact Htail].
Qed.

Lemma missing_rows_nonneg (maxRowHeight : Z) (rowHeights : list Z) :
  Forall (fun h => h <= maxRowHeight) rowHeights ->
  forall missing, 0 <= missing -> 0 <= missing_rows maxRowHeight rowHeights missing.
Proof.
  induction 1 as [|h rowHeights Hh _ IH]; intros missing Hmissing; cbn; [exact Hmissing|].
  destruct (h >? 0); [lia|]. apply IH. lia.
Qed.

(** The loop that skips the rows without codeword stops at the first
    codeword it meets, inside the vector; it takes at most the rows it
    skips off the missing rows and never makes them negative. *)
Lemma skip_empty_defined (codewords : list (option Codeword)) (step : Z) :
  step = 1 \/ step = -1 ->
  forall (distance fuel : nat) (row missing : Z) (codeword : Codeword),
    (Z.to_nat missing < fuel)%nat ->
    0 <= row < size codewords ->
    at_ codewords (row + step * Z.of_nat distance) = Some (Some codeword) ->
    exists missing',
      skip_empty fuel codewords row step missing = Some missing'
      /\ (missing <= 0 -> missing' = missing)
      /\ (0 <= missing -> 0 <= missing' <= missing).
Proof.
  intros Hstep. induction distance as [|distance IH];
    intros fuel row missing codeword Hfuel Hrow Hat.
  - destruct fuel as [|fuel]; [lia|]. cbn [skip_empty].
    replace (row + step * Z.of_nat 0) with row in Hat by lia.
    destruct (Z.gtb_spec missing 0); [|exists missing; repeat split; lia].
    rewrite Hat. cbn [mbind option_bind]. exists missing. repeat split; lia.
  - destruct fuel as [|fuel]; [lia|]. cbn [skip_empty].
    destruct (Z.gtb_spec missing 0); [|exists missing; repeat split; lia].
    destruct (at_in_range codewords row Hrow) as [here ->]. cbn [mbind option_bind].
    destruct here as [found|]; [exists missing; repeat split; lia|].
    pose proof (at_Some_range _ _ _ Hat) as Htarget.
    destruct (IH fuel (row + step) (missing - 1) codeword) as (missing' & -> & Hle & Hge).
    + lia.
    + destruct Hstep as [-> | ->]; lia.
    + rewrite <- Hat. f_equal. lia.
    + exists missing'. split; [reflexivity|]. split; [lia|].
      intros _. destruct (Z.le_gt_cases (missing - 1) 0) as [Hzero|Hpos].
      * specialize (Hle Hzero). lia.
      * specialize (Hge ltac:(lia)). lia.
Qed.

Section BoundingBoxProperties.

Context {symbols : Symbols} {detection : Detection}.

(** For a column that holds at least one codeword [AdjustBoundingBox] stays
    inside the vector of its codewords.  When the column has row heights,
    the missing rows it passes to [BoundingBox::AddMissingRows] are not
    negative and not more than the rows counted from the row heights, and
    it fails exactly when [AddMissingRows] fails; when the column has no
    row heights it succeeds with no box. *)
Theorem AdjustBoundingBox_defined (column : DetectionResultColumn) (k : Z)
    (codeword : Codeword) :
  at_ (allCodewords (getRowHeights column).1) k = Some (Some codeword) ->
  let column' := (getRowHeights column).1 in
  match (getRowHeights column).2 with
  | None => AdjustBoundingBox (Some column) = Some (Some column', Some None)
  | Some rowHeights =>
      exists missingStartRows missingEndRows,
        0 <= missingStartRows <= missing_rows (GetMax rowHeights) rowHeights 0
        /\ 0 <= missingEndRows
           <= missing_rows (GetMax rowHeights) (reverse rowHeights) 0
        /\ AdjustBoundingBox (Some column)
           = Some (Some column',
                   match BoundingBox_AddMissingRows
                           (DetectionResultColumn_boundingBox column')
                           missingStartRows missingEndRows (isLeftRowIndicator column')
                   with
                   | Some box => Some (Some box)
                   | None => None
                   end)
  end.
Proof.
  intros Hat. cbn zeta. unfold AdjustBoundingBox.
  destruct (getRowHeights column) as [column' [rowHeights|]]; cbn [fst snd] in *;
    [|reflexivity].
  pose proof (at_Some_range _ _ _ Hat) as Hk.
  pose proof (GetMax_upper rowHeights) as Hupper.
  pose proof (missing_rows_nonneg _ _ Hupper 0 ltac:(lia)) as Hstart.
  assert (Hupper' : Forall (fun h => h <= GetMax rowHeights) (reverse rowHeights)).
  { rewrite reverse_Permutation. exact Hupper. }
  pose proof (missing_rows_nonneg _ _ Hupper' 0 ltac:(lia)) as Hend.
  destruct (skip_empty_defined (allCodewords column') 1 ltac:(auto)
              (Z.to_nat k) (Z.to_nat (missing_rows (GetMax rowHeights) rowHeights 0) + 1)
              0 (missing_rows (GetMax rowHeights) rowHeights 0) codeword)
    as (missingStartRows & -> & _ & HstartBound).
  { lia. }
  { lia. }
  { rewrite <- Hat. f_equal. lia. }
  cbn [mbind option_bind].
  destruct (skip_empty_defined (allCodewords column') (-1) ltac:(auto)
              (Z.to_nat (size (allCodewords column') - 1 - k))
              (Z.to_nat (missing_rows (GetMax rowHeights) (reverse rowHeights) 0) + 1)
              (size (allCodewords column') - 1)
              (missing_rows (GetMax rowHeights) (reverse rowHeights) 0) codeword)
    as (missingEndRows & -> & _ & HendBound).
  { lia. }
  { lia. }
  { rewrite <- Hat. f_equal. lia. }
  cbn [mbind option_bind].
  exists missingStartRows, missingEndRows. auto.
Qed.

End BoundingBoxProperties.

(** ** Start column of a data codeword *)

Section StartColumnProperties.

Context {symbols : Symbols} {detection : Detection}.

Lemma IsValidBarcodeColumn_range (detectionResult : DetectionResult) (barcodeColumn : Z) :
  IsValidBarcodeColumn detectionResult barcodeColumn = true
  <-> 0 <= barcodeColumn <= barcodeColumnCount detectionResult + 1.
Proof.
  unfold IsValidBarcodeColumn. rewrite andb_true_iff, Z.geb_le, Z.leb_le. tauto.
Qed.

Lemma GetStartColumn_while_defined (detectionResult : DetectionResult)
    (leftToRight : bool) (first : Z) :
  (forall c, 0 <= c <= barcodeColumnCount detectionResult + 1 ->
             (if leftToRight then c <= first else first <= c) ->
             DetectionResult_column detectionResult c <> None) ->
  getBoundingBox detectionResult <> None ->
  forall (fuel : nat) (barcodeColumn skippedColumns : Z),
    0 <= barcodeColumn <= barcodeColumnCount detectionResult + 1 ->
    (if leftToRight then barcodeColumn <= first else first <= barcodeColumn) ->
    (Z.to_nat (if leftToRight then barcodeColumn
               else barcodeColumnCount detectionResult + 1 - barcodeColumn) < fuel)%nat ->
    exists x,
      GetStartColumn_while fuel detectionResult leftToRight
        (if leftToRight then 1 else -1) barcodeColumn skippedColumns = Some x.
Proof.
  intros Hcolumns Hbox fuel.
  induction fuel as [|fuel IH]; intros barcodeColumn skipped Hvalid Hside Hfuel; [lia|].
  cbn [GetStartColumn_while].
  set (offset := if leftToRight then 1 else -1).
  destruct (IsValidBarcodeColumn detectionResult (barcodeColumn - offset)) eqn:Hnext.
  - apply IsValidBarcodeColumn_range in Hnext.
    assert (Hside' : if leftToRight then barcodeColumn - offset <= first
                     else first <= barcodeColumn - offset)
      by (subst offset; destruct leftToRight; lia).
    specialize (Hcolumns _ Hnext Hside').
    unfold Nullable_value.
    destruct (DetectionResult_column detectionResult (barcodeColumn - offset))
      as [column|]; [|congruence].
    cbn [mbind option_bind].
    destruct (first_codeword (allCodewords column)); [eauto|].
    apply IH; [exact Hnext|exact Hside'|subst offset; destruct leftToRight; lia].
  - unfold Nullable_value.
    destruct (getBoundingBox detectionResult) as [box|]; [|congruence].
    cbn [mbind option_bind]. eauto.
Qed.

(** [GetStartColumn] returns a column, and its loop over the columns ends,
    when [barcodeColumn] is a column of the detection result, the columns
    from it back to the row indicator the scan started from are all there,
    and the detection result has a bounding box. *)
Theorem GetStartColumn_defined (detectionResult : DetectionResult)
    (barcodeColumn imageRow : Z) (leftToRight : bool) :
  IsValidBarcodeColumn detectionResult barcodeColumn = true ->
  (forall c, IsValidBarcodeColumn detectionResult c = true ->
             (if leftToRight then c <= barcodeColumn else barcodeColumn <= c) ->
             DetectionResult_column detectionResult c <> None) ->
  getBoundingBox detectionResult <> None ->
  exists x, GetStartColumn detectionResult barcodeColumn imageRow leftToRight = Some x.
Proof.
  intros Hvalid Hcolumns Hbox. unfold GetStartColumn.
  apply IsValidBarcodeColumn_range in Hvalid.
  assert (Hcolumns' : forall c, 0 <= c <= barcodeColumnCount detectionResult + 1 ->
                                (if leftToRight then c <= barcodeColumn
                                 else barcodeColumn <= c) ->
                                DetectionResult_column detectionResult c <> None).
  { intros c Hc. apply Hcolumns. now apply IsValidBarcodeColumn_range. }
  set (offset := if leftToRight then 1 else -1).
  assert (Hprevious :
    exists previous,
      (if IsValidBarcodeColumn detectionResult (barcodeColumn - offset)
       then Some (DetectionResult_column detectionResult (barcodeColumn - offset))
       else None)
      = previous
      /\ match previous with Some None => False | _ => True end).
  { eexists. split; [reflexivity|].
    destruct (IsValidBarcodeColumn _ (barcodeColumn - offset)) eqn:Hnext; [|exact I].
    apply IsValidBarcodeColumn_range in Hnext.
    pose proof (Hcolumns' _ Hnext) as Hthere.
    destruct (DetectionResult_column _ (barcodeColumn - offset)); [exact I|].
    apply Hthere; [subst offset; destruct leftToRight; lia|reflexivity]. }
  unfold Nullable_value.
  assert (Hhere : DetectionResult_column detectionResult barcodeColumn <> None).
  { apply Hcolumns'; [exact Hvalid|destruct leftToRight; lia]. }
  destruct (IsValidBarcodeColumn detectionResult (barcodeColumn - offset)) eqn:Hnext.
  - destruct Hprevious as (previous & <- & Hsome).
    destruct (DetectionResult_column detectionResult (barcodeColumn - offset))
      as [previousColumn|]; [|contradiction].
    cbn [mbind option_bind].
    destruct (DetectionResultColumn_codeword previousColumn imageRow); [eauto|].
    destruct (DetectionResult_column detectionResult barcodeColumn) as [column|];
      [|congruence].
    cbn [mbind option_bind]. destruct (codewordNearby column imageRow); [eauto|].
    destruct (codewordNearby previousColumn imageRow); [eauto|].
    apply (GetStartColumn_while_defined detectionResult leftToRight barcodeColumn);
      auto; destruct leftToRight; lia.
  - cbn [mbind option_bind].
    destruct (DetectionResult_column detectionResult barcodeColumn) as [column|];
      [|congruence].
    cbn [mbind option_bind]. destruct (codewordNearby column imageRow); [eauto|].
    apply (GetStartColumn_while_defined detectionResult leftToRight barcodeColumn);
      auto; destruct leftToRight; lia.
Qed.

(** Without a valid column before [barcodeColumn] the loop over the columns
    is not entered: when the column itself has no codeword near the row,
    [GetStartColumn] returns the edge of the bounding box, whatever the
    number of columns is. *)
Lemma GetStartColumn_box_edge (detectionResult : DetectionResult)
    (barcodeColumn imageRow : Z) (leftToRight : bool) (column : DetectionResultColumn)
    (box : BoundingBox) :
  IsValidBarcodeColumn detectionResult
    (barcodeColumn - (if leftToRight then 1 else -1)) = false ->
  DetectionResult_column detectionResult barcodeColumn = Some column ->
  codewordNearby column imageRow = None ->
  getBoundingBox detectionResult = Some box ->
  GetStartColumn detectionResult barcodeColumn imageRow leftToRight
  = Some (if leftToRight then minX box else maxX box).
Proof.
  intros Hprevious Hcolumn Hnearby Hbox. unfold GetStartColumn.
  rewrite Hprevious. cbn [mbind option_bind]. unfold Nullable_value.
  rewrite Hcolumn. cbn [mbind option_bind]. rewrite Hnearby.
  cbn [GetStartColumn_while]. rewrite Hprevious. unfold Nullable_value.
  rewrite Hbox. reflexivity.
Qed.



End StartColumnProperties.

(** ** Scans that always return *)

(** [GetModuleBitCount] always returns, with 8 module counts whose sum is
    not negative.  A scan that succeeds has counted at least one pixel; a
    scan that fails has counted every column from the start column to the
    bound of the scan. *)
Theorem GetModuleBitCount_returns (image : BitMatrix) (minColumn maxColumn : Z)
    (leftToRight : bool) (startColumn imageRow : Z) :
  exists found moduleBitCount,
    GetModuleBitCount image minColumn maxColumn leftToRight startColumn imageRow
    = Some (found, moduleBitCount)
    /\ size moduleBitCount = 8
    /\ 0 <= accumulate moduleBitCount
    /\ (found = true -> 1 <= accumulate moduleBitCount)
    /\ (found = false ->
        accumulate moduleBitCount
        = if leftToRight then Z.max 0 (maxColumn - startColumn)
          else Z.max 0 (startColumn - minColumn + 1)).
Proof.
  destruct (GetModuleBitCount_total image minColumn maxColumn leftToRight startColumn
              imageRow)
    as (column & number & counts & _ & Hget & Hsize & Hnumber & Hexit & Htwo & Hacc).
  eexists _, counts. split; [exact Hget|]. split; [exact Hsize|].
  assert (Hshort : number < 8 ->
                   accumulate counts
                   = if leftToRight then Z.max 0 (maxColumn - startColumn)
                     else Z.max 0 (startColumn - minColumn + 1)).
  { intros Hlt. specialize (Hexit Hlt). rewrite Hacc, Hexit.
    destruct leftToRight; lia. }
  split; [|split].
  - destruct (Z.le_gt_cases 2 number) as [Hge|Hlt]; [specialize (Htwo Hge); lia|].
    rewrite Hshort by lia. destruct leftToRight; lia.
  - intros Hfound. apply Htwo. apply orb_true_iff in Hfound as [Hall|Hbound].
    + apply Z.eqb_eq in Hall. lia.
    + apply andb_true_iff in Hbound as [_ Hseven]. apply Z.eqb_eq in Hseven. lia.
  - intros Hfound. apply orb_false_iff in Hfound as [Hall _].
    apply Z.eqb_neq in Hall. apply Hshort. lia.
Qed.

(** A run of the loop of [GetBitCountForCodeword] that ends is not changed
    by more turns. *)
Lemma GetBitCountForCodeword_while_more (fuel : nat) :
  forall (codeword previousValue i : Z) (result r : list Z) (fuel' : nat),
    GetBitCountForCodeword_while fuel codeword previousValue i result = Some r ->
    (fuel <= fuel')%nat ->
    GetBitCountForCodeword_while fuel' codeword previousValue i result = Some r.
Proof.
  induction fuel as [|fuel IH]; intros codeword previous i result r fuel';
    [discriminate|].
  intros Hrun Hfuel. destruct fuel' as [|fuel']; [lia|].
  cbn [GetBitCountForCodeword_while] in *.
  destruct (_ && _); [exact Hrun|].
  destruct (at_ result _); [|discriminate]. cbn [mbind option_bind] in *.
  destruct (assign result _ _); [|discriminate]. cbn [mbind option_bind] in *.
  apply (IH _ _ _ _ _ _ Hrun). lia.
Qed.

(** The [while (true)] loop of [GetBitCountForCodeword] ends within the bits
    of the codeword and three more turns or not at all: where the function
    has no result, the loop has none after any number of turns.  This is so
    for the codeword 0, whose bits never change. *)
Theorem GetBitCountForCodeword_diverges (codeword : Z) :
  GetBitCountForCodeword codeword = None ->
  forall fuel : nat,
    GetBitCountForCodeword_while fuel codeword 0 7 (replicate 8 0) = None.
Proof.
  intros Hnone fuel.
  destruct (GetBitCountForCodeword_while fuel codeword 0 7 (replicate 8 0)) as [r|] eqn:Hrun;
    [|reflexivity].
  apply (GetBitCountForCodeword_while_more _ _ _ _ _ _
           (Nat.max fuel (GetBitCountForCodeword_fuel codeword))) in Hrun; [|lia].
  rewrite GetBitCountForCodeword_fuel_enough in Hrun by lia. congruence.
Qed.

Lemma GetBitCountForCodeword_diverges_witness :
  GetBitCountForCodeword_while 1000 0 0 7 (replicate 8 0) = None.
Proof. apply (GetBitCountForCodeword_diverges 0); reflexivity. Defined.

Section ScanningReturns.

Context {symbols : Symbols}.

(** Under the contract of the symbol table [DetectCodeword] always returns,
    a codeword or [nullptr]: its loops end, it reads no vector out of range,
    and the [while (true)] loop of [GetBitCountForCodeword] is only entered
    for a symbol, for which it ends. *)
Theorem DetectCodeword_returns (image : BitMatrix) (minColumn maxColumn : Z)
    (leftToRight : bool) (startColumn imageRow minCodewordWidth maxCodewordWidth : Z) :
  Symbols_contract ->
  exists r,
    DetectCodeword image minColumn maxColumn leftToRight startColumn imageRow
      minCodewordWidth maxCodewordWidth = Some r.
Proof. apply DetectCodeword_total. Qed.

End ScanningReturns.

Lemma DetectCodeword_returns_witness :
  exists r,
    DetectCodeword (symbols := Example.symbols) (Example.row_image Example.symbol_row)
      0 19 true 1 0 17 17 = Some r.
Proof.
  apply (DetectCodeword_returns (symbols := Example.symbols)
           (Example.row_image Example.symbol_row) 0 19 true 1 0 17 17).
  exact Example_symbols_contract.
Defined.

(** ** The whole decoder *)

Section DecoderCalls.

Context {symbols : Symbols} {detection : Detection} {decoders : Decoders}.

Lemma CreateDecoderResult_calls (detectionResult : DetectionResult)
    (codec : StringCodecs) (result : DecoderResult) (log : list Call) r (log' : list Call) :
  CreateDecoderResult detectionResult codec result log = Some (r, log') ->
  exists calls, log' = log ++ calls /\ (length calls <= 200)%nat.
Proof.
  assert (Hnone : exists calls : list Call, log = log ++ calls /\ (length calls <= 200)%nat).
  { exists []. rewrite app_nil_r. split; [reflexivity|cbn; lia]. }
  unfold CreateDecoderResult. rewrite Run_bind_unfold.
  destruct (CreateBarcodeMatrix detectionResult) as [[detectionResult' barcodeMatrix]|];
    cbn [defined]; [|discriminate].
  rewrite Run_bind_unfold.
  destruct (AdjustCodewordCount detectionResult' barcodeMatrix) as [[adjusted matrix']|];
    cbn [defined]; [|discriminate].
  destruct adjusted; cbn [negb]; [|intros [= <- <-]; exact Hnone].
  rewrite Run_bind_unfold. destruct (as_size _) as [count|]; cbn [defined]; [|discriminate].
  rewrite Run_bind_unfold. destruct (for_range _ _ _ _) as [cells|]; cbn [defined];
    [|discriminate].
  rewrite Run_bind_unfold. unfold CreateDecoderResultFromAmbiguousValues.
  destruct (attempts _ _ _ _ _ _ _ _ _ _) as [[[[status codewords'] result'] log1]|] eqn:Hrun;
    [|discriminate].
  intros [= <- <-]. apply attempts_calls in Hrun as (calls & -> & Hcalls).
  exists calls. split; [reflexivity|lia].
Qed.

(** A call of [Decode] calls the external decoders, the Reed-Solomon decoder
    and the bit stream parser, at most 200 times in all, whatever the image
    is: everything before [CreateDecoderResult] calls none of them. *)
Theorem Decode_bounded (image : BitMatrix)
    (imageTopLeft imageBottomLeft imageTopRight imageBottomRight : option ResultPoint)
    (minCodewordWidth maxCodewordWidth : Z) (codec : StringCodecs)
    (result : DecoderResult) (log : list Call) r (log' : list Call) :
  Decode image imageTopLeft imageBottomLeft imageTopRight imageBottomRight
    minCodewordWidth maxCodewordWidth codec result log = Some (r, log') ->
  exists calls, log' = log ++ calls /\ (length calls <= 200)%nat.
Proof.
  assert (Hnone : exists calls : list Call, log = log ++ calls /\ (length calls <= 200)%nat).
  { exists []. rewrite app_nil_r. split; [reflexivity|cbn; lia]. }
  unfold Decode.
  destruct (BoundingBox_Create _ _ _ _ _ _) as [box|]; [|intros [= <- <-]; exact Hnone].
  rewrite Run_bind_unfold.
  destruct (Decode_indicators _ _ _ _ _ _ _ _) as [[indicators|]|]; cbn [defined];
    [|intros [= <- <-]; exact Hnone|discriminate].
  rewrite Run_bind_unfold.
  destruct (for_range _ _ _ _) as [scan|]; cbn [defined]; [|discriminate].
  apply CreateDecoderResult_calls.
Qed.

End DecoderCalls.

Lemma Decode_bounded_witness :
  exists calls,
    [ErrorCorrection_Decode [2; 0; 0; 0] 2 [1; 2; 3];
     DecodedBitStreamParser_Decode [2; 0; 0; 0] 0]
    = [] ++ calls
    /\ (length calls <= 200)%nat.
Proof.
  apply (Decode_bounded (symbols := Example.symbols)
           (detection := Example.detection_read)
           (decoders := Example.decoders_accepting)
           (Example.row_image Example.symbol_row)
           (Some (1, 0)) None None (Some (18, 0)) 17 17 tt Example.no_result []
           (NoError,
            {| Example.decoded_codewords := [2; 0; 0; 0];
               Example.decoded_errorsCorrected := 0;
               Example.decoded_erasures := 3 |})).
  vm_compute. reflexivity.
Defined.

(** ** The theorems on the matrix and the columns at concrete inputs *)

Lemma Example_keeps_size : keeps_size (decoders := Example.decoders).
Proof.
  intros codewords numECCodewords erasures errorCount.
  cbn [ErrorCorrection_Decode_fn Example.decoders].
  now destruct (_ =? 0).
Qed.

Lemma CreateBarcodeMatrix_shape_witness :
  exists barcodeMatrix : list (list (list (Z * Z))),
    CreateBarcodeMatrix (detection := Example.detection) Example.filled_result
    = Some (Example.filled_result, barcodeMatrix)
    /\ size barcodeMatrix = 3
    /\ Forall (fun row => size row = 3 + 2) barcodeMatrix.
Proof.
  eexists. split; [reflexivity|].
  pose proof (CreateBarcodeMatrix_shape (detection := Example.detection)
                Example.filled_result _ _ eq_refl) as (Hrows & Hcells & _).
  split; [exact Hrows|exact Hcells].
Defined.

Lemma CreateBarcodeMatrix_cells_witness :
  exists barcodeMatrix : list (list (list (Z * Z))),
    CreateBarcodeMatrix (detection := Example.detection) Example.filled_result
    = Some (Example.filled_result, barcodeMatrix)
    /\ cell_at barcodeMatrix 0 2 = Some [(1, 2); (9, 1)].
Proof.
  eexists. split; [reflexivity|].
  apply (CreateBarcodeMatrix_cells (detection := Example.detection)
           Example.filled_result _ _ 0 2 eq_refl); cbn; lia.
Defined.

Lemma CreateDecoderResult_cells_witness :
  let barcodeMatrix : list (list (list (Z * Z))) :=
    [[ []; [(5, 1)]; [(1, 2); (9, 1)]; [(4, 1)]; [] ];
     [ []; [(10, 1)]; [(2, 1)]; [(6, 1)]; [] ];
     [ []; [(20, 1)]; [(3, 1)]; [(878, 1)]; [] ]] in
  exists cells,
    for_range 3 0
      (fun row =>
         for_range 3 0
           (CreateDecoderResult_cell (detection := Example.detection)
              Example.filled_result barcodeMatrix row))
      {| erasures := []; codewords := replicate 9 0;
         ambiguousIndexValues := []; ambiguousIndexesList := [] |}
    = Some cells
    /\ Cells_wf 9 cells.
Proof.
  apply (CreateDecoderResult_cells (detection := Example.detection) Example.filled_result
           [[ []; [(5, 1)]; [(1, 2); (9, 1)]; [(4, 1)]; [] ];
            [ []; [(10, 1)]; [(2, 1)]; [(6, 1)]; [] ];
            [ []; [(20, 1)]; [(3, 1)]; [(878, 1)]; [] ]]).
  - reflexivity.
  - repeat constructor.
  - cbn. lia.
Defined.

Lemma CreateDecoderResult_defined_witness :
  exists status result' log',
    CreateDecoderResult (symbols := Example.symbols) (detection := Example.detection)
      (decoders := Example.decoders) Example.filled_result tt Example.no_result []
    = Some (status, result', log').
Proof.
  apply (CreateDecoderResult_defined (symbols := Example.symbols)
           (detection := Example.detection) (decoders := Example.decoders)
           Example.filled_result tt Example.no_result []).
  - exact Example_keeps_size.
  - cbn. lia.
  - cbn. lia.
  - vm_compute. discriminate.
  - reflexivity.
  - reflexivity.
Defined.

Lemma AdjustBoundingBox_defined_witness :
  exists missingStartRows missingEndRows,
    0 <= missingStartRows <= 4
    /\ 0 <= missingEndRows <= 3
    /\ AdjustBoundingBox (detection := Example.detection) (Some Example.first_column)
       = Some (Some Example.first_column,
               match BoundingBox_AddMissingRows (Detection := Example.detection)
                       (Example.column_box Example.first_column)
                       missingStartRows missingEndRows false
               with
               | Some box => Some (Some box)
               | None => None
               end).
Proof.
  exact (AdjustBoundingBox_defined (detection := Example.detection) Example.first_column 1
           (Example.numbered 5 0) eq_refl).
Defined.

Lemma GetStartColumn_defined_witness :
  exists x,
    GetStartColumn (detection := Example.detection) Example.filled_result 2 0 true
    = Some x.
Proof.
  apply (GetStartColumn_defined (detection := Example.detection) Example.filled_result
           2 0 true).
  - reflexivity.
  - intros c Hvalid Hside. apply IsValidBarcodeColumn_range in Hvalid.
    assert (c = 0 \/ c = 1 \/ c = 2) as [-> | [-> | ->]] by (cbn in Hside; lia);
      discriminate.
  - discriminate.
Defined.


(** ** The codeword count, checked twice *)

(** A vector that [VerifyCodewordCount] has accepted, and repaired where the
    count was 0, is accepted again and left as it is, provided
    [numECCodewords] is not negative: the count it has written,
    [size - numECCodewords], is then between 1 and the size. *)
Theorem VerifyCodewordCount_again (codewords codewords' : list Z) (numECCodewords : Z) :
  0 <= numECCodewords ->
  VerifyCodewordCount codewords numECCodewords = (NoError, codewords') ->
  VerifyCodewordCount codewords' numECCodewords = (NoError, codewords').
Proof.
  intros Hec. unfold VerifyCodewordCount.
  destruct (Z.ltb_spec (size codewords) 4) as [|Hlen]; [discriminate|].
  destruct codewords as [|first rest]; [discriminate|].
  destruct (Z.gtb_spec first (size (first :: rest))) as [|Hle]; [discriminate|].
  destruct (Z.eqb_spec first 0) as [->|Hne].
  - destruct (Z.ltb_spec numECCodewords (size (0 :: rest))) as [Hlt|]; [|discriminate].
    intros [= <-]. rewrite !size_cons in *.
    destruct (Z.ltb_spec (1 + size rest) 4); [lia|].
    destruct (Z.gtb_spec (1 + size rest - numECCodewords) (1 + size rest)); [lia|].
    destruct (Z.eqb_spec (1 + size rest - numECCodewords) 0); [lia|reflexivity].
  - intros [= <-].
    destruct (Z.ltb_spec (size (first :: rest)) 4); [lia|].
    destruct (Z.gtb_spec first (size (first :: rest))); [lia|].
    destruct (Z.eqb_spec first 0); [lia|reflexivity].
Qed.

Lemma VerifyCodewordCount_again_witness :
  VerifyCodewordCount [3; 1; 2; 3; 4] 2 = (NoError, [3; 1; 2; 3; 4]).
Proof.
  apply (VerifyCodewordCount_again [0; 1; 2; 3; 4] [3; 1; 2; 3; 4] 2); [lia|reflexivity].
Defined.

(** * Properties of the Java bridge *)

(** Two values of an enum get the same Java name only when they are the
    same value: [JavaBarcodeFormatName], [JavaContentTypeName] and
    [JavaErrorTypeName] name each enumerator of their [switch] differently,
    and throw for no enumerator they name. *)
Theorem Java_names_distinct :
  (forall f g : BarcodeFormat.t,
     JavaBarcodeFormatName f = JavaBarcodeFormatName g <-> f = g)
  /\ (forall c d : ContentType.t, JavaContentTypeName c = JavaContentTypeName d <-> c = d)
  /\ (forall e f : ErrorType.t, JavaErrorTypeName e = JavaErrorTypeName f <-> e = f)
  /\ (forall f what, JavaBarcodeFormatName f = Throws what -> f = BarcodeFormat.Other)
  /\ (forall c what, JavaContentTypeName c = Throws what -> c = ContentType.Other)
  /\ (forall e what, JavaErrorTypeName e = Throws what -> e = ErrorType.Other).
Proof.
  repeat split; try (intros ->; reflexivity).
  - destruct f, g; cbn; intros H; try reflexivity; discriminate H.
  - destruct c, d; cbn; intros H; try reflexivity; discriminate H.
  - destruct e, f; cbn; intros H; try reflexivity; discriminate H.
  - intros f what. destruct f; cbn; intros H; try reflexivity; discriminate H.
  - intros c what. destruct c; cbn; intros H; try reflexivity; discriminate H.
  - intros e what. destruct e; cbn; intros H; try reflexivity; discriminate H.
Qed.

(** One [if (name == "...")] after the other. *)
Ltac name_cases x :=
  repeat match goal with
         | |- context [String.eqb ?name ?literal] =>
             destruct (String.eqb_spec name literal) as [->|?];
             [destruct x; cbn; intros H; try reflexivity; discriminate H|]
         end;
  discriminate.

(** The three [...FromString] functions accept exactly the names of the
    Kotlin enum constants, one name for each value and no other spelling:
    any other string makes them throw. *)
Theorem FromString_names :
  (forall name symbol,
     EanAddOnSymbolFromString name = Returns symbol
     <-> name = match symbol with
                | EanAddOnSymbol.Ignore => "IGNORE"
                | EanAddOnSymbol.Read => "READ"
                | EanAddOnSymbol.Require => "REQUIRE"
                end%string)
  /\ (forall name binarizer,
        BinarizerFromString name = Returns binarizer
        <-> name = match binarizer with
                   | Binarizer.LocalAverage => "LOCAL_AVERAGE"
                   | Binarizer.GlobalHistogram => "GLOBAL_HISTOGRAM"
                   | Binarizer.FixedThreshold => "FIXED_THRESHOLD"
                   | Binarizer.BoolCast => "BOOL_CAST"
                   end%string)
  /\ (forall name textMode,
        TextModeFromString name = Returns textMode
        <-> name = match textMode with
                   | TextMode.Plain => "PLAIN"
                   | TextMode.ECI => "ECI"
                   | TextMode.HRI => "HRI"
                   | TextMode.Hex => "HEX"
                   | TextMode.Escaped => "ESCAPED"
                   end%string).
Proof.
  split; [|split]; intros name x; (split; [|intros ->; now destruct x]).
  - unfold EanAddOnSymbolFromString. name_cases x.
  - unfold BinarizerFromString. name_cases x.
  - unfold TextModeFromString. name_cases x.
Qed.

(** ** The list of formats *)

Lemma first_not_Some (c : Ascii.ascii) (s : list Ascii.ascii) (i : nat) :
  first_not c s = Some i ->
  exists a rest, s = replicate i c ++ a :: rest /\ a <> c.
Proof.
  revert i. induction s as [|a s IH]; intros i; cbn; [discriminate|].
  destruct (Ascii.eqb_spec a c) as [->|Hne].
  - destruct (first_not c s) as [j|]; cbn; [|discriminate]. intros [= <-].
    destruct (IH j eq_refl) as (b & rest & -> & Hb). exists b, rest. auto.
  - intros [= <-]. exists a, s. auto.
Qed.

Lemma first_not_None (c : Ascii.ascii) (s : list Ascii.ascii) :
  first_not c s = None -> s = replicate (length s) c.
Proof.
  induction s as [|a s IH]; cbn; [reflexivity|].
  destruct (Ascii.eqb_spec a c) as [->|Hne]; [|discriminate].
  destruct (first_not c s); cbn; [discriminate|]. intros _. f_equal. now apply IH.
Qed.

(** [s.erase(0, s.find_first_not_of(c))] removes the chars [c] that [s]
    starts with, all of them and nothing else. *)
Lemma erase_first_not_of (s : list Ascii.ascii) (c : Ascii.ascii) :
  size s < npos ->
  exists n s',
    erase s 0 (find_first_not_of s c) = Some s'
    /\ s = replicate n c ++ s'
    /\ head s' <> Some c.
Proof.
  intros Hsize. unfold erase, find_first_not_of.
  pose proof (Nat2Z.is_nonneg (length s)) as Hlen. fold (size s) in Hlen.
  destruct (Z.gtb_spec 0 (size s)); [lia|]. cbn [take app].
  destruct (first_not c s) as [i|] eqn:Hfirst.
  - apply first_not_Some in Hfirst as (a & rest & -> & Ha).
    exists i, (a :: rest). unfold size. rewrite length_app, length_replicate. cbn [length].
    replace (Z.to_nat (0 + Z.min (Z.of_nat i) (Z.of_nat (i + S (length rest)) - 0)))
      with i by lia.
    rewrite drop_app_length' by now rewrite length_replicate.
    repeat split. cbn. congruence.
  - apply first_not_None in Hfirst.
    exists (length s), []. unfold size in *.
    replace (Z.to_nat (0 + Z.min npos (Z.of_nat (length s) - 0))) with (length s) by lia.
    rewrite drop_all. repeat split; [rewrite app_nil_r; exact Hfirst|discriminate].
Qed.

(** [s.erase(s.find_last_not_of(c) + 1)] removes the chars [c] that [s] ends
    with, all of them and nothing else; when [s] has no other char the sum
    wraps around to 0 and the whole string goes. *)
Lemma erase_last_not_of (s : list Ascii.ascii) (c : Ascii.ascii) :
  size s < npos ->
  exists m s',
    erase s ((find_last_not_of s c + 1) mod 2 ^ 64) npos = Some s'
    /\ s = s' ++ replicate m c
    /\ last s' <> Some c.
Proof.
  intros Hsize. unfold erase, find_last_not_of.
  destruct (first_not c (reverse s)) as [j|] eqn:Hfirst.
  - apply first_not_Some in Hfirst as (b & rest & Hrev & Hb).
    apply (f_equal reverse) in Hrev.
    rewrite reverse_involutive, reverse_app, reverse_cons, reverse_replicate in Hrev.
    subst s. exists j, (reverse rest ++ [b]).
    unfold size in *. rewrite !length_app, length_replicate in *. cbn [length] in *.
    rewrite length_reverse in *. unfold npos in Hsize.
    rewrite Z.mod_small by lia.
    destruct (Z.gtb_spec (Z.of_nat (length rest + 1 + j) - 1 - Z.of_nat j + 1)
                (Z.of_nat (length rest + 1 + j))); [lia|].
    replace (Z.to_nat (Z.of_nat (length rest + 1 + j) - 1 - Z.of_nat j + 1))
      with (length (reverse rest ++ [b]))
      by (rewrite length_app, length_reverse; cbn; lia).
    rewrite take_app_length.
    rewrite drop_ge by (rewrite !length_app, length_replicate, length_reverse; unfold npos; cbn; lia).
    rewrite app_nil_r. repeat split. rewrite last_snoc. congruence.
  - apply first_not_None in Hfirst. apply (f_equal reverse) in Hfirst.
    rewrite reverse_involutive, reverse_replicate, length_reverse in Hfirst.
    exists (length s), []. change ((npos + 1) mod 2 ^ 64) with 0.
    pose proof (Nat2Z.is_nonneg (length s)) as Hlen. fold (size s) in Hlen.
    destruct (Z.gtb_spec 0 (size s)); [lia|]. cbn [take app].
    unfold size in *.
    replace (Z.to_nat (0 + Z.min npos (Z.of_nat (length s) - 0))) with (length s) by lia.
    rewrite drop_all. repeat split; [exact Hfirst|discriminate].
Qed.

(** [JoinFormats] returns what is between the opening brackets the string
    starts with and the closing brackets it ends with: for a string shorter
    than [npos], as every [std::string] is, no [erase] is out of range, and
    the result neither starts with an opening bracket nor ends with a
    closing one. *)
Theorem JoinFormats_strips (jStr : list Ascii.ascii) :
  size jStr < npos ->
  exists n m s,
    JoinFormats jStr = Some s
    /\ jStr = replicate n "["%char ++ s ++ replicate m "]"%char
    /\ head s <> Some "["%char
    /\ last s <> Some "]"%char.
Proof.
  intros Hsize. unfold JoinFormats.
  destruct (erase_first_not_of jStr "["%char Hsize) as (n & s1 & -> & Hs1 & Hhead).
  cbn [mbind option_bind].
  assert (Hsize1 : size s1 < npos).
  { subst jStr. unfold size in *. rewrite length_app in Hsize. lia. }
  destruct (erase_last_not_of s1 "]"%char Hsize1) as (m & s & -> & Hs & Hlast).
  exists n, m, s. subst s1. repeat split; auto.
  destruct s as [|a s]; [discriminate|exact Hhead].
Qed.

Lemma JoinFormats_strips_witness :
  exists n m s,
    JoinFormats (String.list_ascii_of_string "[QR_CODE, AZTEC]") = Some s
    /\ String.list_ascii_of_string "[QR_CODE, AZTEC]"
       = replicate n "["%char ++ s ++ replicate m "]"%char
    /\ head s <> Some "["%char
    /\ last s <> Some "]"%char.
Proof.
  apply (JoinFormats_strips (String.list_ascii_of_string "[QR_CODE, AZTEC]")).
  vm_compute. reflexivity.
Defined.
